(** * DeepSpeed Windows patcher: build orchestration core

    A shallow embedding of [builddeepspeed.py] (class [DeepSpeedPatcher]).
    The file system, the registry, the network, the build subprocess and the
    dialogs are the program's outside world: the file system is a tree that
    the program reads and mutates, the others are oracles collected in an
    environment record.  Python exceptions are values of type [exn], and the
    methods run in a state-and-exception monad over the mutable part of the
    program (file system, log, status line, progress bar, dialogs shown). *)

From Stdlib Require Import List String Ascii Bool ZArith Lia.
From Stdlib Require Import Sorted.
Import ListNotations.
Open Scope string_scope.
Open Scope list_scope.
Set Warnings "-register-all".

(** * Strings *)

Definition dq : string := String (ascii_of_nat 34) EmptyString.
Definition nl : string := String (ascii_of_nat 10) EmptyString.
Definition bs : string := String (ascii_of_nat 92) EmptyString.

Definition lower_ascii (c : ascii) : ascii :=
  let n := nat_of_ascii c in
  if andb (Nat.leb 65 n) (Nat.leb n 90) then ascii_of_nat (n + 32) else c.

Fixpoint lower (s : string) : string :=
  match s with
  | EmptyString => EmptyString
  | String c s' => String (lower_ascii c) (lower s')
  end.

Definition upper_ascii (c : ascii) : ascii :=
  let n := nat_of_ascii c in
  if andb (Nat.leb 97 n) (Nat.leb n 122) then ascii_of_nat (n - 32) else c.

Fixpoint upper (s : string) : string :=
  match s with
  | EmptyString => EmptyString
  | String c s' => String (upper_ascii c) (upper s')
  end.

Definition nonempty (s : string) : bool :=
  match s with EmptyString => false | _ => true end.

(** The byte is a character of its own, not part of a longer one. *)
Definition is_ascii (c : ascii) : bool := Nat.ltb (nat_of_ascii c) 128.

(** A dot or a space: at the end of a name the system takes no notice of
    them. *)
Definition is_dot_or_space (c : ascii) : bool :=
  orb (Ascii.eqb c ".") (Ascii.eqb c " ").

(** [suffix_of t s]: [s] ends with [t]. *)
Definition suffix_of (t s : string) : bool :=
  let ls := String.length s in
  let lt := String.length t in
  andb (Nat.leb lt ls) (String.eqb (substring (ls - lt) lt s) t).

(** Python's [t in s] on strings. *)
Fixpoint contains (t s : string) : bool :=
  orb (prefix t s)
      match s with
      | EmptyString => false
      | String _ s' => contains t s'
      end.

(** * Exceptions and results *)

Inductive exn : Type :=
| Exception (msg : string)
| OSError (msg : string)
| HTTPError (status : Z)
| ImportError (msg : string)
| PackageNotFoundError (msg : string)
| CalledProcessError (code : Z)
| BadZipFile (msg : string)
| FileExistsError (msg : string).

Inductive result (A : Type) : Type :=
| Ok (a : A)
| Raise (e : exn).
Arguments Ok {A} a.
Arguments Raise {A} e.

(** * The file system

    The tree below the root of the system drive.  A directory lists its
    entries in the order [os.listdir] and [Path.glob] return them.  The
    operations fail as they do on Windows: a rename is refused when the
    destination exists, a directory is not removed by [os.remove] nor a
    file by [shutil.rmtree], and the root can be neither removed nor
    written.  Every entry can be removed and every directory written:
    permissions, locks and entries in use are not part of the tree, nor
    are the names that the system refuses. *)

Module Fs.

(** A path as the program writes it is the list of its components below
    the drive root, [C:\work\deepspeed\] being [["work"; "deepspeed"; ""]].
    The system reads it as [resolve] says: empty components and [.] are
    passed over and [..] goes up, at the root to the root.  Below, a
    place is a path so resolved, the root the empty one. *)
Definition path := list string.

Definition passed_over (c : string) : bool :=
  match c with
  | EmptyString => true
  | _ => String.eqb c "."
  end.

Definition step (stack : path) (c : string) : path :=
  if passed_over c then stack
  else if String.eqb c ".." then tl stack
  else c :: stack.

Definition resolve (p : path) : path := rev (fold_left step p []).

(** [os.path.dirname]: what stands before the last separator. *)
Definition dirname (p : path) : path := removelast p.
Definition basename (p : path) : string := last p EmptyString.

(** [Path(p)]: [pathlib] drops the empty components and [.], and leaves
    [..] where it is.  The root is its own parent. *)
Definition pathlib_path (p : path) : path :=
  filter (fun c => negb (passed_over c)) p.

Definition pathlib_parent (p : path) : path := removelast (pathlib_path p).

Inductive node : Type :=
| File (data : string)
| Dir (entries : list (string * node)).

Definition entries := list (string * node).

Definition names (es : entries) : list string := map fst es.

(** Names are told apart by the volume: two names are one entry when
    their keys are equal.  On the program's platform the key is the name
    in upper case, by the volume's own table, without the dots and spaces
    that end it.  What is taken for known is what becomes of a plain
    character that is not such an end. *)
Class Volume : Type := {
  key : string -> string;
  key_empty : key EmptyString = EmptyString;
  key_ascii : forall c s,
    is_ascii c = true ->
    (is_dot_or_space c = true -> key s <> EmptyString) ->
    key (String c s) = String (upper_ascii c) (key s)
}.

Section Operations.

Context {V : Volume}.

Definition same (a b : string) : bool := String.eqb (key a) (key b).

Fixpoint same_path (p q : path) : bool :=
  match p, q with
  | [], [] => true
  | a :: p', b :: q' => andb (same a b) (same_path p' q')
  | _, _ => false
  end.

Fixpoint assoc (k : string) (es : entries) : option node :=
  match es with
  | [] => None
  | (k', v) :: es' => if same k k' then Some v else assoc k es'
  end.

(** Replace what stands under [k], the entry keeping the name it has, or
    add an entry [k] at the end. *)
Fixpoint set_entry (k : string) (v : node) (es : entries) : entries :=
  match es with
  | [] => [(k, v)]
  | (k', v') :: es' =>
      if same k k' then (k', v) :: es' else (k', v') :: set_entry k v es'
  end.

Fixpoint remove_entry (k : string) (es : entries) : entries :=
  match es with
  | [] => []
  | (k', v') :: es' =>
      if same k k' then remove_entry k es' else (k', v') :: remove_entry k es'
  end.

Fixpoint lookup (p : path) (n : node) : option node :=
  match p with
  | [] => Some n
  | x :: p' =>
      match n with
      | File _ => None
      | Dir es => match assoc x es with
                  | Some c => lookup p' c
                  | None => None
                  end
      end
  end.

Definition exists_ (p : path) (n : node) : bool :=
  match lookup p n with Some _ => true | None => false end.

Definition isdir (p : path) (n : node) : bool :=
  match lookup p n with Some (Dir _) => true | _ => false end.

(** Run [f] on the entries of the directory at [p]; every component of
    [p] has to be a directory. *)
Fixpoint alter_dir (p : path) (f : entries -> result entries) (n : node)
  : result node :=
  match n with
  | File _ => Raise (OSError "not a directory")
  | Dir es =>
      match p with
      | [] => match f es with
              | Ok es' => Ok (Dir es')
              | Raise e => Raise e
              end
      | x :: p' =>
          match assoc x es with
          | None => Raise (OSError "no such file or directory")
          | Some c =>
              match alter_dir p' f c with
              | Ok c' => Ok (Dir (set_entry x c' es))
              | Raise e => Raise e
              end
          end
      end
  end.

(** The operations on one name [x] of the directory at [q]. *)

Definition rmtree_at (q : path) (x : string) : node -> result node :=
  alter_dir q (fun es =>
    match assoc x es with
    | Some (Dir _) => Ok (remove_entry x es)
    | Some (File _) => Raise (OSError "not a directory")
    | None => Raise (OSError "no such file or directory")
    end).

Definition rmdir_at (q : path) (x : string) : node -> result node :=
  alter_dir q (fun es =>
    match assoc x es with
    | Some (Dir []) => Ok (remove_entry x es)
    | Some (Dir (_ :: _)) => Raise (OSError "directory not empty")
    | Some (File _) => Raise (OSError "not a directory")
    | None => Raise (OSError "no such file or directory")
    end).

Definition remove_at (q : path) (x : string) : node -> result node :=
  alter_dir q (fun es =>
    match assoc x es with
    | Some (File _) => Ok (remove_entry x es)
    | Some (Dir _) => Raise (OSError "is a directory")
    | None => Raise (OSError "no such file or directory")
    end).

(** [open(path, 'w')], the writes and the close. *)
Definition write_at (q : path) (x : string) (d : string) : node -> result node :=
  alter_dir q (fun es =>
    match assoc x es with
    | Some (Dir _) => Raise (OSError "is a directory")
    | _ => Ok (set_entry x (File d) es)
    end).

(** Put a node under a name that is free. *)
Definition link_at (q : path) (x : string) (v : node) : node -> result node :=
  alter_dir q (fun es =>
    match assoc x es with
    | Some _ => Raise (OSError "file exists")
    | None => Ok (es ++ [(x, v)])
    end).

Definition unlink_at (q : path) (x : string) : node -> result node :=
  alter_dir q (fun es =>
    match assoc x es with
    | Some _ => Ok (remove_entry x es)
    | None => Raise (OSError "no such file or directory")
    end).

(** The same operations on a whole place, the root excepted. *)

Definition on_path (op : path -> string -> node -> result node) (p : path)
  (n : node) : result node :=
  match p with
  | [] => Raise (OSError "the root directory")
  | _ :: _ => op (removelast p) (last p EmptyString) n
  end.


(** [shutil.rmtree]: the entries go first and the directory last, so that
    of the root the entries are gone when the removal is refused. *)
Definition rmtree (p : path) (n : node) : result unit * node :=
  match p with
  | [] =>
      match n with
      | Dir _ => (Raise (OSError "access is denied"), Dir [])
      | File _ => (Raise (OSError "not a directory"), n)
      end
  | _ :: _ =>
      match rmtree_at (removelast p) (last p EmptyString) n with
      | Ok n' => (Ok tt, n')
      | Raise ex => (Raise ex, n)
      end
  end.

Definition rmdir : path -> node -> result node := on_path rmdir_at.
Definition remove : path -> node -> result node := on_path remove_at.
Definition write (p : path) (d : string) : node -> result node :=
  on_path (fun q x => write_at q x d) p.

(** [os.mkdir] *)
Definition mkdir (p : path) (n : node) : result node :=
  match p with
  | [] => Raise (OSError "access is denied")
  | _ :: _ =>
      alter_dir (removelast p)
        (fun es =>
           match assoc (last p EmptyString) es with
           | Some _ => Raise (FileExistsError "file exists")
           | None => Ok (es ++ [(last p EmptyString, Dir [])])
           end) n
  end.

(** The last statement of [os.makedirs]: [mkdir], its error forgiven when
    [exist_ok] is set and the directory is there. *)
Definition mkdir_leaf (p : path) (exist_ok : bool) (n : node)
  : result unit * node :=
  match mkdir p n with
  | Ok n' => (Ok tt, n')
  | Raise ex =>
      if andb exist_ok (isdir p n) then (Ok tt, n) else (Raise ex, n)
  end.

(** [os.makedirs(name, exist_ok=...)], on the components of [name] last
    first.  The path is split into head and tail, a separator at the end
    left aside; a head that does not exist is made first, a
    [FileExistsError] from that passed by, and nothing more is done for a
    tail [.]; then the leaf is made.  What was made before an error
    stays. *)
Fixpoint makedirs_rev (r : list string) (exist_ok : bool) (n : node)
  : result unit * node :=
  match r with
  | [] => mkdir_leaf [] exist_ok n
  | tail :: head =>
      match tail with
      | EmptyString => makedirs_rev head exist_ok n
      | _ =>
          if exists_ (resolve (rev head)) n
          then mkdir_leaf (resolve (rev r)) exist_ok n
          else
            match makedirs_rev head exist_ok n with
            | (Ok _, n1) | (Raise (FileExistsError _), n1) =>
                if String.eqb tail "." then (Ok tt, n1)
                else mkdir_leaf (resolve (rev r)) exist_ok n1
            | (Raise ex, n1) => (Raise ex, n1)
            end
      end
  end.

Definition makedirs (name : path) (exist_ok : bool) (n : node)
  : result unit * node :=
  makedirs_rev (rev name) exist_ok n.

(** [os.path.exists]: a separator after the name of a file is refused. *)
Definition os_path_exists (p : path) (n : node) : bool :=
  match lookup (resolve p) n with
  | Some (Dir _) => true
  | Some (File _) => nonempty (basename p)
  | None => false
  end.

Definition listdir (p : path) (n : node) : result (list string) :=
  match lookup p n with
  | Some (Dir es) => Ok (names es)
  | Some (File _) => Raise (OSError "not a directory")
  | None => Raise (OSError "no such file or directory")
  end.

(** [os.rename(src, dst)] on Windows: [dst] has to be free. *)
Definition rename (sq : path) (sx : string) (dq : path) (dx : string)
  (n : node) : result node :=
  match lookup (sq ++ [sx]) n with
  | None => Raise (OSError "no such file or directory")
  | Some s =>
      match unlink_at sq sx n with
      | Ok n1 => link_at dq dx s n1
      | Raise e => Raise e
      end
  end.

(** [shutil.move(src, dst)]: into [dst] when [dst] is a directory, a rename
    when [dst] is free, and the copy-then-delete fall-back when the rename is
    refused because [dst] is an existing file. *)
Definition move (sq : path) (sx : string) (dq : path) (dx : string)
  (n : node) : result node :=
  match lookup (sq ++ [sx]) n with
  | None => Raise (OSError "no such file or directory")
  | Some s =>
      match lookup (dq ++ [dx]) n with
      | None => rename sq sx dq dx n
      | Some (Dir _) =>
          if same_path (sq ++ [sx]) (dq ++ [dx]) then Ok n
          else
            match lookup (dq ++ [dx; sx]) n with
            | Some _ => Raise (OSError "Destination path already exists")
            | None => rename sq sx (dq ++ [dx]) sx n
            end
      | Some (File _) =>
          match s with
          | Dir _ => Raise (OSError "file exists")
          | File d =>
              match write_at dq dx d n with
              | Ok n1 => unlink_at sq sx n1
              | Raise e => Raise e
              end
          end
      end
  end.

(** [shutil.copy2(src, dst)], [dst] a directory or a file name. *)
Definition copy2 (src : path) (dst : path) (n : node) : result node :=
  match lookup src n with
  | Some (File d) =>
      match lookup dst n with
      | Some (Dir _) => write_at dst (basename src) d n
      | _ => write dst d n
      end
  | Some (Dir _) => Raise (OSError "is a directory")
  | None => Raise (OSError "no such file or directory")
  end.

(** Extraction of an archive member over what is already there: a file
    replaces a file, a directory is merged into a directory. *)
Fixpoint unpack_node (src : node) (dst : option node) : result node :=
  match src with
  | File d =>
      match dst with
      | Some (Dir _) => Raise (OSError "is a directory")
      | _ => Ok (File d)
      end
  | Dir es =>
      let fix go (l : entries) (acc : entries) : result entries :=
        match l with
        | [] => Ok acc
        | (k, v) :: l' =>
            match unpack_node v (assoc k acc) with
            | Ok v' => go l' (set_entry k v' acc)
            | Raise e => Raise e
            end
        end in
      match dst with
      | Some (File _) => Raise (OSError "file exists")
      | Some (Dir des) =>
          match go es des with Ok r => Ok (Dir r) | Raise e => Raise e end
      | None =>
          match go es [] with Ok r => Ok (Dir r) | Raise e => Raise e end
      end
  end.

Fixpoint unpack_entries (l : entries) (acc : entries) : result entries :=
  match l with
  | [] => Ok acc
  | (k, v) :: l' =>
      match unpack_node v (assoc k acc) with
      | Ok v' => unpack_entries l' (set_entry k v' acc)
      | Raise e => Raise e
      end
  end.

Definition unpack_into (members : entries) (p : path) (n : node) : result node :=
  alter_dir p (unpack_entries members) n.

(** [Path(d).glob('*.whl')]: the entries of [d] whose name ends in [.whl],
    without regard to case as on Windows; nothing when [d] is no directory. *)
Definition glob_whl (d : path) (n : node) : list string :=
  match lookup d n with
  | Some (Dir es) => filter (fun x => suffix_of ".whl" (lower x)) (names es)
  | _ => []
  end.

End Operations.

End Fs.

Import Fs.

Notation "a +++ b" := (String.append a b) (at level 60, right associativity).


(** A path as it prints. *)
Definition render (p : path) : string := "C:\" +++ String.concat bs p.

Definition str (e : exn) : string :=
  match e with
  | Exception m | OSError m | ImportError m | PackageNotFoundError m
  | BadZipFile m => m
  | FileExistsError m => m
  | HTTPError _ => "HTTP error"
  | CalledProcessError _ => "Command returned non-zero exit status"
  end.

(** * The environment: what the program reads but does not change *)

(** [winreg.OpenKey] followed by [QueryValueEx(key, "InstallDir")]: a
    [WindowsError] from either, the empty string, or a path. *)
Inductive reg_result : Type :=
| RegError
| RegEmpty
| RegValue (install_path : path).

Record torch_info : Type := {
  torch_dunder_version : string;
  torch_cuda_is_available : bool;
  torch_version_cuda : string
}.

(** What becomes of [subprocess.Popen(['cmd', '/c', build_script], ...)] and
    of the reads from its output.  The child writes [lines] and exits with
    [returncode]; or a read raises after [lines] were read, as it does on
    output that does not decode; or [Popen] itself raises.  [tree] is the
    file system at that moment.  A child that never ends is not described. *)
Inductive child : Type :=
| Exits (lines : list string) (returncode : Z) (tree : node)
| Breaks (lines : list string) (ex : exn) (tree : node)
| Fails (ex : exn).

(** What [shutil.unpack_archive] finds in a file: no zip archive; the
    members, as [zipfile] names them when it writes them; or the members
    that come before one that is damaged. *)
Inductive archive : Type :=
| NotZip
| Members (members : entries)
| Damaged (extracted : entries).

Record Env : Type := {
  version_var : string;
  cuda_var : string;
  install_dir_var : path;
  build_options : list (string * bool);
  python_version : string;
  torch_version : string;
  sys_executable : string;
  sys_version_tag : string;
  registry : string -> reg_result;
  askyesno_answer : string -> bool;
  requests_get : string -> result (Z * string);
  zip_members : string -> archive;
  run_cmd : node -> child;
  import_torch : result torch_info;
  distribution : string -> result unit;
  check_call : list string -> result unit;
  cuda_info : string;
  str_strip : string -> string
}.

(** * The state: what the program changes *)

Inductive box : Type :=
| ShowError (title msg : string)
| ShowInfo (title msg : string)
| AskYesNo (title msg : string).

Record World : Type := {
  fs : node;
  log_area : list string;
  status_var : string;
  progress_var : Z;
  boxes : list box
}.

Definition M (A : Type) : Type := World -> result A * World.

Definition ret {A} (a : A) : M A := fun w => (Ok a, w).

Definition bind {A B} (m : M A) (k : A -> M B) : M B :=
  fun w =>
    match m w with
    | (Ok a, w') => k a w'
    | (Raise e, w') => (Raise e, w')
    end.

Definition raise {A} (e : exn) : M A := fun w => (Raise e, w).

(** [try: m except Exception as e: h e]; what [m] did before it raised
    stays done. *)
Definition try_ {A} (m : M A) (h : exn -> M A) : M A :=
  fun w =>
    match m w with
    | (Ok a, w') => (Ok a, w')
    | (Raise e, w') => h e w'
    end.

Notation "x <- m ;; k" := (bind m (fun x => k))
  (at level 61, m at next level, right associativity).
Notation "m ;;; k" := (bind m (fun _ => k))
  (at level 61, right associativity).

Definition log (message : string) : M unit :=
  fun w => (Ok tt, {| fs := fs w; log_area := log_area w ++ [message];
                      status_var := status_var w; progress_var := progress_var w;
                      boxes := boxes w |}).

Definition set_status (s : string) : M unit :=
  fun w => (Ok tt, {| fs := fs w; log_area := log_area w;
                      status_var := s; progress_var := progress_var w;
                      boxes := boxes w |}).

Definition set_progress (v : Z) : M unit :=
  fun w => (Ok tt, {| fs := fs w; log_area := log_area w;
                      status_var := status_var w; progress_var := v;
                      boxes := boxes w |}).

Definition show (b : box) : M unit :=
  fun w => (Ok tt, {| fs := fs w; log_area := log_area w;
                      status_var := status_var w; progress_var := progress_var w;
                      boxes := boxes w ++ [b] |}).

Definition set_fs (n : node) (w : World) : World :=
  {| fs := n; log_area := log_area w; status_var := status_var w;
     progress_var := progress_var w; boxes := boxes w |}.

(** A file-system call: it changes the tree or raises. *)
Definition sys (op : node -> result node) : M unit :=
  fun w =>
    match op (fs w) with
    | Ok n => (Ok tt, set_fs n w)
    | Raise e => (Raise e, w)
    end.

(** A library call made of several: what it changed before it raised
    stays changed. *)
Definition act (op : node -> result unit * node) : M unit :=
  fun w => (fst (op (fs w)), set_fs (snd (op (fs w))) w).

(** A file-system query. *)
Definition ask {A} (q : node -> A) : M A := fun w => (Ok (q (fs w)), w).

Definition lift {A} (r : result A) : M A := fun w => (r, w).

(** * The program *)

Section Program.

Context {V : Volume}.

Section Patcher.

Variable e : Env.

Definition version : string := version_var e.

(** The workspace: the place that the text of the directory box names. *)
Definition install_dir : path := resolve (install_dir_var e).

(** ** [find_vs_installation] *)

Definition default_vs_paths : list (string * path) :=
  [ ("VS2019 BuildTools",
     ["Program Files (x86)"; "Microsoft Visual Studio"; "2019"; "BuildTools"]);
    ("VS2019 Community",
     ["Program Files (x86)"; "Microsoft Visual Studio"; "2019"; "Community"]);
    ("VS2022 BuildTools",
     ["Program Files"; "Microsoft Visual Studio"; "2022"; "BuildTools"]);
    ("VS2022 Community",
     ["Program Files"; "Microsoft Visual Studio"; "2022"; "Community"]) ].

Definition vs_reg_paths : list (string * string) :=
  [ ("SOFTWARE\Microsoft\VisualStudio\Setup\Community", "2022");
    ("SOFTWARE\Microsoft\VisualStudio\Setup\BuildTools", "2022");
    ("SOFTWARE\WOW6432Node\Microsoft\VisualStudio\Setup\Community", "2019");
    ("SOFTWARE\WOW6432Node\Microsoft\VisualStudio\Setup\BuildTools", "2019") ].

Definition vcvars_of (root : path) : path :=
  root ++ ["VC"; "Auxiliary"; "Build"; "vcvars64.bat"].

(** A toolchain found: [(vs_name, vs_path, vcvars_path)]. *)
Definition toolchain : Type := string * path * path.

(** The first loop: the well-known install roots. *)
Fixpoint scan_default (l : list (string * path)) (n : node) : option toolchain :=
  match l with
  | [] => None
  | (vs_name, vs_path) :: l' =>
      let vcvars_path := vcvars_of vs_path in
      if os_path_exists vcvars_path n then Some (vs_name, vs_path, vcvars_path)
      else scan_default l' n
  end.

(** The second loop: the registry keys; a [WindowsError] skips the key. *)
Fixpoint scan_registry (l : list (string * string)) (n : node) : option toolchain :=
  match l with
  | [] => None
  | (reg_path, ver) :: l' =>
      match registry e reg_path with
      | RegError => scan_registry l' n
      | RegEmpty => scan_registry l' n
      | RegValue install_path =>
          let parent_path := pathlib_parent install_path in
          let vcvars_path := vcvars_of parent_path in
          if os_path_exists vcvars_path n then
            let edition :=
              if contains "Community" reg_path then "Community"
              else "BuildTools" in
            Some ("VS" +++ ver +++ " " +++ edition, parent_path, vcvars_path)
          else scan_registry l' n
      end
  end.

Definition find_vs_installation (n : node) : option toolchain :=
  match scan_default default_vs_paths n with
  | Some t => Some t
  | None => scan_registry vs_reg_paths n
  end.

(** ** [run_build_process] *)

Definition cuda_path : path :=
  ["Program Files"; "NVIDIA GPU Computing Toolkit"; "CUDA"; "v" +++ cuda_var e].

(** The lines written to [run_build.bat], in order. *)
Definition build_script_lines (vcvars_path : path) : list string :=
  [ "@echo off";
    "chcp 65001";
    "set PYTHONUTF8=1";
    "set PYTHONIOENCODING=utf-8";
    "call " +++ dq +++ render vcvars_path +++ dq;
    "set DS_BUILD_STRING=nogit";
    "set CUDA_PATH=" +++ render cuda_path;
    "set CUDA_HOME=%CUDA_PATH%";
    "set DISTUTILS_USE_SDK=1";
    "set DS_BUILD_AIO=0";
    "set DS_BUILD_CUTLASS_OPS=0";
    "set DS_BUILD_EVOFORMER_ATTN=0";
    "set DS_BUILD_FP_QUANTIZER=0";
    "set DS_BUILD_RAGGED_DEVICE_OPS=0";
    "set DS_BUILD_SPARSE_ATTN=0";
    "set DS_BUILD_TRANSFORMER_INFERENCE=0";
    "echo ============ Environment Variables ============";
    "echo CUDA_PATH=%CUDA_PATH%";
    "echo CUDA_HOME=%CUDA_HOME%";
    "echo PATH=%PATH%";
    "echo INCLUDE=%INCLUDE%";
    "echo Platform: %VSCMD_ARG_TGT_ARCH%";
    "echo ============================================";
    "cd /d " +++ dq +++ render (install_dir_var e) +++ dq;
    dq +++ sys_executable e +++ dq +++ " setup.py bdist_wheel";
    "if errorlevel 1 exit /b 1" ].

Definition build_script_text (vcvars_path : path) : string :=
  String.concat EmptyString (map (fun l => l +++ nl) (build_script_lines vcvars_path)).

Definition build_script : path := install_dir ++ ["run_build.bat"].

(** The read loop: every line the child wrote goes to the log, stripped. *)
Fixpoint log_output (lines : list string) : M unit :=
  match lines with
  | [] => ret tt
  | output :: rest =>
      (if nonempty output then log (str_strip e output) else ret tt) ;;;
      log_output rest
  end.

(** [subprocess.Popen(['cmd', '/c', build_script], ...)] and the read loop. *)
Definition popen_build : M Z :=
  fun w =>
    match run_cmd e (fs w) with
    | Exits lines returncode n =>
        bind (log_output lines) (fun _ => ret returncode) (set_fs n w)
    | Breaks lines ex n =>
        bind (log_output lines) (fun _ => raise ex) (set_fs n w)
    | Fails ex => (Raise ex, w)
    end.

Definition run_build_process : M bool :=
  try_
    (found <- ask find_vs_installation ;;
     match found with
     | None => raise (Exception "Visual Studio 64-bit build tools not found")
     | Some (vs_name, vs_path, vcvars_path) =>
         log ("Using Visual Studio 64-bit tools from: " +++ render vs_path) ;;;
         sys (write_at install_dir "run_build.bat" (build_script_text vcvars_path)) ;;;
         log "Starting build with 64-bit tools..." ;;;
         returncode <- popen_build ;;
         (if Z.eqb returncode 0 then ret tt else raise (Exception "Build failed")) ;;;
         try_ (sys (remove build_script)) (fun _ => ret tt) ;;;
         ret true
     end)
    (fun ex => log ("Build process error: " +++ str ex) ;;; ret false).

(** ** [manage_build_directory] *)

Definition archive_dir_text : path :=
  dirname (install_dir_var e) ++ ["deepspeed_wheels"].

Definition archive_dir : path := resolve archive_dir_text.

Definition manage_build_directory : M bool :=
  try_
    (act (makedirs archive_dir_text true) ;;;
     present <- ask (os_path_exists (install_dir_var e)) ;;
     (if present then
        log "Cleaning existing build directory..." ;;;
        act (rmtree install_dir)
      else ret tt) ;;;
     act (makedirs (install_dir_var e) false) ;;;
     ret true)
    (fun ex => log ("Error managing build directory: " +++ str ex) ;;; ret false).

(** ** [archive_wheel] *)

Definition wheel_dir : path := install_dir ++ ["dist"].

(** [str(wheel_file)] for a wheel that the search in [wheel_dir] gave. *)
Definition wheel_text (wheel_file : string) : path :=
  pathlib_path (install_dir_var e ++ ["dist"; wheel_file]).

Definition archive_subdir : string :=
  "deepspeed_" +++ version +++ "_cuda" +++ cuda_var e +++ "_py" +++ sys_version_tag e.

Definition archive_path_text : path :=
  dirname (install_dir_var e) ++ ["deepspeed_wheels"; archive_subdir].

Definition archive_path : path := resolve archive_path_text.

Definition archive_wheel : M bool :=
  try_
    (wheel_files <- ask (glob_whl wheel_dir) ;;
     match wheel_files with
     | [] => ret false
     | first :: _ =>
         act (makedirs archive_path_text true) ;;;
         sys (copy2 (wheel_dir ++ [first]) archive_path) ;;;
         log ("Wheel file archived to: " +++ render archive_path_text) ;;;
         ret true
     end)
    (fun ex => log ("Error archiving wheel: " +++ str ex) ;;; ret false).

(** ** Download and extraction

    The statements from [version = self.version_var.get()] to
    [self.progress_var.set(50)], which [build_only] and [start_installation]
    both contain word for word. *)

Definition url : string :=
  "https://github.com/microsoft/DeepSpeed/archive/v" +++ version +++ ".zip".

Definition zip_path : path := install_dir ++ ["deepspeed.zip"].

Definition extracted_dir : path := install_dir ++ ["DeepSpeed-" +++ version].

Definition raise_for_status (status : Z) : M unit :=
  if andb (Z.leb 400 status) (Z.ltb status 600) then raise (HTTPError status)
  else ret tt.

(** [shutil.unpack_archive]: member by member; what is written before a
    damaged member stays written. *)
Definition unpack_archive (zip dest : path) : M unit :=
  found <- ask (lookup zip) ;;
  match found with
  | Some (File d) =>
      match zip_members e d with
      | Members members => sys (unpack_into members dest)
      | Damaged extracted =>
          sys (unpack_into extracted dest) ;;;
          raise (BadZipFile "Bad CRC-32")
      | NotZip => raise (OSError "not a zip file")
      end
  | Some (Dir _) => raise (OSError "is a directory")
  | None => raise (OSError "no such file or directory")
  end.

(** [for item in os.listdir(extracted_dir): shutil.move(...)] *)
Fixpoint move_up (items : list string) : M unit :=
  match items with
  | [] => ret tt
  | item :: rest =>
      sys (move extracted_dir item install_dir item) ;;;
      move_up rest
  end.

Definition download_and_extract : M unit :=
  log ("Downloading DeepSpeed " +++ version +++ "...") ;;;
  log ("Download URL: " +++ url) ;;;
  response <- lift (requests_get e url) ;;
  raise_for_status (fst response) ;;;
  act (makedirs (install_dir_var e) true) ;;;
  sys (write zip_path (snd response)) ;;;
  set_progress 30 ;;;
  log "Extracting files..." ;;;
  unpack_archive zip_path install_dir ;;;
  items <- (fun w => (listdir extracted_dir (fs w), w)) ;;
  move_up items ;;;
  sys (rmdir extracted_dir) ;;;
  sys (remove zip_path) ;;;
  set_progress 50.

(** ** Dialogs *)

Definition showerror (title msg : string) : M unit := show (ShowError title msg).
Definition showinfo (title msg : string) : M unit := show (ShowInfo title msg).
Definition askyesno (title msg : string) : M bool :=
  show (AskYesNo title msg) ;;; ret (askyesno_answer e title).

Definition show_cuda_setup_info : M unit := log (cuda_info e).

Definition confirm_text : string :=
  "Building DeepSpeed " +++ version +++ " with:" +++ nl +++ nl +++
  "Python: " +++ python_version e +++ nl +++
  "PyTorch: " +++ torch_version e +++ nl +++
  "CUDA: " +++ cuda_var e +++ nl +++ nl +++ "Continue?".

(** ** [build_only] *)

Definition build_only : M unit :=
  if negb (nonempty version) then
    showerror "Error" "Please select a DeepSpeed version"
  else
    try_
      (log (nl +++ "Build Environment:") ;;;
       log ("Python Version: " +++ python_version e) ;;;
       log ("PyTorch Version: " +++ torch_version e) ;;;
       log ("Selected CUDA Version: " +++ cuda_var e) ;;;
       log ("Building DeepSpeed Version: " +++ version +++ nl) ;;;
       go <- askyesno "Confirm Build Environment" confirm_text ;;
       if negb go then ret tt
       else
         set_progress 0 ;;;
         set_status "Starting build..." ;;;
         prepared <- manage_build_directory ;;
         (if negb prepared then raise (Exception "Failed to prepare build directory")
          else ret tt) ;;;
         download_and_extract ;;;
         built <- run_build_process ;;
         (if negb built then raise (Exception "Build failed") else ret tt) ;;;
         archived <- archive_wheel ;;
         (if negb archived then log "⚠ Warning: Could not archive wheel file"
          else ret tt) ;;;
         set_progress 100 ;;;
         set_status "Build complete!" ;;;
         log "✓ Build completed successfully!" ;;;
         view <- askyesno "Build Success"
           "Build completed successfully! Would you like to view the CUDA_HOME setup instructions?" ;;
         if view then show_cuda_setup_info
         else showinfo "Success" "DeepSpeed has been successfully built!")
      (fun ex =>
         log ("Error during build: " +++ str ex) ;;;
         set_status "Build failed!" ;;;
         showerror "Error" ("Build failed: " +++ str ex)).

(** ** [start_installation] *)

Definition start_installation : M unit :=
  if negb (nonempty version) then
    showerror "Error" "Please select a DeepSpeed version"
  else
    try_
      (log (nl +++ "Build Environment:") ;;;
       log ("Python Version: " +++ python_version e) ;;;
       log ("PyTorch Version: " +++ torch_version e) ;;;
       log ("Selected CUDA Version: " +++ cuda_var e) ;;;
       log ("Building DeepSpeed Version: " +++ version) ;;;
       go <- askyesno "Confirm Build Environment" confirm_text ;;
       if negb go then ret tt
       else
         set_progress 0 ;;;
         set_status "Starting installation..." ;;;
         prepared <- manage_build_directory ;;
         (if negb prepared then raise (Exception "Failed to prepare build directory")
          else ret tt) ;;;
         download_and_extract ;;;
         built <- run_build_process ;;
         (if negb built then raise (Exception "Build failed") else ret tt) ;;;
         archived <- archive_wheel ;;
         (if negb archived then log "⚠ Warning: Could not archive wheel file"
          else ret tt) ;;;
         set_progress 90 ;;;
         log "Installing wheel..." ;;;
         wheel_files <- ask (glob_whl wheel_dir) ;;
         match wheel_files with
         | [] => raise (Exception "No wheel file found after build")
         | wheel_file :: _ =>
             lift (check_call e [sys_executable e; "-m"; "pip"; "install";
                                 render (wheel_text wheel_file);
                                 "--force-reinstall"]) ;;;
             set_progress 100 ;;;
             set_status "Installation complete!" ;;;
             log "✓ Installation completed successfully!" ;;;
             view <- askyesno "Installation Success"
               "Installation completed successfully! Would you like to view the CUDA setup instructions?" ;;
             if view then show_cuda_setup_info
             else showinfo "Success" "DeepSpeed has been successfully installed!"
         end)
      (fun ex =>
         log ("Error during installation: " +++ str ex) ;;;
         set_status "Installation failed!" ;;;
         showerror "Error" ("Installation failed: " +++ str ex)).

(** ** [check_prerequisites] *)

Definition required_packages : list (string * string) :=
  [ ("torch", "PyTorch is required for DeepSpeed");
    ("ninja", "Ninja build system is required for compilation");
    ("psutil", "psutil is required for system monitoring") ].

(** The Visual Studio check; it returns the new [prerequisites_met]. *)
Definition check_vs (met : bool) : M bool :=
  log (nl +++ "Checking Visual Studio installation:") ;;;
  found <- ask find_vs_installation ;;
  match found with
  | Some (vs_name, vs_path, _) =>
      log ("✓ Found " +++ vs_name +++ " at: " +++ render vs_path) ;;;
      ret met
  | None =>
      log "❌ No compatible Visual Studio installation found" ;;;
      log "Please install Visual Studio Community Edition from:" ;;;
      log "https://visualstudio.microsoft.com/vs/community/" ;;;
      log "During installation, select 'Desktop development with C++'" ;;;
      ret false
  end.

Definition nvcc_path : path := cuda_path ++ ["bin"; "nvcc.exe"].

Definition check_cuda (met : bool) : M bool :=
  log (nl +++ "Checking CUDA installation:") ;;;
  try_
    (present <- ask (exists_ cuda_path) ;;
     if negb present then
       log ("❌ CUDA not found at: " +++ render cuda_path) ;;;
       log "Please install CUDA Toolkit from:" ;;;
       log "https://developer.nvidia.com/cuda-toolkit-archive" ;;;
       log "Required components:" ;;;
       log "- CUDA > Development > Compiler > nvcc" ;;;
       log "- CUDA > Development > Libraries > CUBLAS" ;;;
       log "- CUDA > Runtime > Libraries > CUBLAS" ;;;
       ret false
     else
       log ("✓ Found CUDA installation at: " +++ render cuda_path) ;;;
       nvcc <- ask (exists_ nvcc_path) ;;
       if nvcc then log "✓ Found nvcc compiler" ;;; ret met
       else
         log "❌ nvcc compiler not found - please install CUDA Development tools" ;;;
         ret false)
    (fun ex => log ("Error checking CUDA: " +++ str ex) ;;; ret false).

(** One turn of the loop over [required_packages]. *)
Definition check_package (package description : string) (met : bool) : M bool :=
  try_
    (if String.eqb package "torch" then
       try_
         (torch <- lift (import_torch e) ;;
          log ("✓ " +++ package +++ " " +++ torch_dunder_version torch +++ " is installed") ;;;
          (if torch_cuda_is_available torch then
             log "  ✓ CUDA is available for PyTorch" ;;;
             log ("  ✓ CUDA Version: " +++ torch_version_cuda torch)
           else log "  ⚠ CUDA is not available for PyTorch") ;;;
          ret met)
         (fun ex =>
            match ex with
            | ImportError _ | PackageNotFoundError _ =>
                log ("❌ " +++ package +++ " is missing - " +++ description) ;;;
                log "Please install PyTorch manually from: https://pytorch.org/get-started/locally/" ;;;
                ret false
            | _ => raise ex
            end)
     else
       try_
         (lift (distribution e package) ;;;
          log ("✓ " +++ package +++ " is installed") ;;;
          ret met)
         (fun ex =>
            match ex with
            | PackageNotFoundError _ =>
                log ("! " +++ package +++ " is missing - attempting to install...") ;;;
                try_
                  (lift (check_call e [sys_executable e; "-m"; "pip"; "install"; package]) ;;;
                   log ("✓ Successfully installed " +++ package) ;;;
                   ret met)
                  (fun ex' =>
                     match ex' with
                     | CalledProcessError _ =>
                         log ("❌ Failed to install " +++ package +++ ": " +++ str ex') ;;;
                         ret false
                     | _ => raise ex'
                     end)
            | _ => raise ex
            end))
    (fun ex => log ("❌ Error processing " +++ package +++ ": " +++ str ex) ;;; ret false).

Fixpoint check_packages (l : list (string * string)) (met : bool) : M bool :=
  match l with
  | [] => ret met
  | (package, description) :: l' =>
      met' <- check_package package description met ;;
      check_packages l' met'
  end.

Definition check_prerequisites : M bool :=
  set_progress 0 ;;;
  set_status "Checking prerequisites..." ;;;
  log (nl +++ "Checking prerequisites...") ;;;
  met1 <- check_vs true ;;
  met2 <- check_cuda met1 ;;
  log (nl +++ "Checking Python packages:") ;;;
  met3 <- try_ (check_packages required_packages met2)
               (fun ex => log ("Error checking Python packages: " +++ str ex) ;;; ret false) ;;
  (if met3 then
     log (nl +++ "✓ All prerequisites met!") ;;;
     set_status "Ready to install"
   else
     log (nl +++ "❌ Some prerequisites are missing") ;;;
     log "Please install missing components before proceeding" ;;;
     set_status "Prerequisites check failed" ;;;
     showerror "Prerequisites"
       "Some prerequisites are missing. Please check the log for details and installation instructions.") ;;;
  set_progress (if met3 then 100 else 0) ;;;
  ret met3.

End Patcher.

(** ** [install_wheel] *)

Section Installer.

Variable e : Env.

(** [subprocess.run(args, check=False)]: the exit status of the command is
    not looked at. *)
Definition subprocess_run (args : list string) : M unit :=
  fun w =>
    match check_call e args with
    | Raise (CalledProcessError _) => (Ok tt, w)
    | r => (r, w)
    end.

Definition uninstall_args : list string :=
  [sys_executable e; "-m"; "pip"; "uninstall"; "deepspeed"; "-y"].

Definition install_args (wheel_file : string) : list string :=
  [sys_executable e; "-m"; "pip"; "install"; render (wheel_text e wheel_file)].

Definition install_wheel : M unit :=
  try_
    (log "Looking for built wheel..." ;;;
     wheel_files <- ask (glob_whl (wheel_dir e)) ;;
     match wheel_files with
     | [] => raise (Exception "No wheel file found. Please build DeepSpeed first.")
     | wheel_file :: _ =>
         log ("Found wheel: " +++ wheel_file) ;;;
         log "Uninstalling existing DeepSpeed..." ;;;
         subprocess_run uninstall_args ;;;
         log "Installing DeepSpeed wheel..." ;;;
         lift (check_call e (install_args wheel_file)) ;;;
         log "✓ Installation completed successfully!" ;;;
         showinfo "Success" "DeepSpeed has been successfully installed!"
     end)
    (fun ex =>
       log ("Error during installation: " +++ str ex) ;;;
       showerror "Error" ("Installation failed: " +++ str ex)).

End Installer.

(** ** [get_available_cuda_versions] and the defaults of [create_gui] *)

(** [sorted] on strings: the one ordered arrangement of the list, built by
    insertion; [le] is the order asked for. *)
Fixpoint insert_by (le : string -> string -> bool) (x : string) (l : list string)
  : list string :=
  match l with
  | [] => [x]
  | y :: l' => if le x y then x :: l else y :: insert_by le x l'
  end.

Fixpoint sort_by (le : string -> string -> bool) (l : list string) : list string :=
  match l with
  | [] => []
  | x :: l' => insert_by le x (sort_by le l')
  end.

Definition sorted (l : list string) : list string := sort_by String.leb l.

Definition sorted_reverse (l : list string) : list string :=
  sort_by (fun a b => String.leb b a) l.

Definition cuda_base : path := ["Program Files"; "NVIDIA GPU Computing Toolkit"; "CUDA"].

(** [item[1:]] for the items that start with [v]. *)
Fixpoint version_items (items : list string) : list string :=
  match items with
  | [] => []
  | item :: rest =>
      match item with
      | String c tail =>
          if Ascii.eqb c "v" then tail :: version_items rest else version_items rest
      | EmptyString => version_items rest
      end
  end.

Definition get_available_cuda_versions (n : node) : result (list string) :=
  if exists_ cuda_base n then
    match listdir cuda_base n with
    | Ok items => Ok (sorted_reverse (version_items items))
    | Raise ex => Raise ex
    end
  else Ok (sorted_reverse []).

(** [available_versions], from the keys of [config['versions']]. *)
Definition available_versions (keys : list string) : list string := sorted keys.

(** The values the two selection boxes start with. *)
Definition default_version (keys : list string) : string :=
  last (available_versions keys) EmptyString.

Definition default_cuda (cuda_versions : list string) : string :=
  hd "12.1" cuda_versions.

End Program.

(** * Vocabulary of the specification *)

Section Vocabulary.

Context {V : Volume}.

(** ** Names and paths *)

(** The keys of the names a directory lists. *)
Definition keys (es : entries) : list string := map key (names es).

(** The path goes up somewhere. *)
Definition climbs (p : path) : bool := existsb (fun c => String.eqb c "..") p.

(** Every component is a name: the path has no empty component, as one
    that ends in a separator has, no [.] and no [..]. *)
Definition is_name (c : string) : bool :=
  andb (negb (passed_over c)) (negb (String.eqb c "..")).

Definition ordinary (p : path) : bool := forallb is_name p.

(** Nothing of [n] is lost in [n']: its files are there as they were, and
    its directories are directories still. *)
Definition kept (n n' : node) : Prop :=
  forall p,
    (forall d, lookup p n = Some (File d) -> lookup p n' = Some (File d)) /\
    (isdir p n = true -> isdir p n' = true).

(** [q] is [p] or an ancestor of [p]. *)
Fixpoint under (q p : path) : bool :=
  match q, p with
  | [], _ => true
  | x :: q', y :: p' => andb (same x y) (under q' p')
  | _ :: _, [] => false
  end.

(** The two paths part at some component. *)
Fixpoint diverge (p q : path) : bool :=
  match p, q with
  | a :: p', b :: q' => if same a b then diverge p' q' else true
  | _, _ => false
  end.


(** ** Directories made on the way

    What [os.makedirs] comes to on a place: the missing directories of [p]
    are all created; a file on the way is an error, and so is an existing
    leaf unless it is a directory and [exist_ok] is set. *)

Fixpoint chain (p : path) : node :=
  match p with
  | [] => Dir []
  | x :: p' => Dir [(x, chain p')]
  end.

Fixpoint mkpath (p : path) (exist_ok : bool) (n : node) : result node :=
  match n with
  | File _ => Raise (OSError "file exists")
  | Dir es =>
      match p with
      | [] => if exist_ok then Ok n else Raise (OSError "file exists")
      | x :: p' =>
          match assoc x es with
          | None => Ok (Dir (es ++ [(x, chain p')]))
          | Some c =>
              match mkpath p' exist_ok c with
              | Ok c' => Ok (Dir (set_entry x c' es))
              | Raise e => Raise e
              end
          end
      end
  end.

(** ** Toolchain candidates in priority order

    The four well-known install roots, each with its name and the
    environment script looked for, then the four registry keys: a key
    whose [InstallDir] is a path stands for the directory above it. *)

Definition well_known : list toolchain :=
  [ ("VS2019 BuildTools",
     ["Program Files (x86)"; "Microsoft Visual Studio"; "2019"; "BuildTools"],
     ["Program Files (x86)"; "Microsoft Visual Studio"; "2019"; "BuildTools";
      "VC"; "Auxiliary"; "Build"; "vcvars64.bat"]);
    ("VS2019 Community",
     ["Program Files (x86)"; "Microsoft Visual Studio"; "2019"; "Community"],
     ["Program Files (x86)"; "Microsoft Visual Studio"; "2019"; "Community";
      "VC"; "Auxiliary"; "Build"; "vcvars64.bat"]);
    ("VS2022 BuildTools",
     ["Program Files"; "Microsoft Visual Studio"; "2022"; "BuildTools"],
     ["Program Files"; "Microsoft Visual Studio"; "2022"; "BuildTools";
      "VC"; "Auxiliary"; "Build"; "vcvars64.bat"]);
    ("VS2022 Community",
     ["Program Files"; "Microsoft Visual Studio"; "2022"; "Community"],
     ["Program Files"; "Microsoft Visual Studio"; "2022"; "Community";
      "VC"; "Auxiliary"; "Build"; "vcvars64.bat"]) ].

Definition registry_keys : list (string * string) :=
  [ ("SOFTWARE\Microsoft\VisualStudio\Setup\Community", "VS2022 Community");
    ("SOFTWARE\Microsoft\VisualStudio\Setup\BuildTools", "VS2022 BuildTools");
    ("SOFTWARE\WOW6432Node\Microsoft\VisualStudio\Setup\Community", "VS2019 Community");
    ("SOFTWARE\WOW6432Node\Microsoft\VisualStudio\Setup\BuildTools", "VS2019 BuildTools") ].

Definition registered (e : Env) (k : string * string) : list toolchain :=
  match registry e (fst k) with
  | RegValue install_path =>
      [(snd k, pathlib_parent install_path,
        pathlib_parent install_path ++ ["VC"; "Auxiliary"; "Build"; "vcvars64.bat"])]
  | RegEmpty | RegError => []
  end.

Definition candidates (e : Env) : list toolchain :=
  well_known ++ flat_map (registered e) registry_keys.

Definition script_of (t : toolchain) : path := snd t.

Definition script_exists (n : node) (t : toolchain) : bool :=
  exists_ (resolve (script_of t)) n.

(** ** The prerequisite report

    One finding per subject: [(subject, satisfied, detail)], each decided by
    the subject's own state; [detail] is the line the check writes. *)

Section Report.

Variable e : Env.
Variable n : node.

Definition finding : Type := string * bool * string.
Definition satisfied (f : finding) : bool := snd (fst f).
Definition detail (f : finding) : string := snd f.

Definition vs_finding : finding :=
  match find_vs_installation e n with
  | Some (vs_name, vs_path, _) =>
      ("Visual Studio", true, "✓ Found " +++ vs_name +++ " at: " +++ render vs_path)
  | None =>
      ("Visual Studio", false, "❌ No compatible Visual Studio installation found")
  end.

Definition cuda_finding : finding :=
  if exists_ (cuda_path e) n then
    if exists_ (nvcc_path e) n then ("CUDA", true, "✓ Found nvcc compiler")
    else ("CUDA", false,
          "❌ nvcc compiler not found - please install CUDA Development tools")
  else ("CUDA", false, "❌ CUDA not found at: " +++ render (cuda_path e)).

Definition torch_finding : finding :=
  match import_torch e with
  | Ok torch =>
      ("torch", true, "✓ torch " +++ torch_dunder_version torch +++ " is installed")
  | Raise (ImportError _) | Raise (PackageNotFoundError _) =>
      ("torch", false, "❌ torch is missing - PyTorch is required for DeepSpeed")
  | Raise ex => ("torch", false, "❌ Error processing torch: " +++ str ex)
  end.

Definition package_finding (package : string) : finding :=
  match distribution e package with
  | Ok _ => (package, true, "✓ " +++ package +++ " is installed")
  | Raise (PackageNotFoundError _) =>
      match check_call e [sys_executable e; "-m"; "pip"; "install"; package] with
      | Ok _ => (package, true, "✓ Successfully installed " +++ package)
      | Raise (CalledProcessError c) =>
          (package, false,
           "❌ Failed to install " +++ package +++ ": " +++ str (CalledProcessError c))
      | Raise ex => (package, false, "❌ Error processing " +++ package +++ ": " +++ str ex)
      end
  | Raise ex => (package, false, "❌ Error processing " +++ package +++ ": " +++ str ex)
  end.

Definition findings : list finding :=
  [vs_finding; cuda_finding; torch_finding; package_finding "ninja";
   package_finding "psutil"].

Definition all_satisfied : bool := forallb satisfied findings.

End Report.

(** A check that only writes to the log: it returns [a], and [line] is
    among the lines it wrote. *)
Definition logs (A : Type) (m : M A) (w : World) (a : A) (line : string) : Prop :=
  exists w' l,
    m w = (Ok a, w') /\ fs w' = fs w /\ boxes w' = boxes w /\
    log_area w' = log_area w ++ l /\ In line l.

(** The world with one more dialog shown, and with more lines in the log. *)
Definition with_box (b : box) (w : World) : World :=
  {| fs := fs w; log_area := log_area w; status_var := status_var w;
     progress_var := progress_var w; boxes := boxes w ++ [b] |}.

Definition with_log (lines : list string) (w : World) : World :=
  {| fs := fs w; log_area := log_area w ++ lines; status_var := status_var w;
     progress_var := progress_var w; boxes := boxes w |}.

(** ** Subtrees and well-formed archives *)

(** The tree with the subtree at [q] replaced. *)
Fixpoint replace_at (q : path) (c' : node) (n : node) : node :=
  match q with
  | [] => c'
  | x :: q' =>
      match n with
      | File _ => n
      | Dir es =>
          match assoc x es with
          | Some c => Dir (set_entry x (replace_at q' c' c) es)
          | None => n
          end
      end
  end.

(** [x] is one of the names of [l], as the volume tells names apart. *)
Definition mem (x : string) (l : list string) : bool := existsb (same x) l.

Fixpoint nodupb (l : list string) : bool :=
  match l with
  | [] => true
  | x :: l' => andb (negb (mem x l')) (nodupb l')
  end.

(** No directory of the tree lists a name twice. *)
Fixpoint wf_node (n : node) : bool :=
  match n with
  | File _ => true
  | Dir es => andb (nodupb (names es)) (forallb (fun kv => wf_node (snd kv)) es)
  end.

Definition wf_entries (es : entries) : bool :=
  andb (nodupb (names es)) (forallb (fun kv => wf_node (snd kv)) es).

(** No name of [l1] is in [l2]. *)
Definition disjoint (l1 l2 : list string) : bool :=
  forallb (fun x => negb (mem x l2)) l1.

(** ** The two halves of the extraction

    The world in which the directory listing is taken, right after the
    archive is unpacked over a fresh workspace, and the statements that
    follow. *)

Definition unpacked (e : Env) (w : World) (body : string) (members : entries) : World :=
  {| fs := replace_at (install_dir e)
             (Dir (("deepspeed.zip", File body) :: members)) (fs w);
     log_area := log_area w ++
                 ["Downloading DeepSpeed " +++ version e +++ "...";
                  "Download URL: " +++ url e;
                  "Extracting files..."];
     status_var := status_var w;
     progress_var := 30;
     boxes := boxes w |}.

Definition flatten_extracted (e : Env) : M unit :=
  items <- (fun w => (listdir (extracted_dir e) (fs w), w)) ;;
  move_up e items ;;;
  sys (rmdir (extracted_dir e)) ;;;
  sys (remove (zip_path e)) ;;;
  set_progress 50.

End Vocabulary.

(** * Sample worlds *)

(** A volume for names of plain characters that do not end in a dot or a
    space: the key is the name in upper case. *)
Definition ascii_volume : Volume :=
  {| key := upper;
     key_empty := eq_refl;
     key_ascii := fun c s _ _ => eq_refl |}.

(** A volume that takes no notice of the dots and spaces at the end of a
    name either. *)
Fixpoint name_end (s : string) : string :=
  match s with
  | EmptyString => EmptyString
  | String c s' =>
      match name_end s' with
      | EmptyString => if is_dot_or_space c then EmptyString else String c EmptyString
      | r => String c r
      end
  end.

Definition windows_volume : Volume.
Proof.
  refine {| key := fun s => upper (name_end s); key_empty := eq_refl; key_ascii := _ |}.
  intros c s _ H. cbn [name_end]. destruct (name_end s) as [|c' r].
  - destruct (is_dot_or_space c); [|reflexivity].
    exfalso. now apply H.
  - reflexivity.
Defined.

(** [str.strip] on lines of plain characters. *)
Definition is_space (c : ascii) : bool :=
  let n := nat_of_ascii c in
  orb (Nat.eqb n 32)
      (orb (andb (Nat.leb 9 n) (Nat.leb n 13)) (andb (Nat.leb 28 n) (Nat.leb n 31))).

Fixpoint lstrip (s : string) : string :=
  match s with
  | EmptyString => EmptyString
  | String c s' => if is_space c then lstrip s' else s
  end.

Fixpoint rstrip (s : string) : string :=
  match s with
  | EmptyString => EmptyString
  | String c s' =>
      match rstrip s' with
      | EmptyString => if is_space c then EmptyString else String c EmptyString
      | r => String c r
      end
  end.

Definition strip (s : string) : string := rstrip (lstrip s).

Fixpoint tree_of (p : path) (leaf : node) : node :=
  match p with
  | [] => leaf
  | x :: p' => Dir [(x, tree_of p' leaf)]
  end.

Definition sample_wheel : string := "deepspeed-0.15.2-cp311-cp311-win_amd64.whl".

Definition sample_members : entries :=
  [("DeepSpeed-0.15.2",
    Dir [("setup.py", File "setup"); ("deepspeed", Dir [("__init__.py", File "init")])])].

Section Samples.

#[local] Existing Instance ascii_volume.

(** A build that writes one wheel into [dist] and exits with 0. *)
Definition sample_build (ws : path) (n : node) : child :=
  match mkpath (ws ++ ["dist"]) true n with
  | Ok n1 =>
      match write_at (ws ++ ["dist"]) sample_wheel "wheel" n1 with
      | Ok n2 => Exits ["running bdist_wheel" +++ nl; "creating dist" +++ nl] 0%Z n2
      | Raise _ => Exits [] 1%Z n1
      end
  | Raise _ => Exits [] 1%Z n
  end.

End Samples.

Definition sample_env : Env :=
  {| version_var := "0.15.2";
     cuda_var := "12.1";
     install_dir_var := ["work"; "deepspeed"];
     build_options := [("DS_BUILD_AIO", false); ("DS_BUILD_CUTLESS_OPS", false);
                       ("DS_BUILD_EVOFORMER_ATTN", false); ("DS_BUILD_FP_QUANTIZER", false);
                       ("DS_BUILD_RAGGED_DEVICE_OPS", false); ("DS_BUILD_SPARSE_ATTN", false);
                       ("DS_BUILD_INFERENCE_CORE_OPS", false)];
     python_version := "3.11.9";
     torch_version := "2.3.0";
     sys_executable := "C:\Python311\python.exe";
     sys_version_tag := "311";
     registry := fun _ => RegError;
     askyesno_answer := fun title => String.eqb title "Confirm Build Environment";
     requests_get := fun _ => Ok (200%Z, "PK");
     zip_members := fun _ => Members sample_members;
     run_cmd := sample_build ["work"; "deepspeed"];
     import_torch := Ok {| torch_dunder_version := "2.3.0";
                           torch_cuda_is_available := true;
                           torch_version_cuda := "12.1" |};
     distribution := fun _ => Ok tt;
     check_call := fun _ => Ok tt;
     cuda_info := "CUDA_HOME Setup Instructions for Windows 10/11";
     str_strip := strip |}.

Definition sample_fs : node :=
  Dir [ ("Program Files",
         Dir [ ("Microsoft Visual Studio",
                tree_of ["2022"; "Community"; "VC"; "Auxiliary"; "Build"; "vcvars64.bat"]
                        (File "vcvars"));
               ("NVIDIA GPU Computing Toolkit",
                tree_of ["CUDA"; "v12.1"; "bin"; "nvcc.exe"] (File "nvcc")) ]);
        ("work", Dir [("deepspeed", Dir [("old.txt", File "stale")])]) ].

Definition sample_world : World :=
  {| fs := sample_fs; log_area := []; status_var := "Ready to start...";
     progress_var := 0; boxes := [] |}.

(** The sample environment with other settings. *)

Definition with_version (v : string) (e : Env) : Env :=
  {| version_var := v; cuda_var := cuda_var e; install_dir_var := install_dir_var e;
     build_options := build_options e; python_version := python_version e;
     torch_version := torch_version e; sys_executable := sys_executable e;
     sys_version_tag := sys_version_tag e; registry := registry e;
     askyesno_answer := askyesno_answer e; requests_get := requests_get e;
     zip_members := zip_members e; run_cmd := run_cmd e;
     import_torch := import_torch e; distribution := distribution e;
     check_call := check_call e; cuda_info := cuda_info e; str_strip := str_strip e |}.

Definition with_cuda (v : string) (e : Env) : Env :=
  {| version_var := version_var e; cuda_var := v;
     install_dir_var := install_dir_var e; build_options := build_options e;
     python_version := python_version e; torch_version := torch_version e;
     sys_executable := sys_executable e; sys_version_tag := sys_version_tag e;
     registry := registry e; askyesno_answer := askyesno_answer e;
     requests_get := requests_get e; zip_members := zip_members e;
     run_cmd := run_cmd e; import_torch := import_torch e;
     distribution := distribution e; check_call := check_call e;
     cuda_info := cuda_info e; str_strip := str_strip e |}.

Definition with_install_dir (p : path) (e : Env) : Env :=
  {| version_var := version_var e; cuda_var := cuda_var e; install_dir_var := p;
     build_options := build_options e; python_version := python_version e;
     torch_version := torch_version e; sys_executable := sys_executable e;
     sys_version_tag := sys_version_tag e; registry := registry e;
     askyesno_answer := askyesno_answer e; requests_get := requests_get e;
     zip_members := zip_members e; run_cmd := run_cmd e;
     import_torch := import_torch e; distribution := distribution e;
     check_call := check_call e; cuda_info := cuda_info e; str_strip := str_strip e |}.

Definition with_build_options (opts : list (string * bool)) (e : Env) : Env :=
  {| version_var := version_var e; cuda_var := cuda_var e;
     install_dir_var := install_dir_var e; build_options := opts;
     python_version := python_version e; torch_version := torch_version e;
     sys_executable := sys_executable e; sys_version_tag := sys_version_tag e;
     registry := registry e; askyesno_answer := askyesno_answer e;
     requests_get := requests_get e; zip_members := zip_members e;
     run_cmd := run_cmd e; import_torch := import_torch e;
     distribution := distribution e; check_call := check_call e;
     cuda_info := cuda_info e; str_strip := str_strip e |}.

Definition with_registry (reg : string -> reg_result) (e : Env) : Env :=
  {| version_var := version_var e; cuda_var := cuda_var e;
     install_dir_var := install_dir_var e; build_options := build_options e;
     python_version := python_version e; torch_version := torch_version e;
     sys_executable := sys_executable e; sys_version_tag := sys_version_tag e;
     registry := reg; askyesno_answer := askyesno_answer e;
     requests_get := requests_get e; zip_members := zip_members e;
     run_cmd := run_cmd e; import_torch := import_torch e;
     distribution := distribution e; check_call := check_call e;
     cuda_info := cuda_info e; str_strip := str_strip e |}.

Definition with_answer (answer : string -> bool) (e : Env) : Env :=
  {| version_var := version_var e; cuda_var := cuda_var e;
     install_dir_var := install_dir_var e; build_options := build_options e;
     python_version := python_version e; torch_version := torch_version e;
     sys_executable := sys_executable e; sys_version_tag := sys_version_tag e;
     registry := registry e; askyesno_answer := answer;
     requests_get := requests_get e; zip_members := zip_members e;
     run_cmd := run_cmd e; import_torch := import_torch e;
     distribution := distribution e; check_call := check_call e;
     cuda_info := cuda_info e; str_strip := str_strip e |}.

Definition with_requests_get (get : string -> result (Z * string)) (e : Env) : Env :=
  {| version_var := version_var e; cuda_var := cuda_var e;
     install_dir_var := install_dir_var e; build_options := build_options e;
     python_version := python_version e; torch_version := torch_version e;
     sys_executable := sys_executable e; sys_version_tag := sys_version_tag e;
     registry := registry e; askyesno_answer := askyesno_answer e;
     requests_get := get; zip_members := zip_members e; run_cmd := run_cmd e;
     import_torch := import_torch e; distribution := distribution e;
     check_call := check_call e; cuda_info := cuda_info e; str_strip := str_strip e |}.

Definition with_zip_members (unzip : string -> archive) (e : Env) : Env :=
  {| version_var := version_var e; cuda_var := cuda_var e;
     install_dir_var := install_dir_var e; build_options := build_options e;
     python_version := python_version e; torch_version := torch_version e;
     sys_executable := sys_executable e; sys_version_tag := sys_version_tag e;
     registry := registry e; askyesno_answer := askyesno_answer e;
     requests_get := requests_get e; zip_members := unzip; run_cmd := run_cmd e;
     import_torch := import_torch e; distribution := distribution e;
     check_call := check_call e; cuda_info := cuda_info e; str_strip := str_strip e |}.

Definition with_run_cmd (run : node -> child) (e : Env) : Env :=
  {| version_var := version_var e; cuda_var := cuda_var e;
     install_dir_var := install_dir_var e; build_options := build_options e;
     python_version := python_version e; torch_version := torch_version e;
     sys_executable := sys_executable e; sys_version_tag := sys_version_tag e;
     registry := registry e; askyesno_answer := askyesno_answer e;
     requests_get := requests_get e; zip_members := zip_members e; run_cmd := run;
     import_torch := import_torch e; distribution := distribution e;
     check_call := check_call e; cuda_info := cuda_info e; str_strip := str_strip e |}.

Definition with_check_call (call : list string -> result unit) (e : Env) : Env :=
  {| version_var := version_var e; cuda_var := cuda_var e;
     install_dir_var := install_dir_var e; build_options := build_options e;
     python_version := python_version e; torch_version := torch_version e;
     sys_executable := sys_executable e; sys_version_tag := sys_version_tag e;
     registry := registry e; askyesno_answer := askyesno_answer e;
     requests_get := requests_get e; zip_members := zip_members e;
     run_cmd := run_cmd e; import_torch := import_torch e;
     distribution := distribution e; check_call := call; cuda_info := cuda_info e;
     str_strip := str_strip e |}.

(** The seven check boxes, the first one ticked. *)
Definition aio_ticked : list (string * bool) :=
  [("DS_BUILD_AIO", true); ("DS_BUILD_CUTLESS_OPS", false);
   ("DS_BUILD_EVOFORMER_ATTN", false); ("DS_BUILD_FP_QUANTIZER", false);
   ("DS_BUILD_RAGGED_DEVICE_OPS", false); ("DS_BUILD_SPARSE_ATTN", false);
   ("DS_BUILD_INFERENCE_CORE_OPS", false)].

(** A build that fails at once and touches nothing, one that exits with 0
    and leaves no wheel, one whose output does not decode, and a command
    interpreter that cannot be started. *)
Definition failing_build (n : node) : child :=
  Exits ["error: command 'cl.exe' failed" +++ nl] 1%Z n.

Definition silent_build (n : node) : child :=
  Exits ["running bdist_wheel" +++ nl] 0%Z n.

Definition garbled_build (n : node) : child :=
  Breaks ["running bdist_wheel" +++ nl]
         (Exception "'utf-8' codec can't decode byte 0x81") n.

Definition no_cmd (n : node) : child :=
  Fails (OSError "The system cannot find the file specified").

Definition silent_env : Env := with_run_cmd silent_build sample_env.

(** The sample workspace after download and extraction. *)
Definition staged_world : World :=
  {| fs := Dir [ ("Program Files",
                  Dir [ ("Microsoft Visual Studio",
                         tree_of ["2022"; "Community"; "VC"; "Auxiliary"; "Build"; "vcvars64.bat"]
                                 (File "vcvars")) ]);
                 ("work", Dir [("deepspeed", Dir [("setup.py", File "setup")])]) ];
     log_area := []; status_var := "Starting build..."; progress_var := 50;
     boxes := [] |}.

(** A finished build with two wheels in [dist]. *)
Definition two_wheels_world : World :=
  {| fs := Dir [ ("work",
                  Dir [("deepspeed",
                        Dir [("dist", Dir [("deepspeed-0.15.2-win_amd64.whl", File "first");
                                           ("deepspeed-0.15.1-win_amd64.whl", File "second")])])]) ];
     log_area := []; status_var := "Starting build..."; progress_var := 50;
     boxes := [] |}.

(** A workspace fresh from the reset. *)
Definition fresh_world : World :=
  {| fs := Dir [("work", Dir [("deepspeed", Dir [])])];
     log_area := []; status_var := "Starting build..."; progress_var := 0;
     boxes := [] |}.

(** Archives: one whose only top-level directory has another name, one
    whose directory holds an item called like the download, one with a
    second top-level directory in front, one with no directory at all, and
    one whose directory is spelt in small letters. *)
Definition misnamed_members : entries :=
  [("DeepSpeed-main", Dir [("setup.py", File "setup")])].

Definition clashing_members : entries :=
  [("DeepSpeed-0.15.2", Dir [("Deepspeed.ZIP", File "inner"); ("setup.py", File "setup")])].

Definition two_dirs_members : entries :=
  [("docs", Dir [("readme.md", File "readme")]);
   ("DeepSpeed-0.15.2", Dir [("setup.py", File "setup")])].

Definition no_dir_members : entries := [("setup.py", File "setup")].

Definition small_letters_members : entries :=
  [("deepspeed-0.15.2", Dir [("setup.py", File "setup")])].

(** Toolchains: two of the well-known roots installed at once, one that
    only the registry knows, and one that the registry puts right under
    the root of the drive. *)
Definition two_toolchains_fs : node :=
  Dir [ ("Program Files",
         Dir [("Microsoft Visual Studio",
               tree_of ["2022"; "BuildTools"; "VC"; "Auxiliary"; "Build"; "vcvars64.bat"]
                       (File "vcvars"))]);
        ("Program Files (x86)",
         Dir [("Microsoft Visual Studio",
               tree_of ["2019"; "Community"; "VC"; "Auxiliary"; "Build"; "vcvars64.bat"]
                       (File "vcvars"))]) ].

Definition registry_only_fs : node :=
  tree_of ["Tools"; "VS"; "VC"; "Auxiliary"; "Build"; "vcvars64.bat"] (File "vcvars").

Definition sample_registry (key : string) : reg_result :=
  if String.eqb key "SOFTWARE\Microsoft\VisualStudio\Setup\BuildTools"
  then RegValue ["Tools"; "VS"; "Common7"; ""]
  else if String.eqb key "SOFTWARE\WOW6432Node\Microsoft\VisualStudio\Setup\Community"
  then RegEmpty
  else RegError.

Definition root_toolchain_fs : node :=
  tree_of ["VC"; "Auxiliary"; "Build"; "vcvars64.bat"] (File "vcvars").

Definition root_registry (key : string) : reg_result :=
  if String.eqb key "SOFTWARE\WOW6432Node\Microsoft\VisualStudio\Setup\BuildTools"
  then RegValue []
  else RegError.

(** More sample worlds: the workspace path taken by a file, a toolkit
    directory with three versions, and an environment whose user says no. *)
Definition file_workspace_world : World :=
  {| fs := Dir [("work", Dir [("deepspeed", File "not a directory")])];
     log_area := []; status_var := "Ready to start..."; progress_var := 0;
     boxes := [] |}.

Definition toolkits_fs : node :=
  tree_of ["Program Files"; "NVIDIA GPU Computing Toolkit"; "CUDA"]
    (Dir [("v11.8", Dir []); ("readme.txt", File "r"); ("v12.1", Dir []); ("v9.2", Dir [])]).

(** A server that answers 404, a download that is no archive, one whose
    second member is damaged, and a [pip] whose uninstall finds nothing to
    remove. *)
Definition not_found_env : Env :=
  with_requests_get (fun _ => Ok (404%Z, "Not Found")) sample_env.


Definition damaged_env : Env :=
  with_zip_members (fun _ => Damaged [("README.md", File "readme")]) sample_env.

Definition nothing_to_uninstall (args : list string) : result unit :=
  if existsb (String.eqb "uninstall") args then Raise (CalledProcessError 1) else Ok tt.

Definition first_install_env : Env := with_check_call nothing_to_uninstall sample_env.

Definition declining_env : Env := with_answer (fun _ => false) sample_env.

(** A wheel archived by an earlier run, next to the sample workspace. *)
Definition archived_world : World :=
  {| fs := Dir [("work",
                 Dir [("deepspeed", Dir [("old.txt", File "stale")]);
                      ("deepspeed_wheels",
                       Dir [("deepspeed_0.15.1_cuda12.1_py311",
                             Dir [("deepspeed-0.15.1-win_amd64.whl", File "earlier")])])])];
     log_area := []; status_var := "Ready to start..."; progress_var := 0;
     boxes := [] |}.


Definition climbing_env : Env :=
  with_install_dir ["work"; "deepspeed"; "dist"; ".."] sample_env.

(** * Facts about the file system *)

Section Facts.

Context {V : Volume}.

Section AssocFacts.

Implicit Types (k : string) (v : node) (es : entries).

Lemma same_refl k : same k k = true.
Proof. apply String.eqb_refl. Qed.

Lemma same_key k k' : same k k' = true <-> key k = key k'.
Proof. apply String.eqb_eq. Qed.

Lemma same_sym k k' : same k k' = same k' k.
Proof. apply String.eqb_sym. Qed.

Lemma same_trans_l k k' k0 : same k k' = true -> same k k0 = same k' k0.
Proof. unfold same. intros H. apply String.eqb_eq in H. now rewrite H. Qed.

Lemma same_trans_r k k' k0 : same k k' = true -> same k0 k = same k0 k'.
Proof. unfold same. intros H. apply String.eqb_eq in H. now rewrite H. Qed.

Lemma assoc_key k k' es : same k k' = true -> assoc k es = assoc k' es.
Proof.
  intros H. induction es as [|[k0 v0] es IH]; simpl; auto.
  rewrite (same_trans_l _ _ k0 H). now rewrite IH.
Qed.

Lemma set_entry_key k k' v es :
  same k k' = true -> assoc k es <> None -> set_entry k v es = set_entry k' v es.
Proof.
  intros H. induction es as [|[k0 v0] es IH]; simpl; [congruence|].
  rewrite (same_trans_l _ _ k0 H). destruct (same k' k0); auto.
  intros N. now rewrite IH.
Qed.

Lemma remove_entry_key k k' es :
  same k k' = true -> remove_entry k es = remove_entry k' es.
Proof.
  intros H. induction es as [|[k0 v0] es IH]; simpl; auto.
  rewrite (same_trans_l _ _ k0 H). now rewrite IH.
Qed.

Lemma assoc_set_eq k v es : assoc k (set_entry k v es) = Some v.
Proof.
  induction es as [|[k' v'] es IH]; simpl.
  - now rewrite same_refl.
  - destruct (same k k') eqn:E; simpl; now rewrite E.
Qed.

Lemma assoc_set_neq k k' v es :
  same k k' = false -> assoc k' (set_entry k v es) = assoc k' es.
Proof.
  intros N. induction es as [|[k0 v0] es IH]; simpl.
  - now rewrite same_sym, N.
  - destruct (same k k0) eqn:E; simpl.
    + now rewrite (same_sym k' k0), <- (same_trans_l _ _ k' E), N.
    + now rewrite IH.
Qed.


Lemma assoc_remove_neq k k' es :
  same k k' = false -> assoc k' (remove_entry k es) = assoc k' es.
Proof.
  intros N. induction es as [|[k0 v0] es IH]; simpl; auto.
  destruct (same k k0) eqn:E; simpl.
  - rewrite IH. rewrite (same_sym k' k0), <- (same_trans_l _ _ k' E), N. reflexivity.
  - now rewrite IH.
Qed.

Lemma assoc_app_l k es es' v : assoc k es = Some v -> assoc k (es ++ es') = Some v.
Proof.
  induction es as [|[k0 v0] es IH]; simpl; try discriminate.
  destruct (same k k0); auto.
Qed.

Lemma assoc_app_r k es es' : assoc k es = None -> assoc k (es ++ es') = assoc k es'.
Proof.
  induction es as [|[k0 v0] es IH]; simpl; auto.
  destruct (same k k0); [discriminate | auto].
Qed.

Lemma assoc_snoc_eq k v es : assoc k es = None -> assoc k (es ++ [(k, v)]) = Some v.
Proof.
  intros H. rewrite assoc_app_r by assumption. simpl. now rewrite same_refl.
Qed.

Lemma assoc_snoc_neq k k' v es :
  same k k' = false -> assoc k' (es ++ [(k, v)]) = assoc k' es.
Proof.
  intros N. destruct (assoc k' es) eqn:E.
  - now apply assoc_app_l.
  - rewrite assoc_app_r by assumption. simpl. now rewrite same_sym, N.
Qed.

Lemma set_entry_same k v es : assoc k es = Some v -> set_entry k v es = es.
Proof.
  induction es as [|[k0 v0] es IH]; simpl; try discriminate.
  destruct (same k k0); intros H.
  - congruence.
  - now rewrite IH.
Qed.

Lemma assoc_none_keys k es : assoc k es = None <-> ~ In (key k) (keys es).
Proof.
  unfold keys. induction es as [|[k0 v0] es IH]; simpl.
  - tauto.
  - destruct (same k k0) eqn:E.
    + apply same_key in E. split; [discriminate | intros H; exfalso; auto].
    + rewrite IH. split.
      * intros H [J|J]; [|contradiction].
        assert (same k k0 = true) by (apply same_key; congruence). congruence.
      * tauto.
Qed.

Lemma remove_entry_absent k es : ~ In (key k) (keys es) -> remove_entry k es = es.
Proof.
  unfold keys. induction es as [|[k0 v0] es IH]; simpl; auto.
  intros H. destruct (same k k0) eqn:E.
  - apply same_key in E. exfalso; auto.
  - rewrite IH; tauto.
Qed.

Lemma set_entry_absent k v es :
  ~ In (key k) (keys es) -> set_entry k v es = es ++ [(k, v)].
Proof.
  unfold keys. induction es as [|[k0 v0] es IH]; simpl; auto.
  intros H. destruct (same k k0) eqn:E.
  - apply same_key in E. exfalso; auto.
  - rewrite IH; tauto.
Qed.

End AssocFacts.

Section LookupFacts.

Implicit Types (p q r : path) (n c : node).

Lemma lookup_app p r n :
  lookup (p ++ r) n = match lookup p n with Some c => lookup r c | None => None end.
Proof.
  revert n. induction p as [|x p IH]; intros n; simpl; auto.
  destruct n as [d|es]; auto. destruct (assoc x es); auto.
Qed.

Lemma lookup_snoc q x n :
  lookup (q ++ [x]) n =
  match lookup q n with
  | Some (Dir es) => assoc x es
  | _ => None
  end.
Proof.
  rewrite lookup_app. destruct (lookup q n) as [[d|es]|]; simpl; auto.
  destruct (assoc x es); auto.
Qed.

Lemma lookup_chain p : lookup p (chain p) = Some (Dir []).
Proof.
  induction p as [|x p IH]; simpl; auto. now rewrite same_refl.
Qed.

Lemma lookup_chain_other q x a :
  same a x = false -> lookup (q ++ [a]) (chain (q ++ [x])) = None.
Proof.
  intros N. induction q as [|y q IH]; simpl.
  - now rewrite N.
  - now rewrite same_refl.
Qed.

(** What a successful [alter_dir] did. *)
Lemma alter_dir_ok q f n n' :
  alter_dir q f n = Ok n' ->
  exists es es',
    lookup q n = Some (Dir es) /\ f es = Ok es' /\ lookup q n' = Some (Dir es').
Proof.
  revert n n'. induction q as [|x q IH]; intros [d|es] n'; simpl; try discriminate.
  - destruct (f es) as [es'|] eqn:F; [|discriminate].
    intros [= <-]. eauto.
  - destruct (assoc x es) as [c|] eqn:A; [|discriminate].
    destruct (alter_dir q f c) as [c'|] eqn:R; [|discriminate].
    intros [= <-]. destruct (IH _ _ R) as (es0 & es' & L & F & L').
    exists es0, es'. simpl. rewrite assoc_set_eq. auto.
Qed.

(** [alter_dir] succeeds as soon as the directory is there and [f] does. *)
Lemma alter_dir_runs q f n es es' :
  lookup q n = Some (Dir es) -> f es = Ok es' ->
  exists n', alter_dir q f n = Ok n'.
Proof.
  revert n. induction q as [|x q IH]; intros [d|es0]; simpl; try discriminate.
  - intros [= ->] ->. eauto.
  - destruct (assoc x es0) as [c|] eqn:A; [|discriminate].
    intros L F. destruct (IH _ L F) as [c' ->]. eauto.
Qed.

(** A name of the altered directory that [f] leaves alone keeps its subtree. *)
Lemma alter_dir_frame q f n n' a :
  alter_dir q f n = Ok n' ->
  (forall es es', f es = Ok es' -> assoc a es' = assoc a es) ->
  lookup (q ++ [a]) n' = lookup (q ++ [a]) n.
Proof.
  intros H F. destruct (alter_dir_ok _ _ _ _ H) as (es & es' & L & E & L').
  rewrite !lookup_snoc, L, L'. eauto.
Qed.

End LookupFacts.

Section MkpathFacts.

Implicit Types (p q : path) (n : node).

Lemma mkpath_isdir p eo n n' : mkpath p eo n = Ok n' -> isdir p n' = true.
Proof.
  unfold isdir. revert n n'.
  induction p as [|x p IH]; intros [d|es] n'; simpl; try discriminate.
  - destruct eo; [|discriminate]. now intros [= <-].
  - destruct (assoc x es) as [c|] eqn:A.
    + destruct (mkpath p eo c) as [c'|] eqn:R; [|discriminate].
      intros [= <-]. simpl. rewrite assoc_set_eq. eauto.
    + intros [= <-]. simpl. rewrite assoc_snoc_eq by assumption.
      now rewrite lookup_chain.
Qed.

(** Without [exist_ok] the leaf is always a directory just made. *)
Lemma mkpath_fresh p n n' :
  mkpath p false n = Ok n' -> lookup p n' = Some (Dir []).
Proof.
  revert n n'.
  induction p as [|x p IH]; intros [d|es] n'; simpl; try discriminate.
  destruct (assoc x es) as [c|] eqn:A.
  - destruct (mkpath p false c) as [c'|] eqn:R; [|discriminate].
    intros [= <-]. simpl. rewrite assoc_set_eq. eauto.
  - intros [= <-]. simpl. rewrite assoc_snoc_eq by assumption.
    apply lookup_chain.
Qed.

Lemma mkpath_frame q x a eo n n' :
  same a x = false -> mkpath (q ++ [x]) eo n = Ok n' ->
  lookup (q ++ [a]) n' = lookup (q ++ [a]) n.
Proof.
  intros N. revert n n'.
  induction q as [|y q IH]; intros [d|es] n'; simpl; try discriminate.
  - destruct (assoc x es) as [c|] eqn:A.
    + destruct c as [d|es0]; [discriminate|]. destruct eo; [|discriminate].
      intros [= <-]. simpl. rewrite assoc_set_neq; auto. now rewrite same_sym.
    + intros [= <-]. simpl. rewrite assoc_snoc_neq; auto. now rewrite same_sym.
  - destruct (assoc y es) as [c|] eqn:A.
    + destruct (mkpath (q ++ [x]) eo c) as [c'|] eqn:R; [|discriminate].
      intros [= <-]. simpl. rewrite assoc_set_eq. eauto.
    + intros [= <-]. simpl. rewrite assoc_snoc_eq by assumption.
      now apply lookup_chain_other.
Qed.

(** On a directory that exists nothing is made. *)
Lemma mkpath_existing p n : isdir p n = true -> mkpath p true n = Ok n.
Proof.
  unfold isdir. revert n.
  induction p as [|x p IH]; intros [d|es]; simpl; try discriminate; auto.
  destruct (assoc x es) as [c|] eqn:A; [|discriminate].
  intros H. rewrite (IH _ H). now rewrite set_entry_same.
Qed.


End MkpathFacts.

Section ResolveFacts.

Implicit Types (p q : path) (c x : string).

Lemma resolve_snoc p c : resolve (p ++ [c]) = rev (step (rev (resolve p)) c).
Proof.
  unfold resolve. now rewrite fold_left_app, rev_involutive.
Qed.

Lemma resolve_name p x : is_name x = true -> resolve (p ++ [x]) = resolve p ++ [x].
Proof.
  unfold is_name. intros H. apply andb_prop in H. destruct H as [H1 H2].
  rewrite resolve_snoc. unfold step.
  destruct (passed_over x); [discriminate|].
  destruct (String.eqb x ".."); [discriminate|].
  simpl. now rewrite rev_involutive.
Qed.

Lemma resolve_passed p c : passed_over c = true -> resolve (p ++ [c]) = resolve p.
Proof.
  intros H. rewrite resolve_snoc. unfold step. rewrite H. apply rev_involutive.
Qed.

Lemma resolve_app_ordinary p q : ordinary q = true -> resolve (p ++ q) = resolve p ++ q.
Proof.
  revert p. induction q as [|x q IH]; intros p H.
  - now rewrite !app_nil_r.
  - simpl in H. apply andb_prop in H. destruct H as [H1 H2].
    change (p ++ x :: q) with (p ++ [x] ++ q). rewrite app_assoc.
    rewrite IH by assumption. rewrite resolve_name by assumption.
    now rewrite <- app_assoc.
Qed.

Lemma resolve_ordinary p : ordinary p = true -> resolve p = p.
Proof. intros H. now rewrite <- (app_nil_l p) at 1; rewrite resolve_app_ordinary. Qed.

Lemma ordinary_climbs p : ordinary p = true -> climbs p = false.
Proof.
  induction p as [|x p IH]; simpl; auto.
  unfold is_name at 1. intros H. apply andb_prop in H. destruct H as [H1 H2].
  apply andb_prop in H1. destruct H1 as [_ H1].
  destruct (String.eqb x ".."); [discriminate|]. simpl. auto.
Qed.

Lemma ordinary_app p q : ordinary (p ++ q) = andb (ordinary p) (ordinary q).
Proof. apply forallb_app. Qed.

Lemma ordinary_removelast p : ordinary p = true -> ordinary (removelast p) = true.
Proof.
  destruct p as [|c p]; auto.
  destruct (@exists_last _ (c :: p)) as (q & x & ->); [discriminate|].
  rewrite removelast_last, ordinary_app. intros H. apply andb_prop in H. tauto.
Qed.

Lemma climbs_app p q : climbs (p ++ q) = orb (climbs p) (climbs q).
Proof. apply existsb_app. Qed.

(** A component that does not climb is passed over or is a name. *)
Lemma not_climbing c :
  String.eqb c ".." = false -> passed_over c = true \/ is_name c = true.
Proof.
  intros H. unfold is_name. rewrite H. destruct (passed_over c); auto.
Qed.

End ResolveFacts.

Section Focus.

Implicit Types (q r : path) (n c : node).

Lemma lookup_replace_at q c' n c :
  lookup q n = Some c -> lookup q (replace_at q c' n) = Some c'.
Proof.
  revert n. induction q as [|x q IH]; intros n; simpl; auto.
  destruct n as [d|es]; [discriminate|].
  destruct (assoc x es) as [c0|] eqn:A; [|discriminate].
  intros L. simpl. rewrite assoc_set_eq. eauto.
Qed.

Lemma set_entry_twice k v1 v2 es : set_entry k v2 (set_entry k v1 es) = set_entry k v2 es.
Proof.
  induction es as [|[k0 v0] es IH]; simpl.
  - now rewrite same_refl.
  - destruct (same k k0) eqn:E; simpl; rewrite E; auto. now rewrite IH.
Qed.

Lemma set_entry_snoc k v v0 es :
  assoc k es = None -> set_entry k v (es ++ [(k, v0)]) = es ++ [(k, v)].
Proof.
  induction es as [|[k1 v1] es IH]; simpl.
  - now rewrite same_refl.
  - destruct (same k k1); [discriminate|]. intros H. now rewrite IH.
Qed.

Lemma replace_at_twice q c1 c2 n c :
  lookup q n = Some c -> replace_at q c2 (replace_at q c1 n) = replace_at q c2 n.
Proof.
  revert n. induction q as [|x q IH]; intros n; simpl; auto.
  destruct n as [d|es]; [discriminate|].
  destruct (assoc x es) as [c0|] eqn:A; [|discriminate].
  intros L. simpl. rewrite assoc_set_eq, set_entry_twice. now rewrite (IH _ L).
Qed.

Lemma replace_at_same q n c : lookup q n = Some c -> replace_at q c n = n.
Proof.
  revert n. induction q as [|x q IH]; intros n; simpl.
  - congruence.
  - destruct n as [d|es]; [discriminate|].
    destruct (assoc x es) as [c0|] eqn:A; [|discriminate].
    intros L. rewrite (IH _ L). now rewrite set_entry_same.
Qed.

(** An [alter_dir] below [q] is an [alter_dir] in the subtree at [q]. *)
Lemma alter_dir_focus q r f n c :
  lookup q n = Some c ->
  alter_dir (q ++ r) f n =
  match alter_dir r f c with
  | Ok c' => Ok (replace_at q c' n)
  | Raise ex => Raise ex
  end.
Proof.
  revert n. induction q as [|x q IH]; intros n; simpl.
  - intros [= ->]. destruct (alter_dir r f c); auto.
  - destruct n as [d|es]; [discriminate|].
    destruct (assoc x es) as [c0|] eqn:A; [|discriminate].
    intros L. rewrite (IH _ L). destruct (alter_dir r f c); auto.
Qed.

Lemma lookup_focus q r n c : lookup q n = Some c -> lookup (q ++ r) n = lookup r c.
Proof. intros L. now rewrite lookup_app, L. Qed.

Lemma alter_dir_at q f n es :
  lookup q n = Some (Dir es) ->
  alter_dir q f n =
  match f es with
  | Ok es' => Ok (replace_at q (Dir es') n)
  | Raise ex => Raise ex
  end.
Proof.
  intros L. pose proof (alter_dir_focus q [] f n _ L) as H.
  rewrite app_nil_r in H. rewrite H. simpl. destruct (f es); auto.
Qed.

(** An alteration stops at a file on the way and at a missing directory. *)
Lemma alter_dir_file q f n d :
  lookup q n = Some (File d) -> alter_dir q f n = Raise (OSError "not a directory").
Proof.
  revert n. induction q as [|x q IH]; intros [d0|es]; simpl; try discriminate; auto.
  destruct (assoc x es) as [c|]; [|discriminate].
  intros L. now rewrite (IH _ L).
Qed.

Lemma alter_dir_missing q f n :
  lookup q n = None -> exists msg, alter_dir q f n = Raise (OSError msg).
Proof.
  revert n. induction q as [|x q IH]; intros [d0|es]; simpl; try discriminate; eauto.
  destruct (assoc x es) as [c|]; eauto.
  intros L. destruct (IH _ L) as [msg ->]. eauto.
Qed.

(** An alteration that leaves the entries it finds as they are loses
    nothing. *)
Lemma alter_dir_kept q f n n' :
  (forall es es', f es = Ok es' -> forall a c, assoc a es = Some c -> assoc a es' = Some c) ->
  alter_dir q f n = Ok n' -> kept n n'.
Proof.
  intros F. revert n n'.
  assert (G : forall q n n', alter_dir q f n = Ok n' ->
            forall p c, lookup p n = Some c ->
            exists c', lookup p n' = Some c' /\
                       match c with File _ => c' = c | Dir _ => exists es, c' = Dir es end).
  { clear q. induction q as [|x q IH]; intros [d|es] n'; simpl; try discriminate.
    - destruct (f es) as [es'|] eqn:E; [|discriminate]. intros [= <-] [|a p] c; simpl.
      + intros [= <-]. eauto.
      + destruct (assoc a es) as [c0|] eqn:A; [|discriminate].
        rewrite (F _ _ E _ _ A). intros L. exists c. split; auto.
        destruct c; eauto.
    - destruct (assoc x es) as [c0|] eqn:A; [|discriminate].
      destruct (alter_dir q f c0) as [c1|] eqn:R; [|discriminate].
      intros [= <-] [|a p] c; simpl.
      + intros [= <-]. eauto.
      + destruct (same x a) eqn:S.
        * rewrite <- (assoc_key _ _ es S), A.
          rewrite <- (assoc_key _ _ _ S), assoc_set_eq. now apply IH.
        * rewrite assoc_set_neq by assumption.
          destruct (assoc a es) as [c2|]; [|discriminate].
          intros L. exists c. split; auto. destruct c; eauto. }
  intros n n' H p. split.
  - intros d L. destruct (G _ _ _ H _ _ L) as (c' & L' & E). now subst.
  - unfold isdir. destruct (lookup p n) as [[d|es]|] eqn:L; try discriminate.
    destruct (G _ _ _ H _ _ L) as (c' & L' & es' & ->). now rewrite L'.
Qed.

Lemma kept_refl n : kept n n.
Proof. intros p. auto. Qed.

Lemma kept_trans n1 n2 n3 : kept n1 n2 -> kept n2 n3 -> kept n1 n3.
Proof.
  intros H1 H2 p. destruct (H1 p) as [F1 D1], (H2 p) as [F2 D2]. split; auto.
Qed.

Lemma kept_exists n n' p : kept n n' -> exists_ p n = true -> exists_ p n' = true.
Proof.
  intros K. destruct (K p) as [F D]. unfold exists_, isdir in *.
  destruct (lookup p n) as [[d|es]|] eqn:L; try discriminate; intros _.
  - now rewrite (F d).
  - specialize (D eq_refl). destruct (lookup p n') as [[d|es']|]; auto.
Qed.

End Focus.

Section MakedirsFacts.

Implicit Types (p q r : path) (n : node).

Lemma mkdir_snoc q x n :
  mkdir (q ++ [x]) n =
  alter_dir q (fun es =>
                 match assoc x es with
                 | Some _ => Raise (FileExistsError "file exists")
                 | None => Ok (es ++ [(x, Dir [])])
                 end) n.
Proof.
  unfold mkdir. destruct (q ++ [x]) as [|y l] eqn:E.
  - symmetry in E. now apply app_cons_not_nil in E.
  - rewrite <- E. now rewrite removelast_last, last_last.
Qed.

Lemma mkdir_kept p n n' : mkdir p n = Ok n' -> kept n n'.
Proof.
  destruct p as [|c p]; [discriminate|].
  destruct (@exists_last _ (c :: p)) as (q & x & ->); [discriminate|].
  rewrite mkdir_snoc. apply alter_dir_kept.
  intros es es' H a c0 A. destruct (assoc x es); [discriminate|].
  injection H as <-. now apply assoc_app_l.
Qed.

Lemma mkdir_leaf_kept p eo n res n' : mkdir_leaf p eo n = (res, n') -> kept n n'.
Proof.
  unfold mkdir_leaf. destruct (mkdir p n) as [n1|ex] eqn:E.
  - intros [= _ <-]. eapply mkdir_kept; eauto.
  - destruct (andb eo (isdir p n)); intros [= _ <-]; apply kept_refl.
Qed.

(** [os.makedirs] loses nothing, whatever becomes of it. *)
Lemma makedirs_rev_kept r eo n res n' : makedirs_rev r eo n = (res, n') -> kept n n'.
Proof.
  revert n res n'. induction r as [|tail head IH]; intros n res n'; simpl.
  - apply mkdir_leaf_kept.
  - destruct tail as [|a s]; [apply IH|].
    destruct (exists_ (resolve (rev head)) n); [apply mkdir_leaf_kept|].
    destruct (makedirs_rev head eo n) as [res1 n1] eqn:R.
    specialize (IH _ _ _ R).
    assert (J : forall res2, (if String.eqb (String a s) "." then (Ok tt, n1)
                 else mkdir_leaf (resolve (rev head ++ [String a s])) eo n1) = (res2, n') ->
                kept n n').
    { intros res2. destruct (String.eqb (String a s) ".").
      - now intros [= _ <-].
      - intros H. eapply kept_trans; eauto. eapply mkdir_leaf_kept; eauto. }
    destruct res1 as [u|ex]; [apply J|].
    destruct ex; try (intros [= _ <-]; exact IH). apply J.
Qed.

Lemma makedirs_kept name eo n res n' : makedirs name eo n = (res, n') -> kept n n'.
Proof. apply makedirs_rev_kept. Qed.

(** A leaf that is there is not made, and is only passed by as a directory
    when [exist_ok] is set. *)
Lemma mkdir_present p n c : lookup p n = Some c -> exists ex, mkdir p n = Raise ex.
Proof.
  destruct p as [|c0 p]; [simpl; eauto|].
  destruct (@exists_last _ (c0 :: p)) as (q & x & ->); [discriminate|].
  rewrite mkdir_snoc, lookup_snoc.
  destruct (lookup q n) as [[d|es]|] eqn:L; try discriminate.
  intros A. rewrite (alter_dir_at _ _ _ _ L), A. eauto.
Qed.

Lemma mkdir_leaf_present p eo n c :
  lookup p n = Some c ->
  if andb eo (isdir p n) then mkdir_leaf p eo n = (Ok tt, n)
  else exists ex, mkdir_leaf p eo n = (Raise ex, n).
Proof.
  intros L. unfold mkdir_leaf. destruct (mkdir_present _ _ _ L) as [ex ->].
  destruct (andb eo (isdir p n)); eauto.
Qed.

Lemma mkpath_present p eo n c :
  lookup p n = Some c ->
  mkpath p eo n = if andb eo (isdir p n) then Ok n else Raise (OSError "file exists").
Proof.
  unfold isdir. revert n. induction p as [|x p IH]; intros [d|es]; simpl; try discriminate.
  - intros _. now destruct eo.
  - intros _. now destruct eo.
  - destruct (assoc x es) as [c0|] eqn:A; [|discriminate].
    intros L. rewrite (IH _ L).
    destruct (andb eo match lookup p c0 with Some (Dir _) => true | _ => false end); auto.
    now rewrite set_entry_same.
Qed.

(** The leaf of a directory that is there. *)
Lemma mkpath_leaf q x eo n es :
  lookup q n = Some (Dir es) -> assoc x es = None ->
  mkpath (q ++ [x]) eo n = mkdir (q ++ [x]) n /\
  exists n', mkdir (q ++ [x]) n = Ok n'.
Proof.
  intros L A. rewrite mkdir_snoc. split.
  - revert n L. induction q as [|y q IH]; intros [d|es0]; simpl; try discriminate.
    + intros [= ->]. now rewrite A.
    + destruct (assoc y es0) as [c|] eqn:B; [|discriminate].
      intros L. now rewrite (IH _ L).
  - rewrite (alter_dir_at _ _ _ _ L), A. eauto.
Qed.

(** A leaf below a file is refused. *)
Lemma mkpath_below_file q x eo n d :
  lookup q n = Some (File d) ->
  mkpath (q ++ [x]) eo n = Raise (OSError "file exists") /\
  mkdir (q ++ [x]) n = Raise (OSError "not a directory").
Proof.
  intros L. rewrite mkdir_snoc, (alter_dir_file _ _ _ _ L). split; auto.
  revert n L. induction q as [|y q IH]; intros [d0|es0]; simpl; try discriminate; auto.
  destruct (assoc y es0) as [c|] eqn:B; [|discriminate].
  intros L. now rewrite (IH _ L).
Qed.

Lemma alter_chain q x :
  alter_dir q (fun es =>
                 match assoc x es with
                 | Some _ => Raise (FileExistsError "file exists")
                 | None => Ok (es ++ [(x, Dir [])])
                 end) (chain q) = Ok (chain (q ++ [x])).
Proof.
  induction q as [|y q IH]; simpl; auto.
  now rewrite same_refl, IH.
Qed.

(** A leaf below a directory that is not there: the directory first, then
    the leaf. *)
Lemma mkpath_deep q x eo n :
  lookup q n = None ->
  match mkpath q eo n with
  | Ok n1 => exists n2, mkpath (q ++ [x]) eo n = Ok n2 /\ mkdir (q ++ [x]) n1 = Ok n2
  | Raise _ => mkpath (q ++ [x]) eo n = Raise (OSError "file exists")
  end.
Proof.
  revert n. induction q as [|y q IH]; intros [d|es]; cbn [lookup mkpath app];
    try discriminate; auto.
  destruct (assoc y es) as [c|] eqn:A.
  - intros L. specialize (IH _ L). destruct (mkpath q eo c) as [c1|ex].
    + destruct IH as (c2 & -> & M). exists (Dir (set_entry y c2 es)). split; auto.
      change (y :: q ++ [x]) with ((y :: q) ++ [x]). rewrite mkdir_snoc.
      cbn [alter_dir]. rewrite assoc_set_eq. rewrite mkdir_snoc in M. rewrite M.
      now rewrite set_entry_twice.
    + now rewrite IH.
  - intros _. exists (Dir (es ++ [(y, chain (q ++ [x]))])). split; auto.
    change (y :: q ++ [x]) with ((y :: q) ++ [x]). rewrite mkdir_snoc.
    cbn [alter_dir]. rewrite assoc_snoc_eq by assumption. rewrite alter_chain.
    now rewrite set_entry_snoc.
Qed.

(** A directory that is not there is never refused as one that is. *)
Lemma mkpath_absent_error q eo n ex :
  lookup q n = None -> mkpath q eo n = Raise ex -> ex = OSError "file exists".
Proof.
  revert n. induction q as [|y q IH]; intros [d|es]; simpl; try discriminate.
  - intros _ [= <-]. reflexivity.
  - destruct (assoc y es) as [c|]; [|discriminate].
    intros L. destruct (mkpath q eo c) eqn:E; [discriminate|].
    intros [= <-]. eauto.
Qed.

(** On a path that does not climb, [os.makedirs] makes the missing
    directories of the place the path names, or makes nothing. *)
Lemma makedirs_rev_plain r eo n :
  climbs (rev r) = false ->
  match mkpath (resolve (rev r)) eo n with
  | Ok n' => makedirs_rev r eo n = (Ok tt, n')
  | Raise _ =>
      exists ex, makedirs_rev r eo n = (Raise ex, n) /\
                 (lookup (resolve (rev r)) n = None -> forall m, ex <> FileExistsError m)
  end.
Proof.
  revert n. induction r as [|tail head IH]; intros n C.
  - simpl. unfold mkdir_leaf, resolve; simpl. destruct n as [d|es]; simpl.
    + rewrite andb_false_r. eexists. split; eauto. discriminate.
    + rewrite andb_true_r. destruct eo; auto. eexists. split; eauto. discriminate.
  - simpl in C. rewrite climbs_app in C. apply orb_false_elim in C.
    destruct C as [C T]. simpl in T. rewrite orb_false_r in T.
    specialize (IH n C). simpl rev.
    destruct (not_climbing _ T) as [P|N].
    + (* a component that is passed over *)
      rewrite (resolve_passed _ _ P).
      destruct tail as [|a s]; [exact IH|].
      assert (D : String.eqb (String a s) "." = true) by exact P.
      cbn [makedirs_rev]. simpl rev. rewrite D.
      destruct (exists_ (resolve (rev head)) n) eqn:X.
      * unfold exists_ in X. destruct (lookup (resolve (rev head)) n) as [c|] eqn:L;
          [|discriminate].
        rewrite (resolve_passed _ _ P).
        rewrite (mkpath_present _ eo _ _ L).
        pose proof (mkdir_leaf_present _ eo _ _ L) as M.
        destruct (andb eo (isdir (resolve (rev head)) n)); auto.
        destruct M as [ex M]. exists ex. split; auto. congruence.
      * unfold exists_ in X. destruct (lookup (resolve (rev head)) n) as [c|] eqn:L;
          [discriminate|].
        destruct (mkpath (resolve (rev head)) eo n) as [n1|ex0] eqn:Q.
        -- now rewrite IH.
        -- destruct IH as (ex & -> & F). specialize (F eq_refl).
           exists ex. split; auto. destruct ex; auto. now destruct (F msg).
    + (* a name *)
      rewrite (resolve_name _ _ N).
      assert (D : String.eqb tail "." = false).
      { unfold is_name in N. apply andb_prop in N. destruct N as [N _].
        destruct tail as [|a s]; [discriminate|]. unfold passed_over in N.
        now destruct (String.eqb (String a s) "."). }
      destruct tail as [|a s]; [discriminate|].
      cbn [makedirs_rev]. simpl rev. rewrite D.
      rewrite (resolve_name _ _ N).
      destruct (exists_ (resolve (rev head)) n) eqn:X.
      * unfold exists_ in X. destruct (lookup (resolve (rev head)) n) as [[d|es]|] eqn:L;
          try discriminate.
        -- destruct (mkpath_below_file _ (String a s) eo _ _ L) as [-> M].
           unfold mkdir_leaf. rewrite M.
           assert (I : isdir (resolve (rev head) ++ [String a s]) n = false).
           { unfold isdir. now rewrite lookup_snoc, L. }
           rewrite I, andb_false_r. eexists. split; eauto. discriminate.
        -- destruct (assoc (String a s) es) as [c|] eqn:A.
           ++ assert (L' : lookup (resolve (rev head) ++ [String a s]) n = Some c)
                by now rewrite lookup_snoc, L.
              rewrite (mkpath_present _ eo _ _ L').
              pose proof (mkdir_leaf_present _ eo _ _ L') as M.
              destruct (andb eo (isdir _ n)); auto.
              destruct M as [ex M]. exists ex. split; auto. congruence.
           ++ destruct (mkpath_leaf _ _ eo _ _ L A) as [-> [n' M]].
              rewrite M. unfold mkdir_leaf. now rewrite M.
      * unfold exists_ in X. destruct (lookup (resolve (rev head)) n) as [c|] eqn:L;
          [discriminate|].
        pose proof (mkpath_deep _ (String a s) eo _ L) as Q.
        destruct (mkpath (resolve (rev head)) eo n) as [n1|ex0] eqn:E.
        -- rewrite IH. destruct Q as (n2 & -> & M). unfold mkdir_leaf. now rewrite M.
        -- rewrite Q. destruct IH as (ex & -> & F). specialize (F eq_refl).
           exists ex. split; auto. destruct ex; auto. now destruct (F msg).
Qed.

Lemma makedirs_plain name eo n :
  climbs name = false ->
  match mkpath (resolve name) eo n with
  | Ok n' => makedirs name eo n = (Ok tt, n')
  | Raise _ => exists ex, makedirs name eo n = (Raise ex, n)
  end.
Proof.
  intros C. unfold makedirs.
  pose proof (makedirs_rev_plain (rev name) eo n) as H.
  rewrite rev_involutive in H. specialize (H C).
  destruct (mkpath (resolve name) eo n); auto.
  destruct H as (ex & H & _). eauto.
Qed.

(** Without [exist_ok], a place that is there is refused, on any path. *)
Lemma makedirs_rev_taken r n :
  exists_ (resolve (rev r)) n = true ->
  exists ex n', makedirs_rev r false n = (Raise ex, n').
Proof.
  revert n. induction r as [|tail head IH]; intros n X.
  - simpl. unfold mkdir_leaf. simpl. eauto.
  - simpl rev in X. destruct tail as [|a s].
    + simpl. apply IH. now rewrite resolve_passed in X.
    + cbn [makedirs_rev]. simpl rev.
      assert (J : forall n1, kept n n1 ->
                exists ex n', mkdir_leaf (resolve (rev head ++ [String a s])) false n1 = (Raise ex, n')).
      { intros n1 K. pose proof (kept_exists _ _ _ K X) as X1. unfold exists_ in X1.
        destruct (lookup (resolve (rev head ++ [String a s])) n1) as [c|] eqn:L;
          [|discriminate].
        pose proof (mkdir_leaf_present _ false _ _ L) as M. simpl in M.
        destruct M as [ex M]. eauto. }
      destruct (exists_ (resolve (rev head)) n) eqn:H; [apply J, kept_refl|].
      destruct (makedirs_rev head false n) as [res1 n1] eqn:R.
      pose proof (makedirs_rev_kept _ _ _ _ _ R) as K.
      destruct (String.eqb (String a s) ".") eqn:D.
      * rewrite resolve_passed in X by exact D. congruence.
      * destruct res1 as [u|ex]; [now apply J|].
        destruct ex; eauto.
Qed.

Lemma makedirs_taken name n :
  exists_ (resolve name) n = true ->
  exists ex n', makedirs name false n = (Raise ex, n').
Proof.
  intros X. unfold makedirs. apply makedirs_rev_taken. now rewrite rev_involutive.
Qed.

End MakedirsFacts.

(** * Running the monad *)

Ltac mstep :=
  cbv beta iota delta [try_ bind ask log sys act ret raise lift show set_status
                       set_progress showerror showinfo askyesno];
  cbn [fs log_area status_var progress_var boxes set_fs fst snd].

(** * The workspace reset *)

Section Workspace.

Variable e : Env.

Local Abbreviation raw := (install_dir_var e).
Local Abbreviation ws := (install_dir e).
Local Abbreviation ar := (archive_dir e).
Local Abbreviation dw := "deepspeed_wheels".

Implicit Types (p q : path) (n : node).

(** The file-system part of [manage_build_directory], when it succeeds. *)
Lemma manage_build_directory_inv w w1 :
  manage_build_directory e w = (Ok true, w1) ->
  exists n1 n2,
    makedirs (archive_dir_text e) true (fs w) = (Ok tt, n1) /\
    (if os_path_exists raw n1 then rmtree ws n1 = (Ok tt, n2) else n2 = n1) /\
    makedirs raw false n2 = (Ok tt, fs w1).
Proof.
  unfold manage_build_directory. mstep.
  destruct (makedirs (archive_dir_text e) true (fs w)) as [[[]|ex] n1] eqn:E1; mstep;
    [|discriminate].
  destruct (os_path_exists raw n1) eqn:X; mstep.
  - destruct (rmtree ws n1) as [[[]|ex] n2] eqn:E2; mstep; [|discriminate].
    destruct (makedirs raw false n2) as [[[]|ex] n3] eqn:E3; mstep; [|discriminate].
    intros [= <-]. exists n1, n2. rewrite X. auto.
  - destruct (makedirs raw false n1) as [[[]|ex] n3] eqn:E3; mstep; [|discriminate].
    intros [= <-]. exists n1, n1. rewrite X. auto.
Qed.

Lemma rmtree_inv p n n' :
  rmtree p n = (Ok tt, n') ->
  p <> [] /\ rmtree_at (dirname p) (basename p) n = Ok n'.
Proof.
  unfold rmtree. destruct p as [|x p].
  - destruct n; discriminate.
  - fold (dirname (x :: p)). fold (basename (x :: p)).
    destruct (rmtree_at _ _ n); [|discriminate].
    intros [= <-]. split; [discriminate | reflexivity].
Qed.

Lemma rmtree_frame p a n n' :
  same (basename p) a = false -> rmtree p n = (Ok tt, n') ->
  lookup (dirname p ++ [a]) n' = lookup (dirname p ++ [a]) n.
Proof.
  intros N H. apply rmtree_inv in H. destruct H as [NE H].
  apply (alter_dir_frame _ _ _ _ _ H).
  intros es es'. destruct (assoc (basename p) es) as [[d|es0]|]; try discriminate.
  intros [= <-]. now apply assoc_remove_neq.
Qed.



(** Of a file nothing is removed. *)
Lemma rmtree_file p d n :
  lookup p n = Some (File d) -> exists ex, rmtree p n = (Raise ex, n).
Proof.
  unfold rmtree. destruct p as [|x p].
  - simpl. intros [= ->]. eauto.
  - destruct (rmtree_at _ _ n) eqn:R; eauto.
    rewrite (app_removelast_last EmptyString (l := x :: p)) at 1 by discriminate.
    rewrite lookup_snoc. unfold rmtree_at in R.
    destruct (lookup (removelast (x :: p)) n) as [[d0|es]|] eqn:L; try discriminate.
    rewrite (alter_dir_at _ _ _ _ L) in R. intros A. rewrite A in R. discriminate.
Qed.


Lemma os_path_exists_none p n :
  lookup (resolve p) n = None -> os_path_exists p n = false.
Proof. unfold os_path_exists. now intros ->. Qed.

Lemma os_path_exists_named p n :
  nonempty (basename p) = true -> os_path_exists p n = exists_ (resolve p) n.
Proof.
  unfold os_path_exists, exists_. intros ->.
  now destruct (lookup (resolve p) n) as [[d|es]|].
Qed.

(** The archive directory is named [deepspeed_wheels], and stands in the
    place that the path without its last component names. *)
Lemma archive_dir_eq : ar = resolve (dirname raw) ++ [dw].
Proof. unfold archive_dir, archive_dir_text. now rewrite resolve_name. Qed.

Lemma archive_dir_text_plain : climbs raw = false -> climbs (archive_dir_text e) = false.
Proof.
  unfold archive_dir_text, dirname. intros C. rewrite climbs_app. simpl.
  rewrite orb_false_r. destruct raw as [|c p]; auto.
  destruct (@exists_last _ (c :: p)) as (q & x & E); [discriminate|].
  rewrite E in *. rewrite removelast_last. rewrite climbs_app in C.
  now apply orb_false_elim in C.
Qed.

(** Where the workspace is, by the last component of its path. *)
Lemma workspace_place :
  climbs raw = false -> ws <> [] ->
  ws = resolve (dirname raw) \/
  exists x, is_name x = true /\ basename raw = x /\ ws = resolve (dirname raw) ++ [x].
Proof.
  unfold install_dir, dirname, basename. intros C NE.
  destruct raw as [|c p]; [now destruct NE|].
  destruct (@exists_last _ (c :: p)) as (q & x & E); [discriminate|].
  rewrite E in *. rewrite removelast_last, last_last.
  rewrite climbs_app in C. apply orb_false_elim in C. destruct C as [_ C].
  simpl in C. rewrite orb_false_r in C.
  destruct (not_climbing _ C) as [P|N].
  - left. now apply resolve_passed.
  - right. exists x. repeat split; auto. now apply resolve_name.
Qed.

Lemma lookup_same q x y n : same x y = true -> lookup (q ++ [x]) n = lookup (q ++ [y]) n.
Proof.
  intros S. rewrite !lookup_snoc. destruct (lookup q n) as [[d|es]|]; auto.
  now apply assoc_key.
Qed.

(** After a reset that succeeded, on a path that does not climb, the
    workspace is an empty directory; next to it, when the path ends in a
    name, is the archive directory. *)
Lemma reset_post w w1 :
  climbs raw = false ->
  manage_build_directory e w = (Ok true, w1) ->
  ws <> [] /\ lookup ws (fs w1) = Some (Dir []) /\
  (is_name (basename raw) = true -> isdir ar (fs w1) = true).
Proof.
  intros C H. destruct (manage_build_directory_inv _ _ H) as (n1 & n2 & E1 & E2 & E3).
  pose proof (makedirs_plain raw false n2 C) as M3. fold ws in M3.
  destruct (mkpath ws false n2) as [n3|ex] eqn:K3;
    [|destruct M3 as [ex' M3]; congruence].
  assert (n3 = fs w1) as -> by congruence.
  assert (NE : ws <> []).
  { intros Z. rewrite Z in K3. destruct n2; discriminate. }
  pose proof (mkpath_fresh _ _ _ K3) as L.
  repeat split; auto. intros N.
  pose proof (makedirs_plain _ true (fs w) (archive_dir_text_plain C)) as M1.
  fold ar in M1.
  destruct (mkpath ar true (fs w)) as [n1'|ex] eqn:K1;
    [|destruct M1 as [ex' M1]; congruence].
  assert (n1' = n1) as -> by congruence.
  destruct (workspace_place C NE) as [W|(x & Nx & B & W)].
  - (* the last component is passed over: not a name *)
    exfalso. unfold install_dir, dirname, basename in *.
    destruct raw as [|c p]; [discriminate|].
    destruct (@exists_last _ (c :: p)) as (q & y & E); [discriminate|].
    rewrite E in *. rewrite removelast_last in W. rewrite last_last in N.
    rewrite (resolve_name _ _ N) in W.
    apply (f_equal (@List.length string)) in W. rewrite length_app in W. simpl in W. lia.
  - rewrite archive_dir_eq in *. unfold isdir.
    destruct (same x dw) eqn:S.
    + rewrite <- (lookup_same _ _ _ _ S), <- W. now rewrite L.
    + pose proof (mkpath_isdir _ _ _ _ K1) as D1. unfold isdir in D1.
      rewrite W in K3. rewrite same_sym in S.
      rewrite (mkpath_frame _ _ _ _ _ _ S K3).
      destruct (os_path_exists raw n1).
      * assert (R : lookup (dirname ws ++ [dw]) n2 = lookup (dirname ws ++ [dw]) n1).
        { apply rmtree_frame; auto. unfold basename. rewrite W, last_last.
          now rewrite same_sym. }
        unfold dirname in R. rewrite W, removelast_last in R. now rewrite R.
      * now subst n2.
Qed.


(** The directory [deepspeed_wheels] in the directory of the workspace. *)
Lemma sibling_archive :
  ordinary raw = true -> raw <> [] ->
  ws = raw /\ ar = removelast raw ++ [dw] /\ is_name (basename raw) = true.
Proof.
  intros O NE. unfold install_dir, archive_dir, archive_dir_text, dirname, basename.
  rewrite (resolve_ordinary _ O). split; auto.
  rewrite resolve_name by reflexivity.
  rewrite (resolve_ordinary _ (ordinary_removelast _ O)). split; auto.
  destruct (@exists_last _ raw NE) as (q & x & E). rewrite E in *.
  rewrite last_last. rewrite ordinary_app in O. apply andb_prop in O.
  destruct O as [_ O]. simpl in O. now rewrite andb_true_r in O.
Qed.


End Workspace.

(** * Toolchain discovery *)

Section Locate.

Variable e : Env.
Variable n : node.

Lemma vcvars_exists root :
  os_path_exists (vcvars_of root) n =
  exists_ (resolve (root ++ ["VC"; "Auxiliary"; "Build"; "vcvars64.bat"])) n.
Proof.
  apply os_path_exists_named. unfold vcvars_of, basename.
  change (root ++ ["VC"; "Auxiliary"; "Build"; "vcvars64.bat"])
    with (root ++ ["VC"; "Auxiliary"; "Build"] ++ ["vcvars64.bat"]).
  now rewrite app_assoc, last_last.
Qed.

Lemma scan_default_find :
  scan_default default_vs_paths n = find (script_exists n) well_known.
Proof.
  unfold default_vs_paths, well_known. cbn [scan_default find].
  rewrite !vcvars_exists. unfold script_exists, script_of. cbn [snd app].
  reflexivity.
Qed.

Lemma find_app {A} (f : A -> bool) (l1 l2 : list A) :
  find f (l1 ++ l2) = match find f l1 with Some a => Some a | None => find f l2 end.
Proof.
  induction l1 as [|a l1 IH]; simpl; auto. destruct (f a); auto.
Qed.

Lemma scan_registry_step reg_path ver name l rest :
  "VS" +++ ver +++ " " +++
    (if contains "Community" reg_path then "Community" else "BuildTools") = name ->
  scan_registry e l n = find (script_exists n) rest ->
  scan_registry e ((reg_path, ver) :: l) n =
  find (script_exists n) (registered e (reg_path, name) ++ rest).
Proof.
  intros N IH. cbn [scan_registry]. unfold registered. cbn [fst snd].
  destruct (registry e reg_path) as [| |install_path]; auto.
  rewrite vcvars_exists. cbn [app find]. unfold script_exists at 1, script_of.
  cbn [snd]. rewrite N, IH. reflexivity.
Qed.

Lemma scan_registry_find :
  scan_registry e vs_reg_paths n =
  find (script_exists n) (flat_map (registered e) registry_keys).
Proof.
  unfold vs_reg_paths, registry_keys. cbn [flat_map].
  repeat (apply scan_registry_step; [reflexivity|]).
  reflexivity.
Qed.

Lemma find_vs_installation_find :
  find_vs_installation e n = find (script_exists n) (candidates e).
Proof.
  unfold find_vs_installation, candidates.
  now rewrite find_app, scan_default_find, scan_registry_find.
Qed.

Lemma find_first {A} (f : A -> bool) (l : list A) (a : A) :
  find f l = Some a <->
  exists before after,
    l = before ++ a :: after /\ f a = true /\ Forall (fun c => f c = false) before.
Proof.
  induction l as [|b l IH]; simpl.
  - split; [discriminate|]. intros ([|? ?] & ? & E & _); discriminate.
  - destruct (f b) eqn:F.
    + split.
      * intros [= <-]. exists [], l. auto.
      * intros ([|c before] & after & E & Fa & Fb); simpl in E.
        -- congruence.
        -- injection E as <- _. inversion Fb; congruence.
    + rewrite IH. split.
      * intros (before & after & -> & Fa & Fb). exists (b :: before), after. auto.
      * intros ([|c before] & after & E & Fa & Fb); simpl in E.
        -- congruence.
        -- injection E as <- ->. inversion Fb; eauto.
Qed.

Lemma find_none {A} (f : A -> bool) (l : list A) :
  find f l = None <-> Forall (fun c => f c = false) l.
Proof.
  induction l as [|b l IH]; simpl.
  - split; auto.
  - destruct (f b) eqn:F.
    + split; [discriminate|]. inversion 1; congruence.
    + rewrite IH. split; [auto|]. now inversion 1.
Qed.

(** C6. [find_vs_installation] returns the first candidate of the fixed
    priority order (the four install roots, then the four registry keys)
    whose environment script exists, with its name and its root, and
    nothing, without an exception, when no candidate's script exists. *)
Theorem find_vs_installation_first_match :
  (forall t,
     find_vs_installation e n = Some t <->
     exists before after,
       candidates e = before ++ t :: after /\
       script_exists n t = true /\
       Forall (fun c => script_exists n c = false) before) /\
  (find_vs_installation e n = None <->
   Forall (fun c => script_exists n c = false) (candidates e)).
Proof.
  rewrite find_vs_installation_find. split.
  - intros t. apply find_first.
  - apply find_none.
Qed.

End Locate.

(** * The build script and the build process *)

Section Build.

Variable e : Env.

(** C1 (the code departs from it). The option flags of the script are
    constants: whatever [build_options] holds, the script is the same text,
    [DS_BUILD_AIO] is set to 0 in it and never to 1. *)
Theorem build_script_ignores_build_options opts vcvars_path :
  build_script_text (with_build_options opts e) vcvars_path =
  build_script_text e vcvars_path /\
  In "set DS_BUILD_AIO=0" (build_script_lines (with_build_options opts e) vcvars_path) /\
  ~ In "set DS_BUILD_AIO=1" (build_script_lines (with_build_options opts e) vcvars_path).
Proof.
  split; [reflexivity|]. split.
  - simpl. tauto.
  - simpl. intuition discriminate.
Qed.

Lemma log_output_fs lines w :
  exists w', log_output e lines w = (Ok tt, w') /\ fs w' = fs w /\ boxes w' = boxes w.
Proof.
  revert w. induction lines as [|l lines IH]; intros w; simpl.
  - exists w. auto.
  - unfold bind. destruct (nonempty l); simpl;
      match goal with |- context [log_output e lines ?w0] =>
        destruct (IH w0) as (w' & -> & F & B) end; eauto.
Qed.

Lemma write_at_lookup q x d n n' :
  write_at q x d n = Ok n' -> lookup (q ++ [x]) n' = Some (File d).
Proof.
  intros H. destruct (alter_dir_ok _ _ _ _ H) as (es & es' & L & F & L').
  rewrite lookup_snoc, L'.
  destruct (assoc x es) as [[d0|es0]|]; try discriminate;
    injection F as <-; apply assoc_set_eq.
Qed.

(** C2 (the code departs from it). When the child process exits with a
    code other than 0, [run_build_process] returns [False] and does nothing
    more to the file system: [run_build.bat], which it wrote before it
    started the child, is not removed, and the tree is the one the child
    left. *)
Theorem failed_build_keeps_script w t n1 lines returncode n2 :
  find_vs_installation e (fs w) = Some t ->
  write_at (install_dir e) "run_build.bat" (build_script_text e (snd t)) (fs w) = Ok n1 ->
  run_cmd e n1 = Exits lines returncode n2 ->
  returncode <> 0%Z ->
  lookup (build_script e) n1 = Some (File (build_script_text e (snd t))) /\
  exists w', run_build_process e w = (Ok false, w') /\ fs w' = n2.
Proof.
  intros F W R NZ. split; [exact (write_at_lookup _ _ _ _ _ W)|].
  destruct t as [[vs_name vs_path] vcvars_path]. cbn [snd] in W.
  unfold run_build_process. mstep. rewrite F. mstep. rewrite W. mstep.
  unfold popen_build. cbn [fs]. rewrite R. mstep.
  match goal with |- context [log_output e lines ?w0] =>
    destruct (log_output_fs lines w0) as (w1 & -> & Fs1 & _) end.
  destruct (Z.eqb_spec returncode 0); [contradiction|]. mstep.
  eexists. split; [reflexivity|]. exact Fs1.
Qed.

End Build.

(** * Archiving the wheel *)

Section Archive.

Variable e : Env.

Lemma lookup_chain_child q a : lookup (q ++ [a]) (chain q) = None.
Proof.
  induction q as [|y q IH]; simpl; auto. now rewrite same_refl.
Qed.

(** The directories made on the way leave every file as it is. *)
Lemma mkpath_keeps_file q eo p d n n' :
  mkpath q eo n = Ok n' -> lookup p n = Some (File d) -> lookup p n' = Some (File d).
Proof.
  revert p n n'. induction q as [|x q IH]; intros p [d0|es] n'; simpl; try discriminate.
  - destruct eo; [|discriminate]. now intros [= <-].
  - destruct p as [|y p]; [discriminate|]. simpl.
    destruct (assoc x es) as [c|] eqn:A.
    + destruct (mkpath q eo c) as [c'|] eqn:R; [|discriminate].
      intros [= <-]. simpl.
      destruct (same x y) eqn:S.
      * rewrite <- (assoc_key _ _ es S), A.
        rewrite <- (assoc_key _ _ _ S), assoc_set_eq. eauto.
      * now rewrite assoc_set_neq.
    + intros [= <-]. simpl.
      destruct (assoc y es) as [c0|] eqn:B; [|discriminate].
      now rewrite (assoc_app_l _ _ _ _ B).
Qed.

(** No directory is made below [q]. *)
Lemma mkpath_no_child q eo a n n' :
  mkpath q eo n = Ok n' -> isdir (q ++ [a]) n = false -> isdir (q ++ [a]) n' = false.
Proof.
  unfold isdir. revert n n'.
  induction q as [|x q IH]; intros [d0|es] n'; simpl; try discriminate.
  - destruct eo; [|discriminate]. now intros [= <-].
  - destruct (assoc x es) as [c|] eqn:A.
    + destruct (mkpath q eo c) as [c'|] eqn:R; [|discriminate].
      intros [= <-]. simpl. rewrite assoc_set_eq. eauto.
    + intros [= <-] _. simpl. rewrite assoc_snoc_eq by assumption.
      now rewrite lookup_chain_child.
Qed.

Lemma write_at_file q x d n :
  isdir q n = true -> isdir (q ++ [x]) n = false ->
  exists n', write_at q x d n = Ok n' /\ lookup (q ++ [x]) n' = Some (File d).
Proof.
  unfold isdir. rewrite lookup_snoc.
  destruct (lookup q n) as [[d0|es]|] eqn:L; try discriminate.
  intros _ ND.
  assert (F : (fun es0 => match assoc x es0 with
                          | Some (Dir _) => Raise (OSError "is a directory")
                          | _ => Ok (set_entry x (File d) es0)
                          end) es = Ok (set_entry x (File d) es)).
  { destruct (assoc x es) as [[d1|es1]|]; auto; discriminate. }
  destruct (alter_dir_runs _ _ _ _ _ L F) as [n' H].
  exists n'. split; [exact H|].
  destruct (alter_dir_ok _ _ _ _ H) as (es0 & es' & L0 & F0 & L').
  rewrite L in L0. injection L0 as <-. rewrite F in F0. injection F0 as <-.
  rewrite lookup_snoc, L'. apply assoc_set_eq.
Qed.

(** A leaf that was made, or passed by, is a directory. *)
Lemma mkdir_leaf_isdir p eo n n' :
  mkdir_leaf p eo n = (Ok tt, n') -> isdir p n' = true.
Proof.
  unfold mkdir_leaf. destruct (mkdir p n) as [n1|ex] eqn:E.
  - intros [= <-]. destruct p as [|c p]; [discriminate|].
    destruct (@exists_last _ (c :: p)) as (q & x & Q); [discriminate|].
    rewrite Q in *. rewrite mkdir_snoc in E.
    destruct (alter_dir_ok _ _ _ _ E) as (es & es' & L & F & L').
    unfold isdir. rewrite lookup_snoc, L'.
    destruct (assoc x es) eqn:A; [discriminate|]. injection F as <-.
    now rewrite assoc_snoc_eq.
  - destruct (isdir p n) eqn:I; destruct eo; try discriminate.
    now intros [= <-].
Qed.

(** [os.makedirs] of a path that ends in a name leaves a directory there. *)
Lemma makedirs_named_isdir q x eo n n' :
  is_name x = true ->
  makedirs (q ++ [x]) eo n = (Ok tt, n') -> isdir (resolve (q ++ [x])) n' = true.
Proof.
  intros N. unfold makedirs. rewrite rev_app_distr. simpl rev at 1. cbn [app].
  assert (D : String.eqb x "." = false /\ x <> EmptyString).
  { unfold is_name in N. apply andb_prop in N. destruct N as [N _].
    destruct x as [|a s]; [discriminate|]. unfold passed_over in N.
    split; [|discriminate]. now destruct (String.eqb (String a s) "."). }
  destruct D as [D NE]. destruct x as [|a s]; [congruence|].
  cbn [makedirs_rev]. rewrite D. simpl rev. rewrite rev_involutive.
  destruct (exists_ (resolve q) n); [apply mkdir_leaf_isdir|].
  destruct (makedirs_rev (rev q) eo n) as [[u|ex] n1].
  - apply mkdir_leaf_isdir.
  - destruct ex; try discriminate. apply mkdir_leaf_isdir.
Qed.

(** With nothing in [dist] the archiver returns [False] and does nothing. *)
Lemma archive_wheel_nothing w :
  glob_whl (wheel_dir e) (fs w) = [] -> archive_wheel e w = (Ok false, w).
Proof.
  intros G. unfold archive_wheel. mstep. rewrite G. reflexivity.
Qed.

Lemma archive_path_named :
  archive_path_text e = (dirname (install_dir_var e) ++ ["deepspeed_wheels"]) ++ [archive_subdir e] /\
  is_name (archive_subdir e) = true.
Proof.
  unfold archive_path_text. rewrite <- app_assoc. split; reflexivity.
Qed.

(** C4 (as the code has it). The archiver does not count the wheels: it
    takes the first entry of the listing of [dist], whatever follows it, and
    when that entry is a file, the destination can be made and, once made,
    holds no directory under the name of the wheel, it copies the file
    there and returns [True]. *)
Theorem archive_wheel_takes_first w first rest d n1 :
  glob_whl (wheel_dir e) (fs w) = first :: rest ->
  lookup (wheel_dir e ++ [first]) (fs w) = Some (File d) ->
  makedirs (archive_path_text e) true (fs w) = (Ok tt, n1) ->
  isdir (archive_path e ++ [first]) n1 = false ->
  exists w',
    archive_wheel e w = (Ok true, w') /\
    lookup (archive_path e ++ [first]) (fs w') = Some (File d).
Proof.
  intros G S Mk ND.
  destruct (makedirs_kept _ _ _ _ _ Mk (wheel_dir e ++ [first])) as [S1 _].
  specialize (S1 _ S).
  assert (D1 : isdir (archive_path e) n1 = true).
  { destruct archive_path_named as [E N]. unfold archive_path. rewrite E in *.
    eapply makedirs_named_isdir; eauto. }
  destruct (write_at_file _ _ d _ D1 ND) as (n2 & Wr & L2).
  unfold archive_wheel. mstep. rewrite G. mstep. rewrite Mk. mstep.
  unfold copy2. rewrite S1.
  unfold isdir in D1. destruct (lookup (archive_path e) n1) as [[d0|es]|]; try discriminate.
  unfold basename. rewrite last_last. rewrite Wr.
  eexists. split; [reflexivity|]. exact L2.
Qed.

End Archive.

(** * An empty version *)

(** C10. With no version selected neither entry point starts: each one
    shows the error box and returns, and the file system, the log, the status
    line and the progress bar are what they were. *)
Theorem empty_version_starts_nothing e w :
  version_var e = EmptyString ->
  build_only e w =
    (Ok tt, with_box (ShowError "Error" "Please select a DeepSpeed version") w) /\
  start_installation e w =
    (Ok tt, with_box (ShowError "Error" "Please select a DeepSpeed version") w).
Proof.
  intros E. unfold build_only, start_installation, version. rewrite E.
  split; reflexivity.
Qed.

(** * The prerequisite check *)

Section Prerequisites.

Variable e : Env.

Local Opaque String.append render str.

Ltac logged :=
  mstep; eexists; eexists; split; [reflexivity|];
  split; [reflexivity|]; split; [reflexivity|];
  split; [cbn [log_area]; rewrite <- ?app_assoc; reflexivity|];
  simpl; tauto.

Lemma check_vs_logs met w :
  logs _ (check_vs e met) w
       (andb met (satisfied (vs_finding e (fs w)))) (detail (vs_finding e (fs w))).
Proof.
  unfold logs, check_vs, vs_finding. mstep.
  destruct (find_vs_installation e (fs w)) as [[[vs_name vs_path] vcvars_path]|];
    cbn [satisfied detail fst snd]; rewrite ?andb_true_r, ?andb_false_r; logged.
Qed.

Lemma check_cuda_logs met w :
  logs _ (check_cuda e met) w
       (andb met (satisfied (cuda_finding e (fs w)))) (detail (cuda_finding e (fs w))).
Proof.
  unfold logs, check_cuda, cuda_finding. mstep.
  destruct (exists_ (cuda_path e) (fs w)); cbn [negb]; mstep;
    [destruct (exists_ (nvcc_path e) (fs w))|];
    cbn [satisfied detail fst snd]; rewrite ?andb_true_r, ?andb_false_r; logged.
Qed.

Lemma check_torch_logs description met w :
  description = "PyTorch is required for DeepSpeed" ->
  logs _ (check_package e "torch" description met) w
       (andb met (satisfied (torch_finding e))) (detail (torch_finding e)).
Proof.
  intros ->. unfold logs, check_package, torch_finding. cbn [String.eqb Ascii.eqb Bool.eqb].
  mstep.
  destruct (import_torch e) as [torch|[]]; mstep;
    [destruct (torch_cuda_is_available torch)|..];
    cbn [satisfied detail fst snd]; rewrite ?andb_true_r, ?andb_false_r; logged.
Qed.

Lemma check_other_logs package description met w :
  String.eqb package "torch" = false ->
  logs _ (check_package e package description met) w
       (andb met (satisfied (package_finding e package)))
       (detail (package_finding e package)).
Proof.
  intros N. unfold logs, check_package, package_finding. rewrite N. mstep.
  destruct (distribution e package) as [[]|[]]; mstep;
    try (cbn [satisfied detail fst snd]; rewrite ?andb_true_r, ?andb_false_r; logged).
  destruct (check_call e _) as [[]|[]]; mstep;
    cbn [satisfied detail fst snd]; rewrite ?andb_true_r, ?andb_false_r; logged.
Qed.

(** C7. [check_prerequisites] never raises and runs all five checks
    whatever the earlier ones found: its result is the conjunction of the
    five findings, each decided by its own subject, and the log holds the
    detail line of every one of them.  With the toolkit directory absent the
    result is [False] and the log names the missing path, next to the
    toolchain and package findings.  The file system is not touched. *)
Theorem check_prerequisites_complete w :
  exists w',
    check_prerequisites e w = (Ok (all_satisfied e (fs w)), w') /\
    fs w' = fs w /\
    Forall (fun f => In (detail f) (log_area w')) (findings e (fs w)) /\
    (if exists_ (cuda_path e) (fs w) then True
     else all_satisfied e (fs w) = false /\
          In ("❌ CUDA not found at: " +++ render (cuda_path e)) (log_area w')).
Proof.
  unfold check_prerequisites. mstep.
  match goal with |- context [check_vs e true ?w0] =>
    destruct (check_vs_logs true w0) as (w1 & l1 & -> & F1 & B1 & L1 & I1) end.
  cbn [fs log_area andb] in *.
  match goal with |- context [check_cuda e ?m ?w0] =>
    destruct (check_cuda_logs m w0) as (w2 & l2 & -> & F2 & B2 & L2 & I2) end.
  cbn [fs log_area] in *. unfold required_packages. cbn [check_packages]. mstep.
  match goal with |- context [check_package e "torch" ?d ?m ?w0] =>
    destruct (check_torch_logs d m w0 eq_refl) as (w3 & l3 & -> & F3 & B3 & L3 & I3) end.
  cbn [fs log_area] in *.
  match goal with |- context [check_package e "ninja" ?d ?m ?w0] =>
    destruct (check_other_logs "ninja" d m w0 eq_refl) as (w4 & l4 & -> & F4 & B4 & L4 & I4) end.
  match goal with |- context [check_package e "psutil" ?d ?m ?w0] =>
    destruct (check_other_logs "psutil" d m w0 eq_refl) as (w5 & l5 & -> & F5 & B5 & L5 & I5) end.
  rewrite F2, F1 in *.
  assert (R : (satisfied (vs_finding e (fs w)) && satisfied (cuda_finding e (fs w)) &&
               satisfied (torch_finding e) && satisfied (package_finding e "ninja") &&
               satisfied (package_finding e "psutil"))%bool = all_satisfied e (fs w)).
  { unfold all_satisfied, findings. cbn [forallb]. rewrite andb_true_r.
    now rewrite !andb_assoc. }
  rewrite R.
  assert (Lg : log_area w5 =
               log_area w ++ [nl +++ "Checking prerequisites..."] ++ l1 ++ l2 ++
               [nl +++ "Checking Python packages:"] ++ l3 ++ l4 ++ l5).
  { rewrite L5, L4, L3, L2, L1. now rewrite <- !app_assoc. }
  assert (Fs5 : fs w5 = fs w) by congruence.
  assert (All : Forall (fun f => In (detail f) (log_area w5)) (findings e (fs w))).
  { rewrite Lg. unfold findings. repeat constructor;
      repeat (apply in_or_app; first [left; assumption | right]); try assumption. }
  assert (Cuda : if exists_ (cuda_path e) (fs w) then True
                 else all_satisfied e (fs w) = false /\
                      In ("❌ CUDA not found at: " +++ render (cuda_path e)) (log_area w5)).
  { destruct (exists_ (cuda_path e) (fs w)) eqn:X; [exact I|].
    split.
    - rewrite <- R. unfold cuda_finding. rewrite X. cbn [satisfied fst snd].
      now rewrite andb_false_r.
    - inversion All as [|? ? _ All1]; inversion All1 as [|? ? C _]; subst.
      unfold cuda_finding in C. rewrite X in C. exact C. }
  destruct (all_satisfied e (fs w)); mstep;
    (eexists; split; [reflexivity|]; cbn [fs log_area]; split; [exact Fs5|]; split).
  all: try (eapply Forall_impl; [|exact All]; intros f Hf; cbn beta;
            repeat (apply in_or_app; left); exact Hf).
  all: destruct (exists_ (cuda_path e) (fs w)); auto;
       destruct Cuda as [C1 C2]; split; auto;
       repeat (apply in_or_app; left); exact C2.
Qed.

(** [check_prerequisites] shows its error box exactly when a finding is
    unsatisfied; the status line and the progress bar say the same, and no
    other dialog is shown. *)
Theorem check_prerequisites_reports w :
  exists w',
    check_prerequisites e w = (Ok (all_satisfied e (fs w)), w') /\
    status_var w' =
      (if all_satisfied e (fs w) then "Ready to install" else "Prerequisites check failed") /\
    progress_var w' = (if all_satisfied e (fs w) then 100%Z else 0%Z) /\
    boxes w' =
      boxes w ++
      (if all_satisfied e (fs w) then []
       else [ShowError "Prerequisites"
               "Some prerequisites are missing. Please check the log for details and installation instructions."]).
Proof.
  unfold check_prerequisites. mstep.
  match goal with |- context [check_vs e true ?w0] =>
    destruct (check_vs_logs true w0) as (w1 & l1 & -> & F1 & B1 & L1 & I1) end.
  cbn [fs log_area boxes andb] in *.
  match goal with |- context [check_cuda e ?m ?w0] =>
    destruct (check_cuda_logs m w0) as (w2 & l2 & -> & F2 & B2 & L2 & I2) end.
  cbn [fs log_area boxes] in *. unfold required_packages. cbn [check_packages]. mstep.
  match goal with |- context [check_package e "torch" ?d ?m ?w0] =>
    destruct (check_torch_logs d m w0 eq_refl) as (w3 & l3 & -> & F3 & B3 & L3 & I3) end.
  cbn [fs log_area boxes] in *.
  match goal with |- context [check_package e "ninja" ?d ?m ?w0] =>
    destruct (check_other_logs "ninja" d m w0 eq_refl) as (w4 & l4 & -> & F4 & B4 & L4 & I4) end.
  match goal with |- context [check_package e "psutil" ?d ?m ?w0] =>
    destruct (check_other_logs "psutil" d m w0 eq_refl) as (w5 & l5 & -> & F5 & B5 & L5 & I5) end.
  rewrite F2, F1 in *.
  assert (R : (satisfied (vs_finding e (fs w)) && satisfied (cuda_finding e (fs w)) &&
               satisfied (torch_finding e) && satisfied (package_finding e "ninja") &&
               satisfied (package_finding e "psutil"))%bool = all_satisfied e (fs w)).
  { unfold all_satisfied, findings. cbn [forallb]. rewrite andb_true_r.
    now rewrite !andb_assoc. }
  rewrite R.
  assert (B : boxes w5 = boxes w) by congruence.
  destruct (all_satisfied e (fs w)); mstep;
    (eexists; split; [reflexivity|]); cbn [status_var progress_var boxes];
    rewrite B; repeat split.
  now rewrite app_nil_r.
Qed.

End Prerequisites.

(** * Working below a directory *)

Section MoveFocus.

Implicit Types (q : path) (n c : node).

Lemma same_path_app q p1 p2 : same_path (q ++ p1) (q ++ p2) = same_path p1 p2.
Proof.
  induction q as [|x q IH]; simpl; auto. now rewrite same_refl.
Qed.

Lemma rename_focus q sq sx dq dx n c :
  lookup q n = Some c ->
  rename (q ++ sq) sx (q ++ dq) dx n =
  match rename sq sx dq dx c with
  | Ok c' => Ok (replace_at q c' n)
  | Raise ex => Raise ex
  end.
Proof.
  intros L. unfold rename.
  rewrite <- app_assoc, (lookup_focus q _ n c L).
  destruct (lookup (sq ++ [sx]) c) as [s|]; auto.
  unfold unlink_at, link_at. rewrite (alter_dir_focus q sq _ n c L).
  destruct (alter_dir sq _ c) as [c1|]; auto.
  rewrite (alter_dir_focus q dq _ _ c1 (lookup_replace_at _ _ _ _ L)).
  destruct (alter_dir dq _ c1) as [c2|]; auto.
  now rewrite (replace_at_twice _ _ _ _ _ L).
Qed.

(** A move between two places below [q] is a move in the subtree at [q]. *)
Lemma move_focus q sq sx dq dx n c :
  lookup q n = Some c ->
  move (q ++ sq) sx (q ++ dq) dx n =
  match move sq sx dq dx c with
  | Ok c' => Ok (replace_at q c' n)
  | Raise ex => Raise ex
  end.
Proof.
  intros L. unfold move.
  rewrite <- !app_assoc, !(lookup_focus q _ n c L).
  destruct (lookup (sq ++ [sx]) c) as [s|]; auto.
  destruct (lookup (dq ++ [dx]) c) as [[d|es]|].
  - destruct s as [d0|es0]; auto.
    unfold write_at, unlink_at. rewrite (alter_dir_focus q dq _ n c L).
    destruct (alter_dir dq _ c) as [c1|]; auto.
    rewrite (alter_dir_focus q sq _ _ c1 (lookup_replace_at _ _ _ _ L)).
    destruct (alter_dir sq _ c1) as [c2|]; auto.
    now rewrite (replace_at_twice _ _ _ _ _ L).
  - rewrite same_path_app. destruct (same_path (sq ++ [sx]) (dq ++ [dx])).
    + now rewrite (replace_at_same _ _ _ L).
    + destruct (lookup (dq ++ [dx; sx]) c); auto.
      rewrite (app_assoc q dq [dx]). rewrite <- (app_assoc q dq [dx]).
      apply (rename_focus q sq sx (dq ++ [dx]) sx n c L).
  - apply (rename_focus q sq sx dq dx n c L).
Qed.

End MoveFocus.

(** * Lists of entries *)

Section EntryLists.

Implicit Types (k : string) (v : node) (es pre post : entries).

Lemma mem_In k l : mem k l = true <-> In (key k) (map key l).
Proof.
  unfold mem. rewrite existsb_exists, in_map_iff. split.
  - intros (y & I & E). apply same_key in E. eauto.
  - intros (y & E & I). exists y. split; [assumption|]. now apply same_key.
Qed.

Lemma mem_false k l : mem k l = false <-> ~ In (key k) (map key l).
Proof.
  rewrite <- mem_In. destruct (mem k l); split; congruence.
Qed.

Lemma nodupb_NoDup l : nodupb l = true -> NoDup (map key l).
Proof.
  induction l as [|x l IH]; simpl; [constructor|].
  intros H. apply andb_prop in H as [H1 H2]. constructor; auto.
  apply negb_true_iff in H1. now apply mem_false.
Qed.

Lemma disjoint_spec l1 l2 :
  disjoint l1 l2 = true <-> forall x, In x l1 -> ~ In (key x) (map key l2).
Proof.
  unfold disjoint. rewrite forallb_forall. split; intros H x I.
  - apply mem_false. apply negb_true_iff. auto.
  - apply negb_true_iff. apply mem_false. auto.
Qed.

Lemma names_app es es' : names (es ++ es') = names es ++ names es'.
Proof. apply map_app. Qed.

Lemma keys_app es es' : keys (es ++ es') = keys es ++ keys es'.
Proof. unfold keys. now rewrite names_app, map_app. Qed.

Lemma keys_cons k v es : keys ((k, v) :: es) = key k :: keys es.
Proof. reflexivity. Qed.

Lemma in_keys k es : In k (names es) -> In (key k) (keys es).
Proof. apply in_map. Qed.

Lemma assoc_middle k k0 v pre post :
  same k k0 = true -> ~ In (key k) (keys pre) ->
  assoc k (pre ++ (k0, v) :: post) = Some v.
Proof.
  intros S H. rewrite assoc_app_r by now apply assoc_none_keys.
  simpl. now rewrite S.
Qed.

Lemma set_entry_middle k k0 v v' pre post :
  same k k0 = true -> ~ In (key k) (keys pre) ->
  set_entry k v' (pre ++ (k0, v) :: post) = pre ++ (k0, v') :: post.
Proof.
  intros S. induction pre as [|[k1 v1] pre IH]; cbn [app set_entry]; intros H.
  - now rewrite S.
  - rewrite keys_cons in H. destruct (same k k1) eqn:E.
    + apply same_key in E. exfalso. apply H. now left.
    + rewrite IH; auto. intros J. apply H. now right.
Qed.

Lemma remove_entry_middle k k0 v pre post :
  same k k0 = true -> ~ In (key k) (keys pre) -> ~ In (key k) (keys post) ->
  remove_entry k (pre ++ (k0, v) :: post) = pre ++ post.
Proof.
  intros S. induction pre as [|[k1 v1] pre IH]; cbn [app remove_entry]; intros H1 H2.
  - rewrite S. now apply remove_entry_absent.
  - rewrite keys_cons in H1. destruct (same k k1) eqn:E.
    + apply same_key in E. exfalso. apply H1. now left.
    + rewrite IH; auto. intros J. apply H1. now right.
Qed.

Lemma assoc_split k v es :
  assoc k es = Some v ->
  exists pre k0 post,
    es = pre ++ (k0, v) :: post /\ same k k0 = true /\ ~ In (key k) (keys pre).
Proof.
  induction es as [|[k1 v1] es IH]; simpl; [discriminate|].
  destruct (same k k1) eqn:E.
  - intros [= ->]. exists [], k1, es. auto.
  - intros A. destruct (IH A) as (pre & k0 & post & -> & S & I).
    exists ((k1, v1) :: pre), k0, post. split; [reflexivity|]. split; auto.
    rewrite keys_cons. intros [J|J]; [|contradiction].
    assert (same k k1 = true) by (apply same_key; congruence). congruence.
Qed.

End EntryLists.

(** * Unpacking a well-formed archive *)

Section Unpack.

(** Induction on trees, with the hypothesis on every entry of a directory. *)
Lemma node_induction (P : node -> Prop) :
  (forall d, P (File d)) ->
  (forall es, Forall (fun kv => P (snd kv)) es -> P (Dir es)) ->
  forall n, P n.
Proof.
  intros HF HD. fix IH 1. intros [d|es].
  - apply HF.
  - apply HD. induction es as [|[k v] es IHes]; constructor; auto.
Qed.

Lemma unpack_node_dir es dst :
  unpack_node (Dir es) dst =
  match dst with
  | Some (File _) => Raise (OSError "file exists")
  | Some (Dir des) =>
      match unpack_entries es des with Ok r => Ok (Dir r) | Raise ex => Raise ex end
  | None =>
      match unpack_entries es [] with Ok r => Ok (Dir r) | Raise ex => Raise ex end
  end.
Proof.
  assert (G : forall l acc,
             (fix go (l : entries) (acc : entries) : result entries :=
                match l with
                | [] => Ok acc
                | (k, v) :: l' =>
                    match unpack_node v (assoc k acc) with
                    | Ok v' => go l' (set_entry k v' acc)
                    | Raise ex => Raise ex
                    end
                end) l acc = unpack_entries l acc).
  { reflexivity. }
  simpl. destruct dst as [[d|des]|]; auto; now rewrite G.
Qed.

(** Entries extracted next to entries of other names are added after them. *)
Lemma unpack_entries_fresh l :
  Forall (fun kv => unpack_node (snd kv) None = Ok (snd kv)) l ->
  NoDup (keys l) ->
  forall acc,
    (forall k, In k (keys l) -> ~ In k (keys acc)) ->
    unpack_entries l acc = Ok (acc ++ l).
Proof.
  induction l as [|[k v] l IH]; intros F N acc D; simpl.
  - now rewrite app_nil_r.
  - inversion F as [|? ? Fv Fl]; subst. rewrite keys_cons in N, D.
    inversion N as [|? ? Nk Nl]; subst.
    simpl in Fv.
    assert (A : assoc k acc = None).
    { apply assoc_none_keys. apply D. simpl. auto. }
    rewrite A, Fv, set_entry_absent by (apply D; simpl; auto).
    rewrite IH; auto.
    + now rewrite <- app_assoc.
    + intros k' I. rewrite keys_app, keys_cons. simpl. intros J.
      apply in_app_or in J as [J|[J|[]]].
      * apply (D k'); simpl; auto.
      * subst. contradiction.
Qed.

Lemma unpack_node_fresh v : wf_node v = true -> unpack_node v None = Ok v.
Proof.
  induction v as [d|es IH] using node_induction; intros W.
  - reflexivity.
  - rewrite unpack_node_dir. simpl in W. apply andb_prop in W as [W1 W2].
    rewrite (unpack_entries_fresh es); auto.
    + rewrite Forall_forall in IH |- *. intros kv I. apply IH; auto.
      rewrite forallb_forall in W2. auto.
    + now apply nodupb_NoDup.
Qed.

Lemma unpack_entries_wf l acc :
  wf_entries l = true -> disjoint (names l) (names acc) = true ->
  unpack_entries l acc = Ok (acc ++ l).
Proof.
  unfold wf_entries. intros W D. apply andb_prop in W as [W1 W2].
  apply unpack_entries_fresh.
  - rewrite Forall_forall. intros kv I. apply unpack_node_fresh.
    rewrite forallb_forall in W2. auto.
  - now apply nodupb_NoDup.
  - rewrite disjoint_spec in D. unfold keys. intros k I.
    apply in_map_iff in I. destruct I as (x & <- & I). now apply D.
Qed.

End Unpack.

(** * Download and extraction *)

(** The keys of names that the program writes out. *)
Ltac key_side :=
  let H := fresh in
  intros H;
  first [ discriminate H
        | clear H; rewrite key_ascii by first [reflexivity | key_side]; discriminate ].

Ltac name_keys :=
  unfold same; cbn [String.append];
  repeat (rewrite key_ascii by first [reflexivity | key_side]); rewrite ?key_empty.

Section Fetch.

Variable e : Env.

Local Abbreviation raw := (install_dir_var e).
Local Abbreviation ws := (install_dir e).
Local Abbreviation top := ("DeepSpeed-" +++ version e).
Local Abbreviation zip := "deepspeed.zip".

Lemma on_path_snoc op q x n : on_path op (q ++ [x]) n = op q x n.
Proof.
  unfold on_path.
  destruct (q ++ [x]) as [|y l] eqn:E.
  - symmetry in E. now apply app_cons_not_nil in E.
  - rewrite <- E. now rewrite removelast_last, last_last.
Qed.

(** One turn of the loop, in the workspace. *)
Lemma move_up_one pre post k0 item v rest :
  same top k0 = true ->
  ~ In (key top) (keys pre) -> key item <> key top ->
  ~ In (key item) (keys pre) -> ~ In (key item) (keys post) ->
  ~ In (key item) (keys rest) ->
  move [top] item [] item (Dir (pre ++ (k0, Dir ((item, v) :: rest)) :: post)) =
  Ok (Dir (pre ++ (k0, Dir rest) :: post ++ [(item, v)])).
Proof.
  intros T Tp N Ip Io Ir.
  assert (K : key k0 = key top) by (symmetry; now apply same_key).
  assert (A : assoc item (pre ++ (k0, Dir ((item, v) :: rest)) :: post) = None).
  { apply assoc_none_keys. rewrite keys_app, keys_cons. intros J.
    apply in_app_or in J as [J|[J|J]]; auto. congruence. }
  assert (S : lookup ([top] ++ [item]) (Dir (pre ++ (k0, Dir ((item, v) :: rest)) :: post))
              = Some v).
  { cbn [app lookup]. rewrite (assoc_middle _ _ _ _ _ T Tp). cbn [assoc].
    now rewrite same_refl. }
  unfold move. rewrite S. cbn [app lookup]. rewrite A.
  unfold rename. rewrite S. unfold unlink_at, link_at. cbn [alter_dir].
  rewrite (assoc_middle _ _ _ _ _ T Tp). cbn [assoc]. rewrite same_refl.
  cbn [remove_entry]. rewrite same_refl.
  rewrite (remove_entry_absent _ _ Ir), (set_entry_middle _ _ _ _ _ _ T Tp).
  assert (A' : assoc item (pre ++ (k0, Dir rest) :: post) = None).
  { apply assoc_none_keys. rewrite keys_app, keys_cons. intros J.
    apply in_app_or in J as [J|[J|J]]; auto. congruence. }
  rewrite A'. now rewrite <- app_assoc.
Qed.

(** The whole loop. *)
Lemma move_up_all k0 rest :
  same top k0 = true ->
  forall w pre post,
    lookup ws (fs w) = Some (Dir (pre ++ (k0, Dir rest) :: post)) ->
    NoDup (keys rest) ->
    ~ In (key top) (keys pre) ->
    (forall x, In x (names rest) ->
               key x <> key top /\ ~ In (key x) (keys pre) /\ ~ In (key x) (keys post)) ->
    exists w',
      move_up e (names rest) w = (Ok tt, w') /\
      lookup ws (fs w') = Some (Dir (pre ++ (k0, Dir []) :: post ++ rest)).
Proof.
  intros T. induction rest as [|[item v] rest IH]; intros w pre post L N Tp C.
  - exists w. rewrite app_nil_r. auto.
  - cbn [names map fst move_up]. mstep. unfold extracted_dir.
    rewrite keys_cons in N. inversion N as [|? ? Ni Nr]; subst.
    destruct (C item) as (C1 & C2 & C3); [simpl; auto|].
    pose proof (move_focus ws [top] item [] item (fs w) _ L) as F.
    rewrite app_nil_r in F. rewrite F.
    rewrite (move_up_one pre post k0 item v rest T Tp C1 C2 C3 Ni). mstep.
    match goal with |- context [move_up e _ ?w0] =>
      destruct (IH w0 pre (post ++ [(item, v)])) as (w' & M & L') end.
    + cbn [fs]. apply (lookup_replace_at _ _ _ _ L).
    + assumption.
    + assumption.
    + intros x I. destruct (C x) as (D1 & D2 & D3); [simpl; auto|].
      repeat split; auto. rewrite keys_app, keys_cons. simpl. intros J.
      apply in_app_or in J as [J|[J|[]]]; [auto|].
      apply Ni. rewrite J. now apply in_keys.
    + exists w'. split; [exact M|]. rewrite L'. now rewrite <- app_assoc.
Qed.

Lemma top_not_zip : same top zip = false.
Proof. name_keys. reflexivity. Qed.

Lemma top_key_not_zip : key top <> key zip.
Proof.
  intros E. apply same_key in E. rewrite top_not_zip in E. discriminate.
Qed.

(** On a workspace that is there, on a path that does not climb, nothing
    is made. *)
Lemma makedirs_workspace n es :
  climbs raw = false -> lookup ws n = Some (Dir es) ->
  makedirs raw true n = (Ok tt, n).
Proof.
  intros C L. pose proof (makedirs_plain raw true n C) as M. fold ws in M.
  rewrite mkpath_existing in M; auto. unfold isdir. now rewrite L.
Qed.

(** Up to the unpacking, on a fresh workspace. *)
Lemma download_and_extract_unpacked w status body members :
  climbs raw = false ->
  lookup ws (fs w) = Some (Dir []) ->
  requests_get e (url e) = Ok (status, body) ->
  andb (Z.leb 400 status) (Z.ltb status 600) = false ->
  zip_members e body = Members members ->
  wf_entries members = true ->
  mem zip (names members) = false ->
  download_and_extract e w = flatten_extracted e (unpacked e w body members) /\
  lookup ws (fs (unpacked e w body members)) = Some (Dir ((zip, File body) :: members)).
Proof.
  intros C L G S Z W Mz. rewrite mem_false in Mz. split.
  - unfold download_and_extract, flatten_extracted, unpacked. mstep. rewrite G. mstep.
    unfold raise_for_status. rewrite S. mstep.
    rewrite (makedirs_workspace _ _ C L). mstep.
    unfold zip_path, write. rewrite on_path_snoc. unfold write_at.
    rewrite (alter_dir_at _ _ _ _ L). cbn [assoc set_entry]. mstep.
    pose proof (lookup_replace_at ws (Dir [(zip, File body)]) _ _ L) as L1.
    unfold unpack_archive. mstep. rewrite (lookup_focus _ [zip] _ _ L1).
    cbn [lookup assoc]. rewrite same_refl. rewrite Z. mstep.
    unfold unpack_into. rewrite (alter_dir_at _ _ _ _ L1).
    rewrite unpack_entries_wf; [|assumption|].
    2:{ apply disjoint_spec. intros x I [J|[]]. apply Mz. cbn [fst] in J.
        rewrite J. now apply in_map. }
    mstep. rewrite (replace_at_twice _ _ _ _ _ L).
    cbn [app]. rewrite <- !app_assoc. reflexivity.
  - unfold unpacked. cbn [fs]. apply (lookup_replace_at _ _ _ _ L).
Qed.

(** The step on a fresh workspace, for an archive that holds the directory
    [DeepSpeed-<version>] among its top-level entries. *)
Lemma download_and_extract_named w status body members m1 k0 items m2 :
  climbs raw = false ->
  lookup ws (fs w) = Some (Dir []) ->
  requests_get e (url e) = Ok (status, body) ->
  andb (Z.leb 400 status) (Z.ltb status 600) = false ->
  zip_members e body = Members members ->
  members = m1 ++ (k0, Dir items) :: m2 ->
  same top k0 = true ->
  wf_entries members = true ->
  mem zip (names members) = false ->
  disjoint (names items) (zip :: names members) = true ->
  exists w',
    download_and_extract e w = (Ok tt, w') /\
    lookup ws (fs w') = Some (Dir (m1 ++ m2 ++ items)).
Proof.
  intros C L G S Z E T W Mz D.
  destruct (download_and_extract_unpacked w status body members C L G S Z W Mz) as [-> L2].
  assert (K : key k0 = key top) by (symmetry; now apply same_key).
  assert (Wn : NoDup (keys members)).
  { unfold wf_entries in W. apply andb_prop in W as [W _]. now apply nodupb_NoDup. }
  assert (Wi : NoDup (keys items)).
  { unfold wf_entries in W. apply andb_prop in W as [_ W].
    rewrite forallb_forall in W. specialize (W (k0, Dir items)).
    rewrite E in W. specialize (W (in_elt _ _ _)). simpl in W.
    apply andb_prop in W as [W _]. now apply nodupb_NoDup. }
  rewrite mem_false in Mz. rewrite disjoint_spec in D.
  fold (keys members) in Mz.
  change (map key (zip :: names members)) with (key zip :: keys members) in D.
  rewrite E in Wn, Mz, D. rewrite keys_app, keys_cons, K in Wn, Mz, D.
  assert (T1 : ~ In (key top) (keys m1)).
  { apply NoDup_remove_2 in Wn. intros I. apply Wn. apply in_or_app. auto. }
  assert (T2 : ~ In (key top) (keys m2)).
  { apply NoDup_remove_2 in Wn. intros I. apply Wn. apply in_or_app. auto. }
  subst members. unfold flatten_extracted. mstep.
  unfold listdir, extracted_dir. rewrite (lookup_focus _ [top] _ _ L2).
  cbn [lookup app assoc]. rewrite top_not_zip, (assoc_middle _ _ _ _ _ T T1).
  assert (Tp : ~ In (key top) (keys ((zip, File body) :: m1))).
  { rewrite keys_cons. intros [J|J]; [|now apply T1].
    apply top_key_not_zip. now symmetry. }
  destruct (move_up_all k0 items T (unpacked e w body (m1 ++ (k0, Dir items) :: m2))
              ((zip, File body) :: m1) m2) as (w3 & M & L3); auto.
  { intros x I. specialize (D x I). rewrite keys_cons. repeat split.
    - intros J. apply D. right. apply in_or_app. right. left. now symmetry.
    - intros [J|J]; apply D; [now left|]. right. apply in_or_app. now left.
    - intros J. apply D. right. apply in_or_app. right. now right. }
  rewrite M. mstep.
  unfold rmdir. rewrite on_path_snoc. unfold rmdir_at.
  rewrite (alter_dir_at _ _ _ _ L3), (assoc_middle _ _ _ _ _ T Tp).
  rewrite remove_entry_middle; auto.
  2:{ rewrite keys_app. intros J. apply in_app_or in J as [J|J]; [now apply T2|].
      unfold keys in J. apply in_map_iff in J. destruct J as (x & Kx & J).
      apply (D x J). right. apply in_or_app. right. left. now symmetry. }
  mstep.
  pose proof (lookup_replace_at ws (Dir (((zip, File body) :: m1) ++ m2 ++ items))
                _ _ L3) as L4.
  unfold zip_path, remove. rewrite on_path_snoc. unfold remove_at.
  rewrite (alter_dir_at _ _ _ _ L4). cbn [app assoc remove_entry].
  rewrite same_refl. rewrite remove_entry_absent.
  2:{ rewrite !keys_app. intros J. apply in_app_or in J as [J|J].
      - apply Mz. apply in_or_app. now left.
      - apply in_app_or in J as [J|J].
        + apply Mz. apply in_or_app. right. now right.
        + unfold keys in J. apply in_map_iff in J. destruct J as (x & Kx & J).
          apply (D _ J). left. now symmetry. }
  mstep. eexists. split; [reflexivity|]. cbn [fs].
  apply (lookup_replace_at _ _ _ _ L4).
Qed.

(** The step when no directory [DeepSpeed-<version>] came out of the
    archive: the listing raises. *)
Lemma download_and_extract_unnamed w status body members :
  climbs raw = false ->
  lookup ws (fs w) = Some (Dir []) ->
  requests_get e (url e) = Ok (status, body) ->
  andb (Z.leb 400 status) (Z.ltb status 600) = false ->
  zip_members e body = Members members ->
  wf_entries members = true ->
  mem zip (names members) = false ->
  match assoc top members with Some (Dir _) => false | _ => true end = true ->
  exists msg,
    download_and_extract e w = (Raise (OSError msg), unpacked e w body members).
Proof.
  intros C L G S Z W Mz A.
  destruct (download_and_extract_unpacked w status body members C L G S Z W Mz) as [-> L2].
  unfold flatten_extracted. mstep.
  unfold listdir, extracted_dir. rewrite (lookup_focus _ [top] _ _ L2).
  cbn [lookup assoc]. rewrite top_not_zip.
  destruct (assoc top members) as [[d|es]|]; try discriminate; eauto.
Qed.

(** C8 (as the code has it). On a fresh workspace whose path does not
    climb, for a well-formed archive whose one top-level entry is a
    directory that the volume knows as [DeepSpeed-<version>] and that
    holds no item it knows as [deepspeed.zip] or as [DeepSpeed-<version>],
    the step succeeds; afterwards the workspace holds exactly the items of
    that directory, and neither the downloaded archive nor the directory is
    left. *)
Theorem fetch_flattens_archive w status body name items :
  climbs (install_dir_var e) = false ->
  lookup (install_dir e) (fs w) = Some (Dir []) ->
  requests_get e (url e) = Ok (status, body) ->
  andb (Z.leb 400 status) (Z.ltb status 600) = false ->
  zip_members e body = Members [(name, Dir items)] ->
  same name ("DeepSpeed-" +++ version e) = true ->
  wf_node (Dir items) = true ->
  disjoint (names items) ["deepspeed.zip"; "DeepSpeed-" +++ version e] = true ->
  exists w',
    download_and_extract e w = (Ok tt, w') /\
    lookup (install_dir e) (fs w') = Some (Dir items) /\
    exists_ (zip_path e) (fs w') = false /\
    exists_ (extracted_dir e) (fs w') = false.
Proof.
  intros C L G S Z T W D. rewrite same_sym in T.
  assert (K : key name = key top) by (symmetry; now apply same_key).
  assert (Mz : mem zip (names [(name, Dir items)]) = false).
  { apply mem_false. cbn [names map fst]. intros [J|[]].
    apply top_key_not_zip. congruence. }
  destruct (download_and_extract_named w status body [(name, Dir items)] [] name items []
              C L G S Z eq_refl T) as (w' & R & L').
  - unfold wf_entries. cbn [names map fst nodupb mem existsb forallb snd negb andb].
    now rewrite W.
  - exact Mz.
  - rewrite disjoint_spec in D |- *. intros x I J. apply (D x I).
    cbn [names map fst] in *. rewrite K in J. exact J.
  - exists w'. cbn [app] in L'. repeat split; auto.
    + unfold exists_, zip_path. rewrite (lookup_focus _ [zip] _ _ L'). cbn [lookup].
      rewrite disjoint_spec in D.
      replace (assoc zip items) with (@None node); auto.
      symmetry. apply assoc_none_keys. unfold keys. intros I.
      apply in_map_iff in I. destruct I as (x & Kx & I).
      apply (D _ I). left. now symmetry.
    + unfold exists_, extracted_dir. rewrite (lookup_focus _ [top] _ _ L'). cbn [lookup].
      rewrite disjoint_spec in D.
      replace (assoc top items) with (@None node); auto.
      symmetry. apply assoc_none_keys. unfold keys. intros I.
      apply in_map_iff in I. destruct I as (x & Kx & I).
      apply (D _ I). right. left. now symmetry.
Qed.

(** C5 (as the code has it). The step never takes an entry by its place
    in a listing: it works on the directory that the volume knows as
    [DeepSpeed-<version>].  On a fresh workspace whose path does not climb,
    for a well-formed archive with no top-level entry known as
    [deepspeed.zip]: when the archive holds that directory among any other
    top-level entries, its items are moved up and the other entries stay
    where they were unpacked; when it holds no directory of that name, the
    listing raises an [OSError] and the step stops there, with the download
    and the unpacked entries in the workspace. *)
Theorem extract_selects_named_directory w status body members :
  climbs (install_dir_var e) = false ->
  lookup (install_dir e) (fs w) = Some (Dir []) ->
  requests_get e (url e) = Ok (status, body) ->
  andb (Z.leb 400 status) (Z.ltb status 600) = false ->
  zip_members e body = Members members ->
  wf_entries members = true ->
  mem "deepspeed.zip" (names members) = false ->
  match assoc ("DeepSpeed-" +++ version e) members with
  | Some (Dir items) =>
      disjoint (names items) ("deepspeed.zip" :: names members) = true ->
      exists w',
        download_and_extract e w = (Ok tt, w') /\
        lookup (install_dir e) (fs w') =
          Some (Dir (remove_entry ("DeepSpeed-" +++ version e) members ++ items))
  | _ =>
      exists msg,
        download_and_extract e w = (Raise (OSError msg), unpacked e w body members) /\
        lookup (install_dir e) (fs (unpacked e w body members)) =
          Some (Dir (("deepspeed.zip", File body) :: members))
  end.
Proof.
  intros C L G S Z W Mz.
  pose proof (download_and_extract_unpacked w status body members C L G S Z W Mz) as [_ U].
  destruct (assoc top members) as [[d|items]|] eqn:A.
  - destruct (download_and_extract_unnamed w status body members C L G S Z W Mz) as [msg R].
    + now rewrite A.
    + eauto.
  - intros D. destruct (assoc_split _ _ _ A) as (m1 & k0 & m2 & E & T & T1).
    destruct (download_and_extract_named w status body members m1 k0 items m2
                C L G S Z E T W Mz D) as (w' & R & L').
    exists w'. split; [exact R|]. rewrite L'. rewrite E.
    rewrite (remove_entry_middle _ _ _ _ _ T); auto.
    + now rewrite <- app_assoc.
    + unfold wf_entries in W. apply andb_prop in W as [W _].
      apply nodupb_NoDup in W. fold (keys members) in W.
      rewrite E, keys_app, keys_cons in W.
      apply NoDup_remove_2 in W. intros I. apply W. apply in_or_app. auto.
      right. apply same_key in T. now rewrite <- T.
  - destruct (download_and_extract_unnamed w status body members C L G S Z W Mz) as [msg R].
    + now rewrite A.
    + eauto.
Qed.

End Fetch.

(** * The order of strings and [sorted] *)

Section Sorting.

Lemma ascii_compare_refl c : Ascii.compare c c = Eq.
Proof. unfold Ascii.compare. apply N.compare_refl. Qed.

Lemma ascii_compare_trans c1 c2 c3 r :
  Ascii.compare c1 c2 = r -> Ascii.compare c2 c3 = r -> Ascii.compare c1 c3 = r.
Proof.
  unfold Ascii.compare. intros H1 H2. destruct r.
  - apply N.compare_eq_iff in H1, H2. apply N.compare_eq_iff. congruence.
  - apply N.compare_lt_iff in H1, H2. apply N.compare_lt_iff.
    eapply N.lt_trans; eassumption.
  - apply N.compare_gt_iff in H1, H2. apply N.compare_gt_iff.
    eapply N.lt_trans; eassumption.
Qed.

Lemma ascii_compare_eq_l c1 c2 c3 :
  Ascii.compare c1 c2 = Eq -> Ascii.compare c1 c3 = Ascii.compare c2 c3.
Proof.
  unfold Ascii.compare. intros H. apply N.compare_eq_iff in H. now rewrite H.
Qed.

Lemma ascii_compare_eq_r c1 c2 c3 :
  Ascii.compare c2 c3 = Eq -> Ascii.compare c1 c3 = Ascii.compare c1 c2.
Proof.
  unfold Ascii.compare. intros H. apply N.compare_eq_iff in H. now rewrite H.
Qed.

Lemma leb_refl s : String.leb s s = true.
Proof.
  unfold String.leb. induction s as [|c s IH]; simpl; auto.
  now rewrite ascii_compare_refl.
Qed.

Lemma leb_trans s1 s2 s3 :
  String.leb s1 s2 = true -> String.leb s2 s3 = true -> String.leb s1 s3 = true.
Proof.
  unfold String.leb. revert s2 s3.
  induction s1 as [|c1 s1 IH]; intros [|c2 s2] [|c3 s3]; simpl; auto; try discriminate.
  destruct (Ascii.compare c1 c2) eqn:E12; try discriminate.
  - rewrite (ascii_compare_eq_l _ _ c3 E12).
    destruct (Ascii.compare c2 c3); try discriminate; auto. apply IH.
  - destruct (Ascii.compare c2 c3) eqn:E23; try discriminate.
    + now rewrite (ascii_compare_eq_r c1 _ _ E23), E12.
    + now rewrite (ascii_compare_trans _ _ _ _ E12 E23).
Qed.

Variable le : string -> string -> bool.
Hypothesis le_total : forall a b, le a b = true \/ le b a = true.
Hypothesis le_trans : forall a b c, le a b = true -> le b c = true -> le a c = true.

Lemma insert_by_In x y l : In y (insert_by le x l) <-> y = x \/ In y l.
Proof.
  induction l as [|z l IH]; simpl.
  - intuition.
  - destruct (le x z); simpl; [intuition|]. rewrite IH. intuition.
Qed.

Lemma sort_by_In y l : In y (sort_by le l) <-> In y l.
Proof.
  induction l as [|x l IH]; simpl; [tauto|].
  rewrite insert_by_In, IH. intuition.
Qed.

Lemma insert_by_sorted x l :
  StronglySorted (fun a b => le a b = true) l ->
  StronglySorted (fun a b => le a b = true) (insert_by le x l).
Proof.
  induction 1 as [|z l S IH F]; simpl.
  - repeat constructor.
  - destruct (le x z) eqn:E.
    + constructor; [now constructor|]. constructor; auto.
      rewrite Forall_forall in F |- *. eauto.
    + constructor; auto. rewrite Forall_forall in F |- *.
      intros y I. apply insert_by_In in I as [->|I]; auto.
      destruct (le_total x z); congruence.
Qed.

Lemma sort_by_sorted l : StronglySorted (fun a b => le a b = true) (sort_by le l).
Proof.
  induction l as [|x l IH]; simpl; [constructor|]. now apply insert_by_sorted.
Qed.

Lemma sort_by_nil l : sort_by le l = [] -> l = [].
Proof.
  destruct l as [|x l]; auto. simpl. intros H.
  assert (I : In x (insert_by le x (sort_by le l))) by (apply insert_by_In; auto).
  rewrite H in I. destruct I.
Qed.

End Sorting.

(** * The installed toolkits and the defaults of the selection boxes *)

Section Defaults.

Lemma geb_total a b : String.leb b a = true \/ String.leb a b = true.
Proof. apply String.leb_total. Qed.

Lemma geb_trans a b c :
  String.leb b a = true -> String.leb c b = true -> String.leb c a = true.
Proof. intros H1 H2. exact (leb_trans _ _ _ H2 H1). Qed.

Lemma version_items_In v items :
  In v (version_items items) <-> In (String "v" v) items.
Proof.
  induction items as [|[|c tail] items IH]; simpl.
  - tauto.
  - rewrite IH. intuition discriminate.
  - destruct (Ascii.eqb_spec c "v") as [->|N]; simpl; rewrite IH.
    + intuition congruence.
    + split; [auto|]. intros [E|I]; auto. congruence.
Qed.

Lemma cuda_versions_of_dir n :
  match lookup cuda_base n with
  | None => get_available_cuda_versions n = Ok []
  | Some (File _) => exists msg, get_available_cuda_versions n = Raise (OSError msg)
  | Some (Dir es) =>
      exists vs,
        get_available_cuda_versions n = Ok vs /\
        (forall v, In v vs <-> In ("v" +++ v) (names es)) /\
        StronglySorted (fun a b => String.leb b a = true) vs
  end.
Proof.
  unfold get_available_cuda_versions, exists_, listdir.
  destruct (lookup cuda_base n) as [[d|es]|]; eauto.
  eexists. split; [reflexivity|]. split.
  - intros v. unfold sorted_reverse. rewrite sort_by_In. apply version_items_In.
  - apply sort_by_sorted; [intros a b; apply geb_total | intros a b c; apply geb_trans].
Qed.

(** [get_available_cuda_versions]: nothing when the toolkit directory is
    missing, an [OSError] when a file stands in its place, and otherwise the
    versions [x] of exactly the entries [vx] of the directory, greatest
    string first. *)
Theorem get_available_cuda_versions_lists_installed n :
  match lookup cuda_base n with
  | None => get_available_cuda_versions n = Ok []
  | Some (File _) => exists msg, get_available_cuda_versions n = Raise (OSError msg)
  | Some (Dir es) =>
      exists vs,
        get_available_cuda_versions n = Ok vs /\
        (forall v, In v vs <-> In ("v" +++ v) (names es)) /\
        StronglySorted (fun a b => String.leb b a = true) vs
  end.
Proof. exact (cuda_versions_of_dir n). Qed.

(** When toolkit versions are listed and the toolkit box holds the first
    of them, as it does when [create_gui] has set it up, the path that
    [check_prerequisites] tests for the toolkit exists. *)
Theorem default_cuda_is_installed e n vs :
  get_available_cuda_versions n = Ok vs ->
  vs <> [] ->
  cuda_var e = default_cuda vs ->
  exists_ (cuda_path e) n = true.
Proof.
  intros G NE D.
  pose proof (cuda_versions_of_dir n) as S.
  destruct (lookup cuda_base n) as [[d|es]|] eqn:L.
  - destruct S as [msg S]. congruence.
  - destruct S as (vs' & S & I & _). rewrite G in S. injection S as <-.
    destruct vs as [|v vs]; [congruence|]. simpl in D.
    assert (J : In ("v" +++ cuda_var e) (names es)).
    { apply I. rewrite D. now left. }
    unfold exists_. change (cuda_path e) with (cuda_base ++ ["v" +++ cuda_var e]).
    rewrite lookup_snoc, L.
    destruct (assoc ("v" +++ cuda_var e) es) eqn:A; auto.
    apply assoc_none_keys in A. apply in_keys in J. contradiction.
  - rewrite G in S. injection S as ->. congruence.
Qed.

Lemma sorted_last_greatest (R : string -> string -> Prop) l d :
  StronglySorted R l -> forall x, In x l -> x = last l d \/ R x (last l d).
Proof.
  induction 1 as [|a l S IH F]; intros x I; [destruct I|].
  destruct l as [|b l].
  - destruct I as [->|[]]. now left.
  - change (last (a :: b :: l) d) with (last (b :: l) d).
    destruct I as [->|I]; [|auto].
    right. rewrite Forall_forall in F. apply F.
    destruct (exists_last (l := b :: l)) as (l' & z & E); [discriminate|].
    rewrite E, last_last. apply in_or_app. right. now left.
Qed.

(** The version box starts on the key of the configuration that is
    greatest as a string, and on the empty string when there is none. *)
Theorem default_version_greatest keys :
  match keys with
  | [] => default_version keys = EmptyString
  | _ :: _ =>
      In (default_version keys) keys /\
      Forall (fun k => String.leb k (default_version keys) = true) keys
  end.
Proof.
  destruct keys as [|k keys]; [reflexivity|].
  unfold default_version, available_versions, sorted.
  set (l := sort_by String.leb (k :: keys)).
  assert (NE : l <> []).
  { intros E. apply sort_by_nil in E. discriminate. }
  assert (S : StronglySorted (fun a b => String.leb a b = true) l).
  { apply sort_by_sorted; [apply String.leb_total | apply leb_trans]. }
  split.
  - apply (sort_by_In String.leb).
    destruct (exists_last NE) as (l' & z & E). fold l. rewrite E, last_last.
    apply in_or_app. right. now left.
  - rewrite Forall_forall. intros x I.
    apply (sort_by_In String.leb) in I. fold l in I.
    destruct (sorted_last_greatest _ l EmptyString S x I) as [->|H]; auto.
    apply leb_refl.
Qed.

End Defaults.

(** * More on the build process *)

Section BuildMore.

Variable e : Env.









End BuildMore.

(** * What a reset keeps *)

Section ResetKeeps.

Variable e : Env.

Local Abbreviation raw := (install_dir_var e).
Local Abbreviation ws := (install_dir e).
Local Abbreviation ar := (archive_dir e).

Lemma rmtree_at_keeps_outside q x :
  forall p d n n',
    rmtree_at q x n = Ok n' -> under (q ++ [x]) p = false ->
    lookup p n = Some (File d) -> lookup p n' = Some (File d).
Proof.
  unfold rmtree_at.
  induction q as [|z q IH]; intros p d [d0|es] n'; simpl; try discriminate.
  - destruct (assoc x es) as [[d1|es1]|] eqn:A; try discriminate.
    intros [= <-]. destruct p as [|y p]; [discriminate|]. simpl.
    rewrite andb_true_r. intros N.
    now rewrite assoc_remove_neq.
  - destruct (assoc z es) as [c|] eqn:A; [|discriminate].
    match goal with |- context [alter_dir q ?f c] =>
      destruct (alter_dir q f c) as [c'|] eqn:R; [|discriminate] end.
    intros [= <-]. destruct p as [|y p]; [discriminate|]. simpl.
    destruct (same z y) eqn:S; simpl.
    + rewrite <- (assoc_key _ _ es S), A.
      rewrite <- (assoc_key _ _ _ S), assoc_set_eq. intros U L. exact (IH _ _ _ _ R U L).
    + now rewrite assoc_set_neq.
Qed.

Lemma rmtree_keeps_outside p0 p d n n' :
  rmtree p0 n = (Ok tt, n') -> under p0 p = false ->
  lookup p n = Some (File d) -> lookup p n' = Some (File d).
Proof.
  intros R U. apply rmtree_inv in R. destruct R as [NE R].
  apply (rmtree_at_keeps_outside _ _ _ _ _ _ R).
  unfold dirname, basename. now rewrite <- app_removelast_last.
Qed.

Lemma manage_build_directory_keeps_outside w w1 p d :
  manage_build_directory e w = (Ok true, w1) ->
  under ws p = false ->
  lookup p (fs w) = Some (File d) ->
  lookup p (fs w1) = Some (File d).
Proof.
  intros H U L. destruct (manage_build_directory_inv _ _ _ H) as (n1 & n2 & E1 & E2 & E3).
  destruct (makedirs_kept _ _ _ _ _ E3 p) as [K3 _]. apply K3.
  destruct (makedirs_kept _ _ _ _ _ E1 p) as [K1 _]. specialize (K1 _ L).
  destruct (os_path_exists raw n1).
  - exact (rmtree_keeps_outside _ _ _ _ _ E2 U K1).
  - now subst n2.
Qed.


Lemma under_app c q p : under (c ++ q) (c ++ p) = under q p.
Proof.
  induction c as [|x c IH]; simpl; auto. now rewrite same_refl.
Qed.

(** The wheels archived by earlier runs outlive the reset, where the path
    of the workspace is made of names only and the last of them is not
    one the volume knows as [deepspeed_wheels]: the archive directory is
    then the directory [deepspeed_wheels] next to the workspace. *)
Theorem reset_keeps_archived_wheels w w1 r d :
  ordinary (install_dir_var e) = true ->
  same (basename (install_dir_var e)) "deepspeed_wheels" = false ->
  manage_build_directory e w = (Ok true, w1) ->
  archive_dir e = removelast (install_dir_var e) ++ ["deepspeed_wheels"] /\
  (lookup (removelast (install_dir_var e) ++ "deepspeed_wheels" :: r) (fs w)
     = Some (File d) ->
   lookup (removelast (install_dir_var e) ++ "deepspeed_wheels" :: r) (fs w1)
     = Some (File d)).
Proof.
  intros O N H.
  destruct (reset_post _ _ _ (ordinary_climbs _ O) H) as (NE & _).
  assert (NR : raw <> []).
  { intros Z. unfold install_dir in NE. now rewrite Z in NE. }
  destruct (sibling_archive _ O NR) as (W & A & _). split; [exact A|].
  apply (manage_build_directory_keeps_outside _ _ _ _ H).
  rewrite W. rewrite (app_removelast_last EmptyString NR) at 1.
  change ("deepspeed_wheels" :: r) with (["deepspeed_wheels"] ++ r).
  rewrite under_app. cbn [app under]. unfold basename in N. now rewrite N.
Qed.

(** With a file where the workspace directory should be the reset fails,
    and the file stays. *)
Lemma manage_build_directory_on_file w d :
  lookup ws (fs w) = Some (File d) ->
  exists w',
    manage_build_directory e w = (Ok false, w') /\
    lookup ws (fs w') = Some (File d) /\
    boxes w' = boxes w /\ status_var w' = status_var w.
Proof.
  intros L. unfold manage_build_directory. mstep.
  destruct (makedirs (archive_dir_text e) true (fs w)) as [[[]|ex] n1] eqn:E1; mstep.
  - destruct (makedirs_kept _ _ _ _ _ E1 ws) as [K1 _]. specialize (K1 _ L).
    unfold os_path_exists. fold ws. rewrite K1.
    destruct (nonempty (basename raw)); mstep.
    + destruct (rmtree_file _ _ _ K1) as [ex ->]. mstep.
      eexists. split; [reflexivity|]. auto.
    + destruct (makedirs_taken raw n1) as (ex & n2 & M).
      { unfold exists_. fold ws. now rewrite K1. }
      rewrite M. mstep. eexists. split; [reflexivity|]. cbn [fs boxes status_var].
      destruct (makedirs_kept _ _ _ _ _ M ws) as [K2 _]. auto.
  - eexists. split; [reflexivity|]. cbn [fs boxes status_var].
    destruct (makedirs_kept _ _ _ _ _ E1 ws) as [K1 _]. auto.
Qed.

(** [build_only] on a workspace path that is a file: the run fails at the
    reset, the user is told so, and the file is not touched. *)
Theorem build_only_on_file_workspace w d :
  nonempty (version e) = true ->
  askyesno_answer e "Confirm Build Environment" = true ->
  lookup ws (fs w) = Some (File d) ->
  exists w',
    build_only e w = (Ok tt, w') /\
    status_var w' = "Build failed!" /\
    lookup ws (fs w') = Some (File d) /\
    In (ShowError "Error" "Build failed: Failed to prepare build directory") (boxes w').
Proof.
  intros N Y L. unfold build_only. rewrite N. cbn [negb]. mstep. rewrite Y. cbn [negb]. mstep.
  match goal with |- context [manage_build_directory e ?w0] =>
    destruct (manage_build_directory_on_file w0 d L) as (w1 & -> & L1 & B1 & S1) end.
  mstep. eexists. split; [reflexivity|]. cbn [fs status_var boxes].
  repeat split; auto. apply in_or_app. right. now left.
Qed.

End ResetKeeps.

(** * Archiving again *)

Section ArchiveAgain.

Variable e : Env.

Local Abbreviation raw := (install_dir_var e).

Lemma lookup_chain_diverge p q : diverge p q = true -> lookup p (chain q) = None.
Proof.
  revert p. induction q as [|b q IH]; intros [|a p]; simpl; try discriminate.
  destruct (same a b); auto.
Qed.

(** An [alter_dir] is not seen from a path that parts from its own. *)
Lemma alter_dir_diverge q f :
  forall p n n', diverge p q = true -> alter_dir q f n = Ok n' -> lookup p n' = lookup p n.
Proof.
  induction q as [|b q IH]; intros [|a p] [d|es] n'; simpl; try discriminate.
  destruct (assoc b es) as [c|] eqn:A; [|discriminate].
  destruct (alter_dir q f c) as [c'|] eqn:R; [|discriminate].
  intros D [= <-]. simpl.
  destruct (same a b) eqn:S.
  - rewrite (assoc_key _ _ es S), A.
    rewrite (assoc_key _ _ _ S), assoc_set_eq. eauto.
  - rewrite assoc_set_neq; auto. now rewrite same_sym.
Qed.

Lemma mkpath_diverge q eo :
  forall p n n', diverge p q = true -> mkpath q eo n = Ok n' -> lookup p n' = lookup p n.
Proof.
  induction q as [|b q IH]; intros [|a p] [d|es] n'; simpl; try discriminate.
  destruct (assoc b es) as [c|] eqn:A.
  - destruct (mkpath q eo c) as [c'|] eqn:R; [|discriminate].
    intros D [= <-]. simpl.
    destruct (same a b) eqn:S.
    + rewrite (assoc_key _ _ es S), A.
      rewrite (assoc_key _ _ _ S), assoc_set_eq. eauto.
    + rewrite assoc_set_neq; auto. now rewrite same_sym.
  - intros D [= <-]. simpl.
    destruct (same a b) eqn:S.
    + rewrite (assoc_key _ _ es S), A.
      rewrite (assoc_key _ _ _ S), assoc_snoc_eq by assumption.
      now apply lookup_chain_diverge.
    + rewrite assoc_snoc_neq; auto. now rewrite same_sym.
Qed.

Lemma diverge_app c p q : diverge (c ++ p) (c ++ q) = diverge p q.
Proof.
  induction c as [|x c IH]; simpl; auto. now rewrite same_refl.
Qed.

Lemma diverge_longer p q r : diverge p q = true -> diverge (p ++ r) q = true.
Proof.
  revert q. induction p as [|a p IH]; intros [|b q]; simpl; try discriminate.
  destruct (same a b); auto.
Qed.

Lemma archive_path_eq :
  archive_path e = resolve (dirname raw) ++ ["deepspeed_wheels"; archive_subdir e].
Proof.
  unfold archive_path, archive_path_text. now rewrite resolve_app_ordinary.
Qed.

Lemma archive_path_text_plain :
  climbs raw = false -> climbs (archive_path_text e) = false.
Proof.
  intros C. pose proof (archive_dir_text_plain e C) as H.
  unfold archive_dir_text in H. unfold archive_path_text.
  rewrite climbs_app in *. apply orb_false_elim in H. destruct H as [-> _].
  reflexivity.
Qed.

Lemma dist_not_archive :
  same "dist" "deepspeed_wheels" = false /\ same "dist" (archive_subdir e) = false.
Proof.
  split.
  - name_keys. reflexivity.
  - unfold archive_subdir. name_keys. reflexivity.
Qed.

(** On a path that does not climb, [dist] and the archive directory are
    never on one branch. *)
Lemma wheel_dir_diverges :
  climbs raw = false -> diverge (wheel_dir e) (archive_path e) = true.
Proof.
  intros C. rewrite archive_path_eq. unfold wheel_dir.
  destruct dist_not_archive as [D1 D2].
  destruct (install_dir e) as [|x l] eqn:E.
  - unfold install_dir in E.
    assert (P : resolve (dirname raw) = []).
    { unfold dirname. destruct raw as [|c p]; auto.
      destruct (@exists_last _ (c :: p)) as (q & y & Q); [discriminate|].
      rewrite Q in *. rewrite removelast_last.
      rewrite climbs_app in C. apply orb_false_elim in C. destruct C as [_ C].
      simpl in C. rewrite orb_false_r in C.
      destruct (not_climbing _ C) as [O|N].
      - now rewrite resolve_passed in E.
      - rewrite resolve_name in E by assumption.
        symmetry in E. now apply app_cons_not_nil in E. }
    rewrite P. cbn [app diverge]. now rewrite D1.
  - assert (NE : install_dir e <> []) by (rewrite E; discriminate).
    rewrite <- E.
    destruct (workspace_place e C NE) as [W|(y & N & B & W)]; rewrite W.
    + rewrite diverge_app. cbn [diverge]. now rewrite D1.
    + rewrite <- app_assoc, diverge_app. cbn [app diverge].
      destruct (same y "deepspeed_wheels"); auto. now rewrite D2.
Qed.

(** What a successful [archive_wheel] did, on a path that does not climb. *)
Lemma archive_wheel_inv w w1 :
  climbs raw = false ->
  archive_wheel e w = (Ok true, w1) ->
  exists first rest n1 d,
    glob_whl (wheel_dir e) (fs w) = first :: rest /\
    mkpath (archive_path e) true (fs w) = Ok n1 /\
    lookup (wheel_dir e ++ [first]) n1 = Some (File d) /\
    write_at (archive_path e) first d n1 = Ok (fs w1).
Proof.
  intros C. unfold archive_wheel. mstep.
  destruct (glob_whl (wheel_dir e) (fs w)) as [|first rest] eqn:G; mstep; [discriminate|].
  pose proof (makedirs_plain _ true (fs w) (archive_path_text_plain C)) as M.
  fold (archive_path e) in M.
  destruct (mkpath (archive_path e) true (fs w)) as [n1|ex0] eqn:Mk.
  - rewrite M. mstep.
    destruct (copy2 (wheel_dir e ++ [first]) (archive_path e) n1) as [n2|ex] eqn:Cp;
      mstep; [|discriminate].
    intros [= <-]. cbn [fs]. unfold copy2 in Cp.
    destruct (lookup (wheel_dir e ++ [first]) n1) as [[d|es]|] eqn:S; try discriminate.
    pose proof (mkpath_isdir _ _ _ _ Mk) as D. unfold isdir in D.
    destruct (lookup (archive_path e) n1) as [[d0|es]|]; try discriminate.
    unfold basename in Cp. rewrite last_last in Cp.
    exists first, rest, n1, d. auto.
  - destruct M as [ex ->]. mstep. discriminate.
Qed.

Lemma glob_whl_same d n n' : lookup d n' = lookup d n -> glob_whl d n' = glob_whl d n.
Proof. unfold glob_whl. now intros ->. Qed.

(** [archive_wheel] copies: on a workspace path that does not climb,
    [dist] is after it what it was before it.  And it can be repeated: a
    second call right after a successful one succeeds too and leaves the
    file system as the first call left it. *)
Theorem archive_wheel_again w w1 :
  climbs (install_dir_var e) = false ->
  archive_wheel e w = (Ok true, w1) ->
  lookup (wheel_dir e) (fs w1) = lookup (wheel_dir e) (fs w) /\
  exists w2, archive_wheel e w1 = (Ok true, w2) /\ fs w2 = fs w1.
Proof.
  intros C H.
  destruct (archive_wheel_inv _ _ C H) as (first & rest & n1 & d & G & Mk & S & Wr).
  pose proof (wheel_dir_diverges C) as Dv.
  assert (K1 : lookup (wheel_dir e) n1 = lookup (wheel_dir e) (fs w)).
  { exact (mkpath_diverge _ _ _ _ _ Dv Mk). }
  assert (K2 : lookup (wheel_dir e) (fs w1) = lookup (wheel_dir e) n1).
  { exact (alter_dir_diverge _ _ _ _ _ Dv Wr). }
  assert (S2 : lookup (wheel_dir e ++ [first]) (fs w1) = Some (File d)).
  { rewrite <- S. exact (alter_dir_diverge _ _ _ _ _ (diverge_longer _ _ [first] Dv) Wr). }
  split; [congruence|].
  destruct (alter_dir_ok _ _ _ _ Wr) as (es & es' & L & F & L').
  assert (A : assoc first es' = Some (File d)).
  { destruct (assoc first es) as [[d0|es0]|]; try discriminate;
      injection F as <-; apply assoc_set_eq. }
  unfold archive_wheel. mstep.
  rewrite (glob_whl_same _ _ _ (eq_trans K2 K1)), G. mstep.
  pose proof (makedirs_plain _ true (fs w1) (archive_path_text_plain C)) as M.
  fold (archive_path e) in M.
  rewrite mkpath_existing in M by (unfold isdir; now rewrite L').
  rewrite M. mstep.
  unfold copy2. rewrite S2, L'. unfold basename. rewrite last_last.
  unfold write_at. rewrite (alter_dir_at _ _ _ _ L'). rewrite A.
  rewrite (set_entry_same _ _ _ A), (replace_at_same _ _ _ L'). mstep.
  eexists. split; reflexivity.
Qed.

End ArchiveAgain.

(** * Downloads that do not arrive *)

Section Refused.

Variable e : Env.

Local Abbreviation raw := (install_dir_var e).
Local Abbreviation ws := (install_dir e).
Local Abbreviation zip := "deepspeed.zip".

(** When the request fails, or the server answers with a status from 400
    to 599, the step raises before it writes anything: the file system is
    untouched and the log has the two lines of the download. *)
Theorem download_refused_writes_nothing w :
  match requests_get e (url e) with
  | Raise ex =>
      download_and_extract e w =
      (Raise ex, with_log ["Downloading DeepSpeed " +++ version e +++ "...";
                           "Download URL: " +++ url e] w)
  | Ok (status, body) =>
      if andb (Z.leb 400 status) (Z.ltb status 600) then
        download_and_extract e w =
        (Raise (HTTPError status),
         with_log ["Downloading DeepSpeed " +++ version e +++ "...";
                   "Download URL: " +++ url e] w)
      else True
  end.
Proof.
  unfold download_and_extract, with_log. mstep.
  destruct (requests_get e (url e)) as [[status body]|ex]; mstep.
  - unfold raise_for_status. cbn [fst].
    destruct (andb (Z.leb 400 status) (Z.ltb status 600)); mstep; auto.
    now rewrite <- app_assoc.
  - now rewrite <- app_assoc.
Qed.


End Refused.

(** * The user says no *)

Section Declined.

Variable e : Env.

(** With a version selected and the confirmation declined, neither entry
    point does anything but write its five lines and ask: the file system,
    the status line and the progress bar are what they were. *)
Theorem declined_run_changes_nothing w :
  nonempty (version e) = true ->
  askyesno_answer e "Confirm Build Environment" = false ->
  (exists w',
     build_only e w = (Ok tt, w') /\
     fs w' = fs w /\ status_var w' = status_var w /\ progress_var w' = progress_var w /\
     boxes w' = boxes w ++ [AskYesNo "Confirm Build Environment" (confirm_text e)]) /\
  (exists w',
     start_installation e w = (Ok tt, w') /\
     fs w' = fs w /\ status_var w' = status_var w /\ progress_var w' = progress_var w /\
     boxes w' = boxes w ++ [AskYesNo "Confirm Build Environment" (confirm_text e)]).
Proof.
  intros N D. unfold build_only, start_installation. rewrite N. cbn [negb]. mstep.
  rewrite D. cbn [negb]. mstep.
  split; eexists; (split; [reflexivity|]); auto.
Qed.

End Declined.

(** * Installing a built wheel *)

Section Install.

Variable e : Env.

(** With no wheel in [dist], [install_wheel] tells the user to build first
    and changes nothing else. *)
Theorem install_wheel_without_wheel w :
  glob_whl (wheel_dir e) (fs w) = [] ->
  exists w',
    install_wheel e w = (Ok tt, w') /\
    fs w' = fs w /\
    log_area w' = log_area w ++
      ["Looking for built wheel...";
       "Error during installation: No wheel file found. Please build DeepSpeed first."] /\
    boxes w' = boxes w ++
      [ShowError "Error"
         "Installation failed: No wheel file found. Please build DeepSpeed first."].
Proof.
  intros G. unfold install_wheel. mstep. rewrite G. mstep.
  eexists. split; [reflexivity|]. cbn [fs log_area boxes].
  repeat split. now rewrite <- app_assoc.
Qed.

(** The exit status of the uninstall does not count: when [pip uninstall]
    exits with an error, as it does where nothing is installed, and the
    install of the first wheel of [dist] succeeds, the installation
    succeeds. *)
Theorem install_wheel_ignores_uninstall_status w wheel_file rest code :
  glob_whl (wheel_dir e) (fs w) = wheel_file :: rest ->
  check_call e (uninstall_args e) = Raise (CalledProcessError code) ->
  check_call e (install_args e wheel_file) = Ok tt ->
  exists w',
    install_wheel e w = (Ok tt, w') /\
    fs w' = fs w /\
    In "✓ Installation completed successfully!" (log_area w') /\
    boxes w' = boxes w ++ [ShowInfo "Success" "DeepSpeed has been successfully installed!"].
Proof.
  intros G U I. unfold install_wheel. mstep. rewrite G. mstep.
  unfold subprocess_run. rewrite U. mstep. rewrite I. mstep.
  eexists. split; [reflexivity|]. cbn [fs log_area boxes].
  repeat split. apply in_or_app. right. now left.
Qed.

End Install.

(** * A run that stops after the reset *)

Section NoRollback.

Variable e : Env.

Local Abbreviation raw := (install_dir_var e).
Local Abbreviation ws := (install_dir e).

(** The reset looks at the file system only. *)
Lemma manage_build_directory_fs w w0 b w1 :
  fs w0 = fs w ->
  manage_build_directory e w = (Ok b, w1) ->
  exists w1',
    manage_build_directory e w0 = (Ok b, w1') /\ fs w1' = fs w1 /\ boxes w1' = boxes w0.
Proof.
  intros E. unfold manage_build_directory. mstep. rewrite E.
  destruct (makedirs (archive_dir_text e) true (fs w)) as [[[]|ex] n1]; mstep.
  - destruct (os_path_exists raw n1); mstep.
    + destruct (rmtree ws n1) as [[[]|ex] n2]; mstep.
      * destruct (makedirs raw false n2) as [[[]|ex] n3]; mstep;
          intros [= <- <-]; eexists; (split; [reflexivity|]); auto.
      * intros [= <- <-]. eexists. split; [reflexivity|]. auto.
    + destruct (makedirs raw false n1) as [[[]|ex] n3]; mstep;
        intros [= <- <-]; eexists; (split; [reflexivity|]); auto.
  - intros [= <- <-]. eexists. split; [reflexivity|]. auto.
Qed.

(** Nothing is rolled back: when the reset succeeds, on a workspace path
    that does not climb, and the server then refuses the download,
    [build_only] reports the failure and leaves the workspace as the reset
    made it, an empty directory. *)
Theorem build_only_refused_download w w1 status body :
  climbs (install_dir_var e) = false ->
  nonempty (version e) = true ->
  askyesno_answer e "Confirm Build Environment" = true ->
  manage_build_directory e w = (Ok true, w1) ->
  requests_get e (url e) = Ok (status, body) ->
  andb (Z.leb 400 status) (Z.ltb status 600) = true ->
  exists w',
    build_only e w = (Ok tt, w') /\
    status_var w' = "Build failed!" /\
    lookup (install_dir e) (fs w') = Some (Dir []) /\
    In (ShowError "Error" ("Build failed: " +++ str (HTTPError status))) (boxes w').
Proof.
  intros C N Y H G S. destruct (reset_post _ _ _ C H) as (_ & L1 & _).
  unfold build_only. rewrite N. cbn [negb]. mstep. rewrite Y. cbn [negb]. mstep.
  match goal with |- context [manage_build_directory e ?w0] =>
    destruct (manage_build_directory_fs w w0 true w1 eq_refl H) as (w1' & -> & F & B) end.
  mstep. unfold download_and_extract. mstep. rewrite G. mstep.
  unfold raise_for_status. cbn [fst]. rewrite S. mstep.
  eexists. split; [reflexivity|]. cbn [fs status_var boxes].
  repeat split.
  - now rewrite F.
  - apply in_or_app. right. now left.
Qed.

End NoRollback.

End Facts.

(** * The sample worlds, on the volume of plain names *)

#[global] Existing Instance ascii_volume.

(** ** The workspace reset *)



(** A workspace path that climbs through a directory that is not there,
    [C:\a\b\..\.] on an empty drive: [os.makedirs] makes [a\b] before it
    finds that [a\b\..] is there, so the reset succeeds and the workspace
    [C:\a] is not empty. *)
Example reset_on_climbing_path :
  let e := with_install_dir ["a"; "b"; ".."; "."] sample_env in
  let w := {| fs := Dir []; log_area := []; status_var := EmptyString;
              progress_var := 0; boxes := [] |} in
  install_dir e = ["a"] /\
  fst (manage_build_directory e w) = Ok true /\
  lookup ["a"] (fs (snd (manage_build_directory e w))) = Some (Dir [("b", Dir [])]).
Proof. vm_compute. repeat split. Qed.


Lemma reset_keeps_archived_wheels_witness :
  lookup ["work"; "deepspeed_wheels"; "deepspeed_0.15.1_cuda12.1_py311";
          "deepspeed-0.15.1-win_amd64.whl"]
         (fs (snd (manage_build_directory sample_env archived_world)))
  = Some (File "earlier").
Proof.
  refine (proj2 (reset_keeps_archived_wheels (V := ascii_volume) sample_env archived_world
                   (snd (manage_build_directory sample_env archived_world))
                   ["deepspeed_0.15.1_cuda12.1_py311"; "deepspeed-0.15.1-win_amd64.whl"]
                   "earlier" _ _ _) _);
    reflexivity.
Defined.

(** Names that differ by a dot at the end are one name on a volume that
    takes no notice of it, and different names on one that does. *)
Example one_name_or_two :
  same (V := windows_volume) "deepspeed_wheels." "DeepSpeed_Wheels" = true /\
  same (V := ascii_volume) "deepspeed_wheels." "DeepSpeed_Wheels" = false /\
  same (V := ascii_volume) "deepspeed_wheels" "DeepSpeed_Wheels" = true.
Proof. repeat split. Qed.

Lemma build_only_on_file_workspace_witness :
  exists w',
    build_only sample_env file_workspace_world = (Ok tt, w') /\
    status_var w' = "Build failed!" /\
    lookup ["work"; "deepspeed"] (fs w') = Some (File "not a directory") /\
    In (ShowError "Error" "Build failed: Failed to prepare build directory") (boxes w').
Proof.
  apply (build_only_on_file_workspace sample_env file_workspace_world); reflexivity.
Defined.

(** ** Toolchain discovery *)

Example find_vs_installation_first_root :
  find_vs_installation sample_env two_toolchains_fs =
  Some ("VS2019 Community",
        ["Program Files (x86)"; "Microsoft Visual Studio"; "2019"; "Community"],
        ["Program Files (x86)"; "Microsoft Visual Studio"; "2019"; "Community";
         "VC"; "Auxiliary"; "Build"; "vcvars64.bat"]).
Proof. reflexivity. Qed.

Example find_vs_installation_registry :
  find_vs_installation (with_registry sample_registry sample_env) registry_only_fs =
  Some ("VS2022 BuildTools", ["Tools"; "VS"],
        ["Tools"; "VS"; "VC"; "Auxiliary"; "Build"; "vcvars64.bat"]).
Proof. reflexivity. Qed.

(** An [InstallDir] that is the root of the drive: the root is its own
    parent, and the script is looked for right under it. *)
Example find_vs_installation_at_root :
  find_vs_installation (with_registry root_registry sample_env) root_toolchain_fs =
  Some ("VS2019 BuildTools", [], ["VC"; "Auxiliary"; "Build"; "vcvars64.bat"]).
Proof. reflexivity. Qed.

Example find_vs_installation_nothing :
  find_vs_installation (with_registry sample_registry sample_env) (Dir []) = None.
Proof. reflexivity. Qed.

(** ** The build script and the build process *)

(** The first check box ticked, and a build that fails, so that the script
    is still there to be read: [DS_BUILD_AIO] is 0 in it. *)
Example ticked_option_is_not_written :
  let e := with_build_options aio_ticked (with_run_cmd failing_build sample_env) in
  match lookup (build_script e) (fs (snd (run_build_process e staged_world))) with
  | Some (File text) =>
      andb (contains ("set DS_BUILD_AIO=0" +++ nl) text)
           (negb (contains "set DS_BUILD_AIO=1" text))
  | _ => false
  end = true.
Proof. vm_compute. reflexivity. Qed.

(** The sample build failing: the script is still in the workspace. *)
Lemma failed_build_keeps_script_witness :
  exists w',
    run_build_process (with_run_cmd failing_build sample_env) staged_world = (Ok false, w') /\
    exists_ (build_script sample_env) (fs w') = true.
Proof.
  destruct (failed_build_keeps_script (V := ascii_volume) (with_run_cmd failing_build sample_env) staged_world
              ("VS2022 Community",
               ["Program Files"; "Microsoft Visual Studio"; "2022"; "Community"],
               vcvars_of ["Program Files"; "Microsoft Visual Studio"; "2022"; "Community"])
              _ _ 1%Z _ eq_refl eq_refl eq_refl) as (_ & w' & H & F).
  - discriminate.
  - exists w'. split; [exact H|]. rewrite F. reflexivity.
Defined.


(** A child whose output does not decode, and a command interpreter that
    does not start: the method returns [False], and the script stays. *)
Example build_that_breaks :
  (let done := run_build_process (with_run_cmd garbled_build sample_env) staged_world in
   fst done = Ok false /\
   exists_ (build_script sample_env) (fs (snd done)) = true /\
   In "Build process error: 'utf-8' codec can't decode byte 0x81" (log_area (snd done))) /\
  (let done := run_build_process (with_run_cmd no_cmd sample_env) staged_world in
   fst done = Ok false /\
   exists_ (build_script sample_env) (fs (snd done)) = true).
Proof. vm_compute. repeat split; auto. Qed.

(** ** Archiving the wheel *)

(** Two wheels in [dist]: the archiver returns [True], the first wheel of the
    listing is in the archive directory and the second is not. *)
Lemma archive_wheel_two_wheels :
  let w' := snd (archive_wheel sample_env two_wheels_world) in
  glob_whl (wheel_dir sample_env) (fs two_wheels_world) =
    ["deepspeed-0.15.2-win_amd64.whl"; "deepspeed-0.15.1-win_amd64.whl"] /\
  fst (archive_wheel sample_env two_wheels_world) = Ok true /\
  lookup (archive_path sample_env ++ ["deepspeed-0.15.2-win_amd64.whl"]) (fs w')
    = Some (File "first") /\
  lookup (archive_path sample_env ++ ["deepspeed-0.15.1-win_amd64.whl"]) (fs w') = None /\
  log_area w' = ["Wheel file archived to: C:\work\deepspeed_wheels\deepspeed_0.15.2_cuda12.1_py311"].
Proof. vm_compute. repeat split. Qed.

Lemma archive_wheel_takes_first_witness :
  exists w',
    archive_wheel sample_env two_wheels_world = (Ok true, w') /\
    lookup (archive_path sample_env ++ ["deepspeed-0.15.2-win_amd64.whl"]) (fs w')
      = Some (File "first").
Proof.
  apply (archive_wheel_takes_first sample_env two_wheels_world
           "deepspeed-0.15.2-win_amd64.whl" ["deepspeed-0.15.1-win_amd64.whl"] "first"
           (snd (makedirs (archive_path_text sample_env) true (fs two_wheels_world))));
    reflexivity.
Defined.

Lemma archive_wheel_again_witness :
  let w1 := snd (archive_wheel sample_env two_wheels_world) in
  lookup (wheel_dir sample_env) (fs w1) = lookup (wheel_dir sample_env) (fs two_wheels_world) /\
  exists w2, archive_wheel sample_env w1 = (Ok true, w2) /\ fs w2 = fs w1.
Proof.
  apply (archive_wheel_again sample_env two_wheels_world); reflexivity.
Defined.

(** A workspace path that climbs out of [dist], [C:\work\deepspeed\dist\..]:
    the archive directory is made inside [dist], which is not after the
    call what it was before. *)
Example archive_wheel_inside_dist :
  let w1 := snd (archive_wheel climbing_env two_wheels_world) in
  wheel_dir climbing_env = ["work"; "deepspeed"; "dist"] /\
  archive_path climbing_env =
    ["work"; "deepspeed"; "dist"; "deepspeed_wheels"; "deepspeed_0.15.2_cuda12.1_py311"] /\
  fst (archive_wheel climbing_env two_wheels_world) = Ok true /\
  isdir ["work"; "deepspeed"; "dist"; "deepspeed_wheels"] (fs two_wheels_world) = false /\
  isdir ["work"; "deepspeed"; "dist"; "deepspeed_wheels"] (fs w1) = true.
Proof. vm_compute. repeat split. Qed.

(** ** An empty version *)

Lemma empty_version_starts_nothing_witness :
  build_only (with_version EmptyString sample_env) sample_world =
    (Ok tt, with_box (ShowError "Error" "Please select a DeepSpeed version") sample_world) /\
  start_installation (with_version EmptyString sample_env) sample_world =
    (Ok tt, with_box (ShowError "Error" "Please select a DeepSpeed version") sample_world).
Proof.
  apply (empty_version_starts_nothing (with_version EmptyString sample_env) sample_world).
  reflexivity.
Defined.

(** ** A build that leaves no wheel *)

(** C3 (the code departs from it). The child process exits with 0 and
    [dist] holds no wheel.  [build_only] logs a warning, sets the status to
    complete and tells the user that the build succeeded;
    [start_installation], on the same run, fails with the missing wheel. *)
Theorem build_only_succeeds_without_wheel :
  let done := build_only silent_env sample_world in
  let w' := snd done in
  fst done = Ok tt /\
  glob_whl (wheel_dir silent_env) (fs w') = [] /\
  status_var w' = "Build complete!" /\
  progress_var w' = 100%Z /\
  In "⚠ Warning: Could not archive wheel file" (log_area w') /\
  In "✓ Build completed successfully!" (log_area w') /\
  In (ShowInfo "Success" "DeepSpeed has been successfully built!") (boxes w') /\
  (forall title msg, ~ In (ShowError title msg) (boxes w')) /\
  let w'' := snd (start_installation silent_env sample_world) in
  status_var w'' = "Installation failed!" /\
  In "Error during installation: No wheel file found after build" (log_area w'').
Proof.
  vm_compute. repeat split; try tauto.
  intros title msg H. repeat (destruct H as [H|H]; [discriminate|]). exact H.
Qed.

(** ** Download and extraction *)

(** The sample archive on the fresh workspace. *)
Lemma fetch_flattens_archive_witness :
  exists w',
    download_and_extract sample_env fresh_world = (Ok tt, w') /\
    lookup (install_dir sample_env) (fs w') =
      Some (Dir [("setup.py", File "setup");
                 ("deepspeed", Dir [("__init__.py", File "init")])]) /\
    exists_ (zip_path sample_env) (fs w') = false /\
    exists_ (extracted_dir sample_env) (fs w') = false.
Proof.
  apply (fetch_flattens_archive sample_env fresh_world 200%Z "PK" "DeepSpeed-0.15.2");
    reflexivity.
Defined.

(** An archive whose directory is spelt in small letters is flattened all
    the same: the volume knows it under the name the program asks for. *)
Example fetch_small_letters :
  let done := download_and_extract (with_zip_members (fun _ => Members small_letters_members)
                                      sample_env) fresh_world in
  fst done = Ok tt /\
  lookup (install_dir sample_env) (fs (snd done)) = Some (Dir [("setup.py", File "setup")]).
Proof. vm_compute. auto. Qed.

(** Two archives with exactly one top-level entry.  With the entry named
    otherwise the step raises, and the download and the unflattened
    directory are left in the workspace.  With an item of the entry that
    the volume knows as [deepspeed.zip] the step completes and that item
    is gone. *)
Lemma fetch_one_entry_not_flattened :
  (let done := download_and_extract (with_zip_members (fun _ => Members misnamed_members)
                                       sample_env) fresh_world in
   fst done = Raise (OSError "no such file or directory") /\
   lookup (install_dir sample_env) (fs (snd done)) =
     Some (Dir [("deepspeed.zip", File "PK");
                ("DeepSpeed-main", Dir [("setup.py", File "setup")])])) /\
  (let done := download_and_extract (with_zip_members (fun _ => Members clashing_members)
                                       sample_env) fresh_world in
   fst done = Ok tt /\
   lookup (install_dir sample_env) (fs (snd done)) =
     Some (Dir [("setup.py", File "setup")])).
Proof. vm_compute. auto. Qed.

(** A second top-level directory in front of the named one. *)
Lemma extract_selects_named_directory_witness :
  exists w',
    download_and_extract (with_zip_members (fun _ => Members two_dirs_members) sample_env)
      fresh_world = (Ok tt, w') /\
    lookup (install_dir sample_env) (fs w') =
      Some (Dir [("docs", Dir [("readme.md", File "readme")]);
                 ("setup.py", File "setup")]).
Proof.
  exact (extract_selects_named_directory (V := ascii_volume)
           (with_zip_members (fun _ => Members two_dirs_members) sample_env) fresh_world
           200%Z "PK" two_dirs_members
           eq_refl eq_refl eq_refl eq_refl eq_refl eq_refl eq_refl eq_refl).
Defined.

(** Archives whose top level does not hold exactly one directory.  With two
    directories the step takes the named one, which is not the first of the
    listing, and leaves the first as it is.  With none the step raises, and
    [build_only] reports the failure. *)
Lemma extract_not_by_index_zero :
  (let e := with_zip_members (fun _ => Members two_dirs_members) sample_env in
   let done := download_and_extract e fresh_world in
   nth 0 (names two_dirs_members) EmptyString = "docs" /\
   fst done = Ok tt /\
   lookup (install_dir e ++ ["setup.py"]) (fs (snd done)) = Some (File "setup") /\
   lookup (install_dir e ++ ["readme.md"]) (fs (snd done)) = None /\
   lookup (install_dir e ++ ["docs"; "readme.md"]) (fs (snd done)) = Some (File "readme")) /\
  (let e := with_zip_members (fun _ => Members no_dir_members) sample_env in
   fst (download_and_extract e fresh_world) = Raise (OSError "no such file or directory") /\
   let w' := snd (build_only e sample_world) in
   status_var w' = "Build failed!" /\
   In (ShowError "Error" "Build failed: no such file or directory") (boxes w')).
Proof. vm_compute. repeat split; auto. Qed.


(** A damaged member after the first: the first member stays unpacked. *)
Example damaged_download_stays :
  let done := download_and_extract damaged_env fresh_world in
  fst done = Raise (BadZipFile "Bad CRC-32") /\
  lookup (install_dir damaged_env) (fs (snd done)) =
    Some (Dir [("deepspeed.zip", File "PK"); ("README.md", File "readme")]).
Proof. vm_compute. auto. Qed.

Example download_not_found :
  fst (download_and_extract not_found_env fresh_world) = Raise (HTTPError 404) /\
  fs (snd (download_and_extract not_found_env fresh_world)) = fs fresh_world.
Proof. split; reflexivity. Qed.

Lemma build_only_refused_download_witness :
  exists w',
    build_only not_found_env sample_world = (Ok tt, w') /\
    status_var w' = "Build failed!" /\
    lookup (install_dir not_found_env) (fs w') = Some (Dir []) /\
    In (ShowError "Error" ("Build failed: " +++ str (HTTPError 404))) (boxes w').
Proof.
  apply (build_only_refused_download not_found_env sample_world
           (snd (manage_build_directory not_found_env sample_world)) 404%Z "Not Found");
    reflexivity.
Defined.

(** ** The selection boxes *)

Example default_version_is_not_the_latest :
  default_version ["0.9.0"; "0.15.2"; "0.14.0"] = "0.9.0".
Proof. reflexivity. Qed.

Example get_available_cuda_versions_sample :
  get_available_cuda_versions toolkits_fs = Ok ["9.2"; "12.1"; "11.8"].
Proof. reflexivity. Qed.

Lemma default_cuda_is_installed_witness :
  exists_ (cuda_path (with_cuda "9.2" sample_env)) toolkits_fs = true.
Proof.
  apply (default_cuda_is_installed (with_cuda "9.2" sample_env) toolkits_fs
           ["9.2"; "12.1"; "11.8"]).
  - reflexivity.
  - discriminate.
  - reflexivity.
Defined.

(** ** The user says no *)

Lemma declined_run_changes_nothing_witness :
  fs (snd (build_only declining_env sample_world)) = fs sample_world /\
  fs (snd (start_installation declining_env sample_world)) = fs sample_world.
Proof.
  destruct (declined_run_changes_nothing (V := ascii_volume) declining_env sample_world eq_refl eq_refl)
    as [(w1 & H1 & F1 & _) (w2 & H2 & F2 & _)].
  rewrite H1, H2. split; [exact F1 | exact F2].
Defined.

(** ** Installing a built wheel *)

Lemma install_wheel_without_wheel_witness :
  exists w',
    install_wheel sample_env fresh_world = (Ok tt, w') /\
    fs w' = fs fresh_world /\
    log_area w' = log_area fresh_world ++
      ["Looking for built wheel...";
       "Error during installation: No wheel file found. Please build DeepSpeed first."] /\
    boxes w' = boxes fresh_world ++
      [ShowError "Error"
         "Installation failed: No wheel file found. Please build DeepSpeed first."].
Proof.
  apply (install_wheel_without_wheel sample_env fresh_world). reflexivity.
Defined.

Lemma install_wheel_ignores_uninstall_status_witness :
  exists w',
    install_wheel first_install_env two_wheels_world = (Ok tt, w') /\
    fs w' = fs two_wheels_world /\
    In "✓ Installation completed successfully!" (log_area w') /\
    boxes w' = boxes two_wheels_world ++
      [ShowInfo "Success" "DeepSpeed has been successfully installed!"].
Proof.
  apply (install_wheel_ignores_uninstall_status first_install_env two_wheels_world
           "deepspeed-0.15.2-win_amd64.whl" ["deepspeed-0.15.1-win_amd64.whl"] 1%Z);
    reflexivity.
Defined.
